(** * NDB weekly status dashboard: field projection, tracker authentication
      and wiki summaries

    A shallow embedding of the JavaScript sources
    - [jira-client-clean.js], the module that [server.js] requires (class
      [JiraClient]: [makeJiraRequest], [tryBearerTokenRequest],
      [tryPATTokenRequest], [tryBasicAuthRequest], [formatIssues],
      [getFieldValue], [formatFieldValue], [checkLabel], and further on
      [validateConfiguration], [fetchAllData], [refreshColumns],
      [getIssueDetails], [extractErrorMessage]; its text follows the
      readme in src/README.md),
    - [confluence-client.js] (class [ConfluenceClient]),
    - [server.js] (the handlers of the JSON routes that reach these two
      clients),
    followed by the properties stated about them.

    Conventions of the embedding.
    - A JavaScript string is a sequence of code units; [string] stands for it,
      one [ascii] per code unit (code units 0..255).
    - Values exchanged with the tracker and the wiki are JSON values, plus
      [undefined], which is what reading a missing property yields.  A
      computed read [value[part]] goes through the prototype chain, so it can
      also reach [Object.prototype], [Array.prototype] and their built-in
      functions; these never occur in a request or a response body.
    - An object lists its own properties as the engine enumerates them: the
      keys that spell an array index first, in ascending order, then the
      other keys in the order of their creation.
    - A [throw] is the [Throw] outcome of [Res]; code that talks to the
      network additionally threads the log of requests sent so far. *)

From Stdlib Require Import ZArith Lia Bool Ascii String DecimalString DecimalNat List.
From stdpp Require Import base strings list gmap.
Import ListNotations.

#[local] Set Warnings "-register-all".

(* ================================================================== *)
(** * Part I. Definitions                                              *)
(* ================================================================== *)

(** ** Strings *)

Module Str.

Definition of_nat (n : nat) : string := NilEmpty.string_of_uint (Nat.to_uint n).

Definition of_Z (z : Z) : string := NilZero.string_of_int (Z.to_int z).

Definition code (c : ascii) : N := N_of_ascii c.

(** [String.prototype.toLowerCase] on the code units 0..255: the ASCII
    capitals and the Latin-1 capitals U+00C0..U+00DE (U+00D7 is the
    multiplication sign) move 32 places up. *)
Definition lower_char (c : ascii) : ascii :=
  let n := code c in
  if ((65 <=? n) && (n <=? 90))%N then ascii_of_N (n + 32)
  else if ((192 <=? n) && (n <=? 222) && negb (n =? 215))%N then ascii_of_N (n + 32)
  else c.

Fixpoint toLowerCase (s : string) : string :=
  match s with
  | EmptyString => EmptyString
  | String c s' => String (lower_char c) (toLowerCase s')
  end.

(** [s.startsWith(p)] *)
Definition startsWith (s p : string) : bool := String.prefix p s.

(** [s.includes(p)] *)
Fixpoint includes (s p : string) : bool :=
  if String.prefix p s then true
  else match s with
       | EmptyString => false
       | String _ s' => includes s' p
       end.

(** [s.substring(0, n)] *)
Definition take (n : nat) (s : string) : string := String.substring 0 n s.

(** WhiteSpace and LineTerminator code units below 256: TAB, LF, VT, FF, CR,
    SP and NBSP.  This is the class [\s] and what [trim] removes. *)
Definition is_space (c : ascii) : bool :=
  let n := code c in
  (((9 <=? n) && (n <=? 13)) || (n =? 32) || (n =? 160))%N.

Fixpoint trimStart (s : string) : string :=
  match s with
  | EmptyString => EmptyString
  | String c s' => if is_space c then trimStart s' else s
  end.

Fixpoint all_space (s : string) : bool :=
  match s with
  | EmptyString => true
  | String c s' => is_space c && all_space s'
  end.

Fixpoint trimEnd (s : string) : string :=
  match s with
  | EmptyString => EmptyString
  | String c s' => if all_space s then EmptyString else String c (trimEnd s')
  end.

Definition trim (s : string) : string := trimEnd (trimStart s).

(** [s.split(sep)] for a non-empty separator.  [skip] counts the code units
    of a separator occurrence still to be passed over; [cur] is the piece
    being accumulated, last code unit first. *)
Fixpoint split_go (sep : string) (skip : nat) (cur : string) (s : string) : list string :=
  match s with
  | EmptyString => [String.rev cur]
  | String c s' =>
      match skip with
      | S n => split_go sep n cur s'
      | O =>
          if String.prefix sep s
          then String.rev cur :: split_go sep (String.length sep - 1) EmptyString s'
          else split_go sep O (String c cur) s'
      end
  end.

Definition split (sep s : string) : list string := split_go sep O EmptyString s.

(** [parts.join(sep)] on strings *)
Fixpoint join (sep : string) (parts : list string) : string :=
  match parts with
  | [] => EmptyString
  | [p] => p
  | p :: rest => p +:+ sep +:+ join sep rest
  end.

(** [s.replace(/\/$/, '')]: drop one trailing slash *)
Fixpoint stripTrailingSlash (s : string) : string :=
  match s with
  | EmptyString => EmptyString
  | String c EmptyString => if Ascii.eqb c "/" then EmptyString else s
  | String c s' => String c (stripTrailingSlash s')
  end.

End Str.

(** ** JavaScript values, exceptions and property access *)

Module Js.

(** A built-in object that a property read reaches through the prototype
    chain of an object or an array: [Object.prototype], [Array.prototype], or
    a built-in function, which is known by its [name] and its [length]. *)
Inductive Builtin : Type :=
  | ObjectPrototype
  | ArrayPrototype
  | NativeFunction (name : string) (arity : nat).

(** A JSON value, [undefined], or a built-in object.  A number is
    identified by its decimal rendering ([Number.prototype.toString]); [0]
    and [-0] both render ["0"].  An object lists its own properties in the
    order in which the engine enumerates them; a lookup takes the first entry
    of a name. *)
Inductive JsVal : Type :=
  | JUndefined
  | JNull
  | JBool (b : bool)
  | JNum (repr : string)
  | JStr (s : string)
  | JArr (items : list JsVal)
  | JObj (props : list (string * JsVal))
  | JNative (b : Builtin).

(** Structural induction on values, through arrays and objects. *)
Fixpoint JsVal_induction (P : JsVal -> Prop)
    (Hundefined : P JUndefined) (Hnull : P JNull)
    (Hbool : forall b, P (JBool b)) (Hnum : forall r, P (JNum r))
    (Hstr : forall s, P (JStr s))
    (Harr : forall items, Forall P items -> P (JArr items))
    (Hobj : forall props, Forall (fun kv => P (snd kv)) props -> P (JObj props))
    (Hnative : forall b, P (JNative b))
    (v : JsVal) {struct v} : P v :=
  let rec := JsVal_induction P Hundefined Hnull Hbool Hnum Hstr Harr Hobj Hnative in
  match v with
  | JUndefined => Hundefined
  | JNull => Hnull
  | JBool b => Hbool b
  | JNum r => Hnum r
  | JStr s => Hstr s
  | JArr items =>
      Harr items
        ((fix all (l : list JsVal) : Forall P l :=
            match l with
            | [] => List.Forall_nil P
            | x :: rest => List.Forall_cons P x rest (rec x) (all rest)
            end) items)
  | JObj props =>
      Hobj props
        ((fix all (l : list (string * JsVal)) : Forall (fun kv => P (snd kv)) l :=
            match l with
            | [] => List.Forall_nil _
            | (k, x) :: rest =>
                List.Forall_cons (fun kv => P (snd kv)) (k, x) rest (rec x) (all rest)
            end) props)
  | JNative b => Hnative b
  end.

(** An HTTP response as axios presents it. *)
Record Response : Type := mkResponse {
  status : Z;
  statusText : string;
  headers : gmap string string;
  data : JsVal
}.

(** A thrown [Error]: its [message], and the [response] and [code] that an
    axios error carries. *)
Record JsError : Type := mkError {
  message : string;
  response : option Response;
  code : option string
}.

Definition Error (msg : string) : JsError := mkError msg None None.

(** A [TypeError] raised by the engine; the text is V8's. *)
Definition TypeError (msg : string) : JsError := mkError msg None None.

Inductive Res (A : Type) : Type :=
  | Ok (a : A)
  | Throw (e : JsError).
Arguments Ok {A} a.
Arguments Throw {A} e.

Definition bind {A B : Type} (m : Res A) (f : A -> Res B) : Res B :=
  match m with
  | Ok a => f a
  | Throw e => Throw e
  end.

Definition tryCatch {A : Type} (m : Res A) (handler : JsError -> Res A) : Res A :=
  match m with
  | Ok a => Ok a
  | Throw e => handler e
  end.

Declare Scope res_scope.
Delimit Scope res_scope with res.
Notation "x <- m ;; k" := (bind m (fun x => k))
  (at level 100, m at next level, right associativity) : res_scope.

(** ToBoolean *)
Definition truthy (v : JsVal) : bool :=
  match v with
  | JUndefined | JNull => false
  | JBool b => b
  | JNum r => negb (String.eqb r "0" || String.eqb r "NaN")
  | JStr s => negb (String.eqb s "")
  | JArr _ | JObj _ | JNative _ => true
  end.

Definition nullish (v : JsVal) : bool :=
  match v with
  | JUndefined | JNull => true
  | _ => false
  end.

(** [a || b] *)
Definition or (a b : JsVal) : JsVal := if truthy a then a else b.

(** [typeof v === 'object']; a function answers ['function'] *)
Definition typeofObject (v : JsVal) : bool :=
  match v with
  | JNull | JArr _ | JObj _ => true
  | JNative ObjectPrototype | JNative ArrayPrototype => true
  | _ => false
  end.

(** [typeof v === 'string'] *)
Definition typeofString (v : JsVal) : bool :=
  match v with
  | JStr _ => true
  | _ => false
  end.

(** [Array.isArray(v)]; [Array.prototype] is itself an array, an empty one *)
Definition isArray (v : JsVal) : bool :=
  match v with
  | JArr _ => true
  | JNative ArrayPrototype => true
  | _ => false
  end.

Fixpoint assoc (name : string) (props : list (string * JsVal)) : option JsVal :=
  match props with
  | [] => None
  | (k, v) :: rest => if String.eqb k name then Some v else assoc name rest
  end.

(** The element of an array named by the canonical decimal index [name]. *)
Fixpoint element (items : list JsVal) (i : nat) (name : string) : option JsVal :=
  match items with
  | [] => None
  | x :: rest => if String.eqb (Str.of_nat i) name then Some x else element rest (S i) name
  end.

Fixpoint charAt (s : string) (i : nat) (name : string) : option JsVal :=
  match s with
  | EmptyString => None
  | String c rest =>
      if String.eqb (Str.of_nat i) name then Some (JStr (String c EmptyString))
      else charAt rest (S i) name
  end.

(** The methods of [Object.prototype] and of [Array.prototype] as of
    ECMAScript 2023 (Annex B included), each with the number of parameters it
    declares. *)
Definition objectMethods : list (string * nat) :=
  [ ("hasOwnProperty", 1); ("isPrototypeOf", 1); ("propertyIsEnumerable", 1);
    ("toLocaleString", 0); ("toString", 0); ("valueOf", 0);
    ("__defineGetter__", 2); ("__defineSetter__", 2);
    ("__lookupGetter__", 1); ("__lookupSetter__", 1) ].

Definition arrayMethods : list (string * nat) :=
  [ ("at", 1); ("concat", 1); ("copyWithin", 2); ("entries", 0); ("every", 1);
    ("fill", 1); ("filter", 1); ("find", 1); ("findIndex", 1); ("findLast", 1);
    ("findLastIndex", 1); ("flat", 0); ("flatMap", 1); ("forEach", 1);
    ("includes", 1); ("indexOf", 1); ("join", 1); ("keys", 0); ("lastIndexOf", 1);
    ("map", 1); ("pop", 0); ("push", 1); ("reduce", 1); ("reduceRight", 1);
    ("reverse", 0); ("shift", 0); ("slice", 2); ("some", 1); ("sort", 1);
    ("splice", 2); ("toLocaleString", 0); ("toReversed", 0); ("toSorted", 1);
    ("toSpliced", 2); ("toString", 0); ("unshift", 1); ("values", 0); ("with", 2) ].

Fixpoint method (methods : list (string * nat)) (name : string) : option JsVal :=
  match methods with
  | [] => None
  | (k, arity) :: rest =>
      if String.eqb k name then Some (JNative (NativeFunction k arity))
      else method rest name
  end.

(** The own property [name] of [v], if it has one.  Of a function the
    embedding knows the two properties that every function has, its [name]
    and its [length]. *)
Definition own (v : JsVal) (name : string) : option JsVal :=
  match v with
  | JObj props => assoc name props
  | JArr items =>
      if String.eqb name "length" then Some (JNum (Str.of_nat (length items)))
      else element items 0 name
  | JStr s =>
      if String.eqb name "length" then Some (JNum (Str.of_nat (String.length s)))
      else charAt s 0 name
  | JNative ObjectPrototype =>
      if String.eqb name "constructor" then Some (JNative (NativeFunction "Object" 1))
      else method objectMethods name
  | JNative ArrayPrototype =>
      if String.eqb name "length" then Some (JNum "0")
      else if String.eqb name "constructor" then Some (JNative (NativeFunction "Array" 1))
      else method arrayMethods name
  | JNative (NativeFunction fname arity) =>
      if String.eqb name "name" then Some (JStr fname)
      else if String.eqb name "length" then Some (JNum (Str.of_nat arity))
      else None
  | _ => None
  end.

(** [v.name] for a property name that the sources write out ([url],
    [name], [length], ...) on a value that is neither [null] nor [undefined]:
    no prototype defines any of these names, so the read yields the own
    property or [undefined]. *)
Definition get (v : JsVal) (name : string) : JsVal :=
  match own v name with
  | Some w => w
  | None => JUndefined
  end.

(** The prototype chain of an object. *)
Definition prototypes (v : JsVal) : list JsVal :=
  match v with
  | JObj _ => [JNative ObjectPrototype]
  | JArr _ => [JNative ArrayPrototype; JNative ObjectPrototype]
  | JNative ArrayPrototype => [JNative ObjectPrototype]
  | _ => []
  end.

Fixpoint firstOwn (holders : list JsVal) (name : string) : option JsVal :=
  match holders with
  | [] => None
  | holder :: rest =>
      match own holder name with
      | Some w => Some w
      | None => firstOwn rest name
      end
  end.

(** [v[name]] for a computed [name] on an object [v] ([typeof v] is
    ['object'] and [v] is not [null]): the property is looked up in [v] and
    then along its prototype chain.  [__proto__] is an accessor of
    [Object.prototype] that answers the prototype of [v], which is [null] for
    [Object.prototype] itself. *)
Definition member (v : JsVal) (name : string) : JsVal :=
  match own v name with
  | Some w => w
  | None =>
      if String.eqb name "__proto__" then hd JNull (prototypes v)
      else default JUndefined (firstOwn (prototypes v) name)
  end.

(** [v.name]: reading a property of [null] or [undefined] throws *)
Definition getProp (v : JsVal) (name : string) : Res JsVal :=
  if nullish v
  then Throw (TypeError ("Cannot read properties of null or undefined (reading '" +:+ name +:+ "')"))
  else Ok (get v name).

(** [v?.name] *)
Definition getOpt (v : JsVal) (name : string) : JsVal :=
  if nullish v then JUndefined else get v name.

(** [Array.prototype.join] over already converted pieces: [undefined] and
    [null] elements contribute the empty string, the others [conv]. *)
Section Join.
Variable conv : JsVal -> Res string.

Definition piece (v : JsVal) : Res string :=
  if nullish v then Ok EmptyString else conv v.

Fixpoint joinWith (sep : string) (items : list JsVal) : Res string :=
  match items with
  | [] => Ok EmptyString
  | [x] => piece x
  | x :: rest =>
      (a <- piece x ;;
       b <- joinWith sep rest ;;
       Ok (a +:+ sep +:+ b))%res
  end.
End Join.

(** ToString.  An array joins its elements with a comma.  A plain object
    answers ["[object Object]"] through [Object.prototype.toString], unless an
    own [toString] property shadows it: a JSON value is never callable, and
    [valueOf] gives no primitive either, so the conversion throws.  A
    built-in function answers its source text as V8 prints it. *)
Fixpoint ToString (v : JsVal) : Res string :=
  match v with
  | JUndefined => Ok "undefined"
  | JNull => Ok "null"
  | JBool true => Ok "true"
  | JBool false => Ok "false"
  | JNum r => Ok r
  | JStr s => Ok s
  | JArr items =>
      (fix go (l : list JsVal) : Res string :=
         match l with
         | [] => Ok EmptyString
         | [x] => if nullish x then Ok EmptyString else ToString x
         | x :: rest =>
             (a <- (if nullish x then Ok EmptyString else ToString x) ;;
              b <- go rest ;;
              Ok (a +:+ "," +:+ b))%res
         end) items
  | JObj props =>
      match assoc "toString" props with
      | Some _ => Throw (TypeError "Cannot convert object to primitive value")
      | None => Ok "[object Object]"
      end
  | JNative ObjectPrototype => Ok "[object Object]"
  | JNative ArrayPrototype => Ok EmptyString
  | JNative (NativeFunction name _) => Ok ("function " +:+ name +:+ "() { [native code] }")
  end.

(** [items.join(sep)] *)
Definition join (sep : string) (items : list JsVal) : Res string :=
  joinWith ToString sep items.

(** [v.toString()] *)
Definition toString (v : JsVal) : Res string :=
  match v with
  | JUndefined | JNull =>
      Throw (TypeError "Cannot read properties of null or undefined (reading 'toString')")
  | JObj props =>
      match assoc "toString" props with
      | Some _ => Throw (TypeError "value.toString is not a function")
      | None => Ok "[object Object]"
      end
  | _ => ToString v
  end.

(** ToPrimitive, as [new Date(v)] applies it. *)
Definition ToPrimitive (v : JsVal) : Res JsVal :=
  match v with
  | JArr _ | JObj _ | JNative _ => (s <- ToString v ;; Ok (JStr s))%res
  | _ => Ok v
  end.

(** [s.toLowerCase()] on a value: only strings have the method. *)
Definition toLowerCase (v : JsVal) : Res string :=
  match v with
  | JStr s => Ok (Str.toLowerCase s)
  | JUndefined | JNull =>
      Throw (TypeError "Cannot read properties of null or undefined (reading 'toLowerCase')")
  | _ => Throw (TypeError "toLowerCase is not a function")
  end.

End Js.

(** ** Regular expressions

    The fragment of ECMAScript regular expressions that the sources use,
    with the backtracking order of the standard: alternatives left to right,
    a greedy quantifier longest first, a lazy one shortest first.  The
    matcher is written in continuation-passing style: [k] receives the rest
    of the input and the captures, and answers [None] to make the matcher
    backtrack. *)

Module Regex.

Inductive regex : Type :=
  | Eps
  | Chr (p : ascii -> bool)            (* one code unit of a class *)
  | Seq (r1 r2 : regex)
  | Alt (r1 r2 : regex)                (* r1|r2 *)
  | Star (p : ascii -> bool)           (* [..]*  greedy *)
  | Lazy (p : ascii -> bool)           (* [..]*? lazy *)
  | Group (n : nat) (r : regex)        (* capture group number n *)
  | Ahead (r : regex)                  (* (?=r) *)
  | Eoi.                               (* $ without the m flag *)

Declare Scope regex_scope.
Delimit Scope regex_scope with re.
Bind Scope regex_scope with regex.
Infix "·" := Seq (at level 41, right associativity) : regex_scope.

Definition captures : Type := list (nat * string).

Fixpoint capture (n : nat) (c : captures) : option string :=
  match c with
  | [] => None
  | (m, s) :: rest => if Nat.eqb m n then Some s else capture n rest
  end.

(** The part of [s] consumed when [rest] is what remains of it. *)
Definition consumed (s rest : string) : string :=
  Str.take (String.length s - String.length rest) s.

Section Matcher.
Context {R : Type}.

Fixpoint greedyStar (p : ascii -> bool) (k : string -> option R) (s : string) : option R :=
  match s with
  | String c s' =>
      if p c
      then match greedyStar p k s' with
           | Some r => Some r
           | None => k s
           end
      else k s
  | EmptyString => k s
  end.

Fixpoint lazyStar (p : ascii -> bool) (k : string -> option R) (s : string) : option R :=
  match k s with
  | Some r => Some r
  | None =>
      match s with
      | String c s' => if p c then lazyStar p k s' else None
      | EmptyString => None
      end
  end.
End Matcher.

Fixpoint run (r : regex) (R : Type) (s : string) (c : captures)
    (k : string -> captures -> option R) {struct r} : option R :=
  match r with
  | Eps => k s c
  | Chr p =>
      match s with
      | String a s' => if p a then k s' c else None
      | EmptyString => None
      end
  | Seq r1 r2 => run r1 R s c (fun s' c' => run r2 R s' c' k)
  | Alt r1 r2 =>
      match run r1 R s c k with
      | Some x => Some x
      | None => run r2 R s c k
      end
  | Star p => greedyStar p (fun s' => k s' c) s
  | Lazy p => lazyStar p (fun s' => k s' c) s
  | Group n r1 => run r1 R s c (fun s' c' => k s' ((n, consumed s s') :: c'))
  | Ahead r1 =>
      match run r1 unit s c (fun _ _ => Some tt) with
      | Some _ => k s c
      | None => None
      end
  | Eoi =>
      match s with
      | EmptyString => k s c
      | String _ _ => None
      end
  end.

(** A match of [r] at the start of [s]: what remains and the captures. *)
Definition matchAt (r : regex) (s : string) : option (string * captures) :=
  run r (string * captures) s [] (fun rest c => Some (rest, c)).

(** [s.match(r)] without the g flag: the captures of the leftmost match. *)
Fixpoint exec (r : regex) (s : string) : option captures :=
  match matchAt r s with
  | Some (_, c) => Some c
  | None =>
      match s with
      | EmptyString => None
      | String _ s' => exec r s'
      end
  end.

(** [s.replace(r, rep)] with the g flag.  [skip] counts the code units of
    the last match still to be passed over. *)
Fixpoint replace_go (r : regex) (rep : string) (skip : nat) (s : string) : string :=
  match s with
  | EmptyString =>
      match matchAt r s with
      | Some _ => rep
      | None => EmptyString
      end
  | String a s' =>
      match skip with
      | S n => replace_go r rep n s'
      | O =>
          match matchAt r s with
          | Some (rest, _) =>
              match String.length s - String.length rest with
              | O => rep +:+ String a (replace_go r rep O s')
              | S n => rep +:+ replace_go r rep n s'
              end
          | None => String a (replace_go r rep O s')
          end
      end
  end.

Definition replaceAll (r : regex) (rep : string) (s : string) : string :=
  replace_go r rep O s.

(** *** Classes and literals *)

Definition any : ascii -> bool := fun _ => true.                   (* . with the s flag *)
Definition only (a : ascii) : ascii -> bool := fun c => Ascii.eqb c a.
Definition except (a : ascii) : ascii -> bool := fun c => negb (Ascii.eqb c a).  (* [^a] *)
Definition digit : ascii -> bool :=                                 (* \d *)
  fun c => ((48 <=? Str.code c) && (Str.code c <=? 57))%N.

(** A code unit under the i flag: an ASCII letter matches both of its cases
    and nothing else (a code unit of 128 or more is never folded into ASCII). *)
Definition upper_ascii (c : ascii) : ascii :=
  let n := Str.code c in
  if ((97 <=? n) && (n <=? 122))%N then ascii_of_N (n - 32) else c.

Definition is_ci (a : ascii) : ascii -> bool :=
  fun c => Ascii.eqb (upper_ascii c) (upper_ascii a).

Fixpoint oneOf (set : string) : ascii -> bool :=
  fun c =>
    match set with
    | EmptyString => false
    | String a rest => Ascii.eqb c a || oneOf rest c
    end.

Fixpoint lit (s : string) : regex :=
  match s with
  | EmptyString => Eps
  | String a EmptyString => Chr (only a)
  | String a rest => Seq (Chr (only a)) (lit rest)
  end.

Fixpoint lit_ci (s : string) : regex :=
  match s with
  | EmptyString => Eps
  | String a EmptyString => Chr (is_ci a)
  | String a rest => Seq (Chr (is_ci a)) (lit_ci rest)
  end.

(** [r?], greedy *)
Definition opt (r : regex) : regex := Alt r Eps.

(** [[..]+], greedy *)
Definition plus (p : ascii -> bool) : regex := Seq (Chr p) (Star p).

End Regex.

(** ** The network

    Every exchange goes through axios.  The world outside is a function
    [net] from the requests sent so far and the request at hand to what comes
    back; client code threads the log of requests it has sent. *)

Module Net.
Import Js.

Inductive Verb : Type := GET | POST.

Record Request : Type := mkRequest {
  verb : Verb;
  url : string;
  reqHeaders : gmap string string;
  body : JsVal;
  timeout : option Z
}.

Inductive Outcome : Type :=
  | Reply (r : Response)
  | Failure (msg : string) (errCode : string).   (* no response: DNS, refused, timeout *)

Definition World : Type := list Request -> Request -> Outcome.

(** A computation that may send requests and may throw. *)
Definition M (A : Type) : Type := list Request -> Res A * list Request.

Definition ret {A : Type} (a : A) : M A := fun log => (Ok a, log).

Definition throw {A : Type} (e : JsError) : M A := fun log => (Throw e, log).

Definition lift {A : Type} (m : Res A) : M A := fun log => (m, log).

Definition mbind {A B : Type} (m : M A) (f : A -> M B) : M B :=
  fun log =>
    match m log with
    | (Ok a, log') => f a log'
    | (Throw e, log') => (Throw e, log')
    end.

(** [try { m } catch (error) { handler error }] *)
Definition catch {A : Type} (m : M A) (handler : JsError -> M A) : M A :=
  fun log =>
    match m log with
    | (Ok a, log') => (Ok a, log')
    | (Throw e, log') => handler e log'
    end.

Declare Scope net_scope.
Delimit Scope net_scope with net.
Notation "x <- m ;; k" := (mbind m (fun x => k))
  (at level 100, m at next level, right associativity) : net_scope.

(** axios rejects a response whose status [validateStatus] refuses; the
    error carries the response, and a code for the statuses 4xx and 5xx. *)
Definition statusError (r : Response) : JsError :=
  mkError ("Request failed with status code " +:+ Str.of_Z (status r)) (Some r)
          (if ((400 <=? status r) && (status r <? 500))%Z then Some "ERR_BAD_REQUEST"
           else if ((500 <=? status r) && (status r <? 600))%Z then Some "ERR_BAD_RESPONSE"
           else None).

Definition axios (net : World) (validateStatus : Z -> bool) (req : Request) : M Response :=
  fun log =>
    match net log req with
    | Reply r =>
        if validateStatus (status r) then (Ok r, log ++ [req])
        else (Throw (statusError r), log ++ [req])
    | Failure msg c => (Throw (mkError msg None (Some c)), log ++ [req])
    end.

(** axios' default: [status >= 200 && status < 300] *)
Definition defaultValidate (s : Z) : bool := ((200 <=? s) && (s <? 300))%Z.

(** The sources' own: [status >= 200 && status < 600] *)
Definition anyStatus (s : Z) : bool := ((200 <=? s) && (s <? 600))%Z.

End Net.

(** ** confluence-client.js *)

Module Confluence.
Import Js Regex Net.
Local Open Scope regex_scope.

Record ConfluenceClient : Type := mkClient {
  baseUrl : string;
  token : option string          (* [loadToken()]: the file's content or [null] *)
}.

(** [v.match(r)]: only strings have the method *)
Definition strMatch (v : JsVal) (r : regex) : Res (option captures) :=
  match v with
  | JStr s => Ok (exec r s)
  | JUndefined | JNull =>
      Throw (TypeError "Cannot read properties of null or undefined (reading 'match')")
  | _ => Throw (TypeError "match is not a function")
  end.

(** [m[n]] of a match result: the capture or [undefined] *)
Definition group (n : nat) (c : captures) : JsVal :=
  match capture n c with
  | Some s => JStr s
  | None => JUndefined
  end.

(** [/pageId=(\d+)|pages\/(\d+)/] *)
Definition pageIdRegex : regex :=
  Alt (lit "pageId=" · Group 1 (plus digit)) (lit "pages/" · Group 2 (plus digit)).

(** [/\/pages\/(\d+)/] *)
Definition pathRegex : regex := lit "/pages/" · Group 1 (plus digit).

Definition extractPageId (confluenceUrl : JsVal) : Res JsVal :=
  if negb (truthy confluenceUrl) then Ok JNull
  else
    (urlString <-
       (if typeofObject confluenceUrl
        then
          let probed := or (get confluenceUrl "url") (get confluenceUrl "value") in
          if truthy probed then Ok probed
          else (s <- toString confluenceUrl ;; Ok (JStr s))
        else Ok confluenceUrl) ;;
     if negb (truthy urlString) then Ok JNull
     else
       pageIdMatch <- strMatch urlString pageIdRegex ;;
       match pageIdMatch with
       | Some m => Ok (or (group 1 m) (group 2 m))
       | None =>
           pathMatch <- strMatch urlString pathRegex ;;
           match pathMatch with
           | Some m => Ok (group 1 m)
           | None => Ok JNull
           end
       end)%res.

Definition extractUrl (fieldValue : JsVal) : JsVal :=
  if negb (truthy fieldValue) then JNull
  else if typeofString fieldValue &&
          match fieldValue with JStr s => Str.startsWith s "http" | _ => false end
  then fieldValue
  else if typeofObject fieldValue
  then or (or (or (get fieldValue "url") (get fieldValue "value")) (get fieldValue "href")) JNull
  else JNull.

(** [/<[^>]+>/g] *)
Definition tagRegex : regex := Chr (only "<") · plus (except ">") · Chr (only ">").

(** [/\s+/g] *)
Definition spacesRegex : regex := plus Str.is_space.

(** The three steps of [cleanHtml] on a string: tags become spaces, the six
    entities are decoded one after the other, runs of white space collapse
    and the ends are trimmed. *)
Definition cleanText (s : string) : string :=
  let text := replaceAll tagRegex " " s in
  let text := replaceAll (lit "&#39;") "'"
                (replaceAll (lit "&quot;") (String "034" EmptyString)
                   (replaceAll (lit "&gt;") ">"
                      (replaceAll (lit "&lt;") "<"
                         (replaceAll (lit "&amp;") "&"
                            (replaceAll (lit "&nbsp;") " " text))))) in
  Str.trim (replaceAll spacesRegex " " text).

Definition cleanHtml (html : JsVal) : Res string :=
  if negb (truthy html) then Ok EmptyString
  else
    match html with
    | JStr s => Ok (cleanText s)
    | _ => Throw (TypeError "html.replace is not a function")
    end.

(** [/<h[23][^>]*>Summary<\/h[23]>(.*?)(?=<h[123]|$)/is], in two parts: the
    heading [<h[23][^>]*>Summary<\/h[23]>] and the section
    [(.*?)(?=<h[123]|$)] that follows it. *)
Definition headingRegex : regex :=
  lit_ci "<h" · Chr (oneOf "23") · Star (except ">") · lit_ci ">Summary</h" ·
  Chr (oneOf "23") · Chr (only ">").

Definition sectionRegex : regex :=
  Group 1 (Lazy any) · Ahead (Alt (lit_ci "<h" · Chr (oneOf "123")) Eoi).

Definition summaryRegex : regex := headingRegex · sectionRegex.

(** [/<p[^>]*><strong[^>]*>Summary:?<\/strong>(.*?)<\/p>/is] *)
Definition summaryStrongRegex : regex :=
  lit_ci "<p" · Star (except ">") · lit_ci "><strong" · Star (except ">") ·
  lit_ci ">Summary" · opt (Chr (only ":")) · lit_ci "</strong>" ·
  Group 1 (Lazy any) · lit_ci "</p>".

(** [/<p[^>]*>(.*?)<\/p>/is] *)
Definition firstParaRegex : regex :=
  lit_ci "<p" · Star (except ">") · Chr (only ">") · Group 1 (Lazy any) · lit_ci "</p>".

Definition extractSummary (htmlContent : JsVal) : Res JsVal :=
  if negb (truthy htmlContent) then Ok JNull
  else
    tryCatch
      (m1 <- strMatch htmlContent summaryRegex ;;
       match m1 with
       | Some m => (s <- cleanHtml (group 1 m) ;; Ok (JStr s))
       | None =>
           m2 <- strMatch htmlContent summaryStrongRegex ;;
           match m2 with
           | Some m => (s <- cleanHtml (group 1 m) ;; Ok (JStr s))
           | None =>
               m3 <- strMatch htmlContent firstParaRegex ;;
               match m3 with
               | Some m => (s <- cleanHtml (group 1 m) ;; Ok (JStr s))
               | None => (s <- cleanHtml htmlContent ;; Ok (JStr (Str.take 500 s)))
               end
           end
       end)%res
      (fun _ => Ok JNull).

Local Open Scope net_scope.

Definition obj (props : list (string * JsVal)) : JsVal := JObj props.

Definition ofOption (o : option string) : JsVal :=
  match o with
  | Some s => JStr s
  | None => JUndefined
  end.

Section WithNet.
Variable net : World.
Variable this : ConfluenceClient.

Definition fetchPageContent (confluenceUrl : JsVal) (userToken : option string) : M JsVal :=
  catch
    (let url := extractUrl confluenceUrl in
     if negb (truthy url) then throw (Error "Invalid Confluence URL format")
     else
       pageId <- lift (extractPageId url) ;;
       if negb (truthy pageId)
       then throw (Error "Could not extract page ID from Confluence URL")
       else
         let token := or (ofOption userToken) (ofOption (token this)) in
         if negb (truthy token)
         then throw (Error "Confluence token not available. Please provide token.")
         else
           pageIdText <- lift (ToString pageId) ;;
           tokenText <- lift (ToString token) ;;
           let apiUrl := baseUrl this +:+ "/rest/api/content/" +:+ pageIdText
                         +:+ "?expand=body.storage,version" in
           response <- axios net defaultValidate
                         (mkRequest GET apiUrl
                            (<["Authorization" := "Bearer " +:+ tokenText]>
                               (<["Accept" := "application/json"]> ∅))
                            JUndefined (Some 10000%Z)) ;;
           title <- lift (getProp (data response) "title") ;;
           bodyField <- lift (getProp (data response) "body") ;;
           versionField <- lift (getProp (data response) "version") ;;
           ret (obj [ ("success", JBool true);
                      ("title", title);
                      ("body", or (getOpt (getOpt bodyField "storage") "value") (JStr ""));
                      ("version", or (getOpt versionField "number") (JNum "1")) ]))
    (fun error =>
       ret (obj [ ("success", JBool false);
                  ("error", JStr (message error));
                  ("title", JNull);
                  ("body", JNull) ])).

Definition getSummary (confluenceUrl : JsVal) (userToken : option string) : M JsVal :=
  catch
    (let url := extractUrl confluenceUrl in
     if negb (truthy url)
     then ret (obj [ ("success", JBool false);
                     ("summary", JNull);
                     ("error", JStr "No valid Confluence URL provided") ])
     else
       pageContent <- fetchPageContent url userToken ;;
       success <- lift (getProp pageContent "success") ;;
       if negb (truthy success)
       then
         error <- lift (getProp pageContent "error") ;;
         ret (obj [ ("success", JBool false);
                    ("summary", JNull);
                    ("error", or error (JStr "Failed to fetch page")) ])
       else
         pageBody <- lift (getProp pageContent "body") ;;
         summary <- lift (extractSummary pageBody) ;;
         title <- lift (getProp pageContent "title") ;;
         ret (obj [ ("success", JBool true);
                    ("summary", summary);
                    ("title", title);
                    ("error", JNull) ]))
    (fun error =>
       ret (obj [ ("success", JBool false);
                  ("summary", JNull);
                  ("error", JStr (message error)) ])).

(** [confluenceUrls.map(async (url, index) => ...)] awaited by [Promise.all]:
    the fetches start in index order, the one of index [i] after [i * 100]
    milliseconds, and each makes at most one exchange; the exchanges are
    taken in that order.  A rejected fetch rejects the whole. *)
Fixpoint summariesOf (confluenceUrls : list JsVal) (userToken : option string)
    : M (list JsVal) :=
  match confluenceUrls with
  | [] => ret []
  | url :: rest =>
      summary <- getSummary url userToken ;;
      summaries <- summariesOf rest userToken ;;
      ret (summary :: summaries)
  end.

(** [results[url] = value]: the property key is the string form of [url];
    assigning to [__proto__] creates no own property. *)
Definition setResult (results : gmap string JsVal) (url value : JsVal)
    : Res (gmap string JsVal) :=
  (key <- ToString url ;;
   if String.eqb key "__proto__" then Ok results
   else Ok (<[key := value]> results))%res.

Fixpoint collect (results : gmap string JsVal) (confluenceUrls summaries : list JsVal)
    : Res (gmap string JsVal) :=
  match confluenceUrls, summaries with
  | url :: urls', summary :: summaries' =>
      (results' <- setResult results url summary ;;
       collect results' urls' summaries')%res
  | url :: urls', [] =>
      (results' <- setResult results url JUndefined ;;
       collect results' urls' [])%res
  | [], _ => Ok results
  end.

Definition getSummaries (confluenceUrls : list JsVal) (userToken : option string)
    : M (gmap string JsVal) :=
  summaries <- summariesOf confluenceUrls userToken ;;
  lift (collect ∅ confluenceUrls summaries).

End WithNet.

End Confluence.

(** ** jira-client-clean.js: the field projector *)

Module Jira.
Import Js Regex Net.
Local Open Scope regex_scope.

(** A column definition of the backend configuration.  A field is [None]
    when the entry does not have it. *)
Record Column : Type := mkColumn {
  key : option string;
  jiraField : option string;
  type : option string;
  labelToCheck : option string
}.

(** The host's rendering of [new Date(v).toLocaleDateString()] and
    [new Date(v).toLocaleString()] for a primitive [v]; both depend on the
    locale and the time zone of the process, and neither throws (an invalid
    date renders as ["Invalid Date"]). *)
Record Host : Type := mkHost {
  toLocaleDateString : JsVal -> string;
  toLocaleString : JsVal -> string
}.

(** The state of a [JiraClient]: what its constructor reads from the
    [ConfigManager] (./config, not part of the sources at hand).  An entry of
    [defaultColumns] is [None] when it is [null]. *)
Record JiraClient : Type := mkClient {
  baseUrl : string;
  pat : option string;
  username : option string;
  defaultColumns : option (list (option Column));
  host : Host
}.

(** ToBoolean of a string that may be missing *)
Definition present (o : option string) : bool :=
  match o with
  | Some s => negb (String.eqb s "")
  | None => false
  end.

(** [a || b] on strings that may be missing *)
Definition orStr (a b : option string) : option string :=
  if present a then a else b.

(** [o === lit] *)
Definition isStr (o : option string) (lit : string) : bool :=
  match o with
  | Some s => String.eqb s lit
  | None => false
  end.

(** [a || k], where [k] is evaluated only when [a] is falsy *)
Definition orElse (a : JsVal) (k : Res JsVal) : Res JsVal :=
  if truthy a then Ok a else k.

Definition str (m : Res string) : Res JsVal := (s <- m ;; Ok (JStr s))%res.

(** The [for] loop of [getFieldValue] over the parts still to walk *)
Fixpoint walk (value : JsVal) (fieldParts : list string) : Res JsVal :=
  match fieldParts with
  | [] => Ok value
  | part :: rest =>
      if truthy value && typeofObject value
      then walk (member value part) rest
      else Ok JNull
  end.

Definition getFieldValue (issue : JsVal) (jiraField : string) : Res JsVal :=
  if negb (truthy issue) || String.eqb jiraField "" then Ok JNull
  else if String.eqb jiraField "key" then getProp issue "key"
  else
    (fields <- getProp issue "fields" ;;
     if negb (truthy fields) then Ok JNull
     else
       let fieldParts := Str.split "." jiraField in
       walk fields fieldParts)%res.

(** [value.map(item => item.name || item.toString())] *)
Fixpoint itemNames (items : list JsVal) : Res (list JsVal) :=
  match items with
  | [] => Ok []
  | item :: rest =>
      (name <- getProp item "name" ;;
       shown <- orElse name (str (toString item)) ;;
       shownRest <- itemNames rest ;;
       Ok (shown :: shownRest))%res
  end.

Section Projector.
Variable this : JiraClient.

Definition formatFieldValue (value : JsVal) (type : option string) : Res JsVal :=
  if nullish value
  then Ok (JStr (if isStr type "badge" then "Unknown" else ""))
  else if isStr type "link" then Ok value
  else if isStr type "confluence" then
    if typeofString value &&
       match value with JStr s => Str.startsWith s "http" | _ => false end
    then Ok value
    else if typeofObject value
    then
      (url <- getProp value "url" ;;
       orElse url
         (v <- getProp value "value" ;;
          orElse v
            (href <- getProp value "href" ;;
             orElse href (str (toString value)))))%res
    else str (toString value)
  else if isStr type "badge" then
    if typeofObject value
    then
      (name <- getProp value "name" ;;
       orElse name
         (displayName <- getProp value "displayName" ;;
          orElse displayName (str (toString value))))%res
    else str (toString value)
  else if isStr type "date" then
    (p <- ToPrimitive value ;; Ok (JStr (toLocaleDateString (host this) p)))%res
  else if isStr type "datetime" then
    (p <- ToPrimitive value ;; Ok (JStr (toLocaleString (host this) p)))%res
  else
    match value with
    | JArr items =>
        match items with
        | [] => Ok (JStr "")
        | first :: _ =>
            if typeofObject first
            then
              (names <- itemNames items ;; str (join ", " names))%res
            else str (join ", " items)
        end
    | JNative ArrayPrototype => Ok (JStr "")
    | _ =>
        if typeofObject value
        then
          (displayName <- getProp value "displayName" ;;
           orElse displayName
             (name <- getProp value "name" ;;
              orElse name (str (toString value))))%res
        else str (toString value)
    end.

End Projector.

(** [labels.some(label => ...)]: stops at the first entry that answers
    [true] *)
Fixpoint someLabel (labelToCheck : string) (labels : list JsVal) : Res bool :=
  match labels with
  | [] => Ok false
  | label :: rest =>
      (labelStr <-
         (if typeofString label then Ok label
          else
            name <- getProp label "name" ;;
            orElse name (str (toString label))) ;;
       lowered <- toLowerCase labelStr ;;
       if String.eqb lowered (Str.toLowerCase labelToCheck) then Ok true
       else someLabel labelToCheck rest)%res
  end.

Definition checkLabel (labels : JsVal) (labelToCheck : string) : Res string :=
  if negb (truthy labels) then Ok "No"
  else
    match labels with
    | JArr items =>
        (found <- someLabel labelToCheck items ;;
         Ok (if found : bool then "Yes" else "No"))%res
    | JNative ArrayPrototype => Ok "No"
    | JStr s =>
        Ok (if Str.includes (Str.toLowerCase s) (Str.toLowerCase labelToCheck)
            then "Yes" else "No")
    | _ => Ok "No"
    end.

(** The array index that a property name spells: the name is the
    canonical decimal numeral of a number below [2^32 - 1]. *)
Fixpoint digitsValue (acc : N) (s : string) : option N :=
  match s with
  | EmptyString => Some acc
  | String c rest =>
      if digit c then digitsValue (acc * 10 + (Str.code c - 48)) rest else None
  end.

Definition arrayIndex (name : string) : option N :=
  match name with
  | EmptyString => None
  | String c rest =>
      if Ascii.eqb c "0" && negb (String.eqb rest "") then None
      else
        match digitsValue 0 name with
        | Some n => if (n <? 4294967295)%N then Some n else None
        | None => None
        end
  end.

Fixpoint replaceProp (row : list (string * JsVal)) (name : string) (value : JsVal)
    : list (string * JsVal) :=
  match row with
  | [] => []
  | (k, v) :: rest =>
      if String.eqb k name then (k, value) :: rest
      else (k, v) :: replaceProp rest name value
  end.

Fixpoint insertIndexed (row : list (string * JsVal)) (index : N) (name : string)
    (value : JsVal) : list (string * JsVal) :=
  match row with
  | [] => [(name, value)]
  | (k, v) :: rest =>
      match arrayIndex k with
      | Some j =>
          if (j <? index)%N then (k, v) :: insertIndexed rest index name value
          else (name, value) :: row
      | None => (name, value) :: row
      end
  end.

(** [row[name] = value] on the own properties of a plain object, which are
    kept in the order of enumeration (OrdinaryOwnPropertyKeys): the keys that
    spell an array index come first, in ascending order, the other keys
    follow in the order of their creation.  An existing property keeps its
    place. *)
Definition assign (row : list (string * JsVal)) (name : string) (value : JsVal)
    : list (string * JsVal) :=
  match assoc name row with
  | Some _ => replaceProp row name value
  | None =>
      match arrayIndex name with
      | Some index => insertIndexed row index name value
      | None => row ++ [(name, value)]
      end
  end.

(** Assigning to [__proto__] sets no own property. *)
Definition setProp (row : list (string * JsVal)) (name : string) (value : JsVal)
    : list (string * JsVal) :=
  if String.eqb name "__proto__" then row else assign row name value.

Section Format.
Variable this : JiraClient.

(** The body of [columns.forEach(column => ...)] for one column *)
Definition applyColumn (issue : JsVal) (row : list (string * JsVal))
    (column : option Column) : Res (list (string * JsVal)) :=
  match column with
  | Some col =>
      match jiraField col, key col with
      | Some field, Some name =>
          if negb (String.eqb field "") && negb (String.eqb name "")
          then
            (fieldValue <- getFieldValue issue field ;;
             if isStr (type col) "labelCheck" && present (labelToCheck col)
             then
               answer <- checkLabel fieldValue (default "" (labelToCheck col)) ;;
               Ok (setProp row name (JStr answer))
             else
               shown <- formatFieldValue this fieldValue (type col) ;;
               Ok (setProp row name shown))%res
          else Ok row
      | _, _ => Ok row
      end
  | None => Ok row
  end.

Fixpoint applyColumns (issue : JsVal) (row : list (string * JsVal))
    (columns : list (option Column)) : Res (list (string * JsVal)) :=
  match columns with
  | [] => Ok row
  | column :: rest =>
      (row' <- applyColumn issue row column ;;
       applyColumns issue row' rest)%res
  end.

Definition formatIssue (columns : list (option Column)) (issue : JsVal)
    : Res (list (string * JsVal)) :=
  let cleanBaseUrl := Str.stripTrailingSlash (baseUrl this) in
  (issueKey <- getProp issue "key" ;;
   keyText <- ToString issueKey ;;
   let formattedIssue :=
     [ ("url", JStr (cleanBaseUrl +:+ "/browse/" +:+ keyText));
       ("key", or issueKey (JStr "")) ] in
   applyColumns issue formattedIssue columns)%res.

Fixpoint mapIssues (columns : list (option Column)) (issues : list JsVal)
    : Res (list (list (string * JsVal))) :=
  match issues with
  | [] => Ok []
  | issue :: rest =>
      (row <- formatIssue columns issue ;;
       rows <- mapIssues columns rest ;;
       Ok (row :: rows))%res
  end.

Definition formatIssues (issues : JsVal) (useAllColumns : bool)
    : Res (list (list (string * JsVal))) :=
  match issues with
  | JArr items =>
      let columns := default [] (defaultColumns this) in
      mapIssues columns items
  | _ => Ok []
  end.

End Format.

(** ** jira-client-clean.js: the request loop *)

(** [Buffer.from(s).toString('base64')]: the UTF-8 bytes of [s] in base 64 *)
Fixpoint utf8 (s : string) : list N :=
  match s with
  | EmptyString => []
  | String c rest =>
      let n := Str.code c in
      if (n <? 128)%N then n :: utf8 rest
      else (192 + n / 64)%N :: (128 + n mod 64)%N :: utf8 rest
  end.

Definition sextet (n : N) : ascii :=
  default "="%char
    (String.get (N.to_nat n)
       "ABCDEFGHIJKLMNOPQRSTUVWXYZabcdefghijklmnopqrstuvwxyz0123456789+/").

Fixpoint base64 (bytes : list N) : string :=
  match bytes with
  | [] => EmptyString
  | [a] =>
      String (sextet (a / 4)) (String (sextet (a mod 4 * 16)) "==")
  | [a; b] =>
      String (sextet (a / 4))
        (String (sextet (a mod 4 * 16 + b / 16)) (String (sextet (b mod 16 * 4)) "="))
  | a :: b :: c :: rest =>
      String (sextet (a / 4))
        (String (sextet (a mod 4 * 16 + b / 16))
           (String (sextet (b mod 16 * 4 + c / 64))
              (String (sextet (c mod 64)) (base64 rest))))
  end%N.

(** [/\r?\n/g] *)
Definition newlineRegex : regex := opt (Chr (only "013")) · Chr (only "010").

(** [t.trim().replace(/\r?\n/g, '')]; a missing token has no [trim] *)
Definition cleanTokenOf (t : option string) : Res string :=
  match t with
  | Some s => Ok (replaceAll newlineRegex "" (Str.trim s))
  | None => Throw (TypeError "Cannot read properties of undefined (reading 'trim')")
  end.

(** [typeof v] *)
Definition typeOf (v : JsVal) : string :=
  match v with
  | JUndefined => "undefined"
  | JNull | JArr _ | JObj _ => "object"
  | JNative ObjectPrototype | JNative ArrayPrototype => "object"
  | JNative (NativeFunction _ _) => "function"
  | JBool _ => "boolean"
  | JNum _ => "number"
  | JStr _ => "string"
  end.

(** [typeof v === 'string' && v.includes(needle)] *)
Definition stringIncludes (v : JsVal) (needle : string) : bool :=
  match v with
  | JStr s => Str.includes s needle
  | _ => false
  end.

(** [v?.includes(needle)]: a string looks for a substring, an array for an
    element, nothing else has the method *)
Definition optIncludes (v : JsVal) (needle : string) : Res bool :=
  match v with
  | JUndefined | JNull => Ok false
  | JStr s => Ok (Str.includes s needle)
  | JArr items =>
      Ok (existsb (fun x => match x with JStr s => String.eqb s needle | _ => false end) items)
  | JNative ArrayPrototype => Ok false
  | _ => Throw (TypeError "includes is not a function")
  end.

(** [v.join(sep)]: only arrays have the method *)
Definition callJoin (v : JsVal) (sep : string) : Res string :=
  match v with
  | JArr items => join sep items
  | JNative ArrayPrototype => Ok EmptyString
  | _ => Throw (TypeError "join is not a function")
  end.

Definition basicDisabled : string := "Basic Authentication has been disabled".

Record HeaderFormat : Type := mkFormat {
  formatName : string;
  header : string
}.

Inductive AuthMethod : Type := BearerToken | PATTokenHeader | BasicAuth.

Definition methodName (m : AuthMethod) : string :=
  match m with
  | BearerToken => "Bearer Token (API v2)"
  | PATTokenHeader => "PAT Token Header"
  | BasicAuth => "Basic Auth"
  end.

Section Requests.
Variable net : World.
Variable this : JiraClient.
Local Open Scope net_scope.

Definition searchUrl : string :=
  Str.stripTrailingSlash (baseUrl this) +:+ "/rest/api/2/search".

Definition searchBody (jql fields : JsVal) : JsVal :=
  JObj [ ("jql", jql); ("maxResults", JNum "100"); ("fields", fields) ].

Definition jsonHeaders : gmap string string :=
  <["Accept" := "application/json"]> (<["Content-Type" := "application/json"]> ∅).

(** The [catch] of this method logs and rethrows. *)
Definition tryBearerTokenRequest (jql fields : JsVal) (token : option string) : M Response :=
  catch
    (let tokenToUse := orStr token (pat this) in
     cleanToken <- lift (cleanTokenOf tokenToUse) ;;
     response <- axios net anyStatus
                   (mkRequest POST searchUrl
                      (<["Authorization" := "Bearer " +:+ cleanToken]> jsonHeaders)
                      (searchBody jql fields) (Some 30000%Z)) ;;
     let contentType := default "" (headers response !! "content-type") in
     let responseData := data response in
     if negb (status response =? 200)%Z then
       if (status response =? 401)%Z || (status response =? 403)%Z
       then throw (Error "Authentication failed. Please check your Bearer token (PAT) is valid and has not expired.")
       else if (status response =? 302)%Z
       then throw (Error "Authentication redirect detected. Please verify your Bearer token is correct.")
       else if stringIncludes responseData "<!DOCTYPE" || stringIncludes responseData "<html"
       then throw (Error "Received HTML instead of JSON. Please check your Bearer token is valid.")
       else if truthy responseData && typeofObject responseData
                 && truthy (get responseData "errorMessages")
       then
         joined <- lift (callJoin (get responseData "errorMessages") "; ") ;;
         throw (Error ("Jira API error: " +:+ joined))
       else
         throw (Error ("HTTP " +:+ Str.of_Z (status response) +:+ ": "
                       +:+ (if String.eqb (statusText response) "" then "Unknown error"
                            else statusText response)))
     else if Str.includes contentType "text/html" || stringIncludes responseData "<!DOCTYPE"
     then throw (Error "Received HTML response instead of JSON. Please verify your Bearer token.")
     else if negb (truthy responseData) || negb (typeofObject responseData)
     then throw (Error ("Invalid response format from Jira API. Expected JSON but got: "
                        +:+ typeOf responseData))
     else ret response)
    (fun error => throw error).

Definition headerFormats (cleanToken : string) : list HeaderFormat :=
  [ mkFormat "X-API-Token" ("X-API-Token: " +:+ cleanToken);
    mkFormat "X-Auth-Token" ("X-Auth-Token: " +:+ cleanToken);
    mkFormat "Authorization Token" ("Authorization: Token " +:+ cleanToken);
    mkFormat "Authorization PAT" ("Authorization: PAT " +:+ cleanToken) ].

(** [const [headerName, headerValue] = format.header.split(': ');
    headers[headerName] = headerValue] *)
Definition patHeaders (format : HeaderFormat) : gmap string string :=
  match Str.split ": " (header format) with
  | headerName :: headerValue :: _ => <[headerName := headerValue]> jsonHeaders
  | _ => jsonHeaders
  end.

(** The [for] loop of [tryPATTokenRequest] over the formats still to try;
    the format compared with [headerFormats[headerFormats.length - 1]] is the
    one with nothing after it. *)
Fixpoint patLoop (jql fields : JsVal) (formats : list HeaderFormat) : M Response :=
  match formats with
  | [] => throw (Error "All PAT token header formats failed")
  | format :: rest =>
      fun log =>
        match axios net anyStatus
                (mkRequest POST searchUrl (patHeaders format) (searchBody jql fields)
                   (Some 30000%Z)) log with
        | (Ok response, log') =>
            if (status response =? 200)%Z then (Ok response, log')
            else if (status response =? 302)%Z || stringIncludes (data response) "<!DOCTYPE"
            then patLoop jql fields rest log'          (* continue *)
            else patLoop jql fields rest log'          (* end of the loop body *)
        | (Throw error, log') =>
            match rest with
            | [] => (Throw error, log')
            | _ :: _ => patLoop jql fields rest log'
            end
        end
  end.

Definition tryPATTokenRequest (jql fields : JsVal) : M Response :=
  cleanToken <- lift (cleanTokenOf (pat this)) ;;
  patLoop jql fields (headerFormats cleanToken).

Definition usernameFormats (username : string) : list string :=
  [ username;
    username +:+ "@nutanix.com";
    if Str.includes username "@" then username else username +:+ "@nutanix.com" ].

(** One turn of the [for] loop of [tryBasicAuthRequest]: [inl response] is
    [return response], [inr tt] goes on to the next format, a throw leaves
    the method.  [lastFormat] is [usernameFormats[usernameFormats.length - 1]],
    compared as a string. *)
Definition basicAttempt (jql fields : JsVal) (cleanToken lastFormat userFormat : string)
    : M (Response + unit) :=
  catch
    (let auth := base64 (utf8 (userFormat +:+ ":" +:+ cleanToken)) in
     response <- axios net anyStatus
                   (mkRequest POST searchUrl
                      (<["Authorization" := "Basic " +:+ auth]> jsonHeaders)
                      (searchBody jql fields) None) ;;
     if (status response =? 200)%Z then ret (inl response)
     else
       disabled <-
         (if (status response =? 403)%Z
          then lift (optIncludes (getOpt (data response) "message") basicDisabled)
          else ret false) ;;
       if disabled : bool then ret (inr tt)
       else
         detail <- lift (ToString (or (getOpt (data response) "message")
                                      (JStr (statusText response)))) ;;
         throw (Error ("HTTP " +:+ Str.of_Z (status response) +:+ ": " +:+ detail)))
    (fun error =>
       disabled <-
         match response error with
         | Some r =>
             if (status r =? 403)%Z
             then lift (optIncludes (getOpt (data r) "message") basicDisabled)
             else ret false
         | None => ret false
         end ;;
       if disabled : bool then ret (inr tt)
       else if String.eqb userFormat lastFormat then throw error
       else ret (inr tt)).

Fixpoint basicLoop (jql fields : JsVal) (cleanToken lastFormat : string)
    (formats : list string) : M Response :=
  match formats with
  | [] => throw (Error "Basic Authentication has been disabled on this instance")
  | userFormat :: rest =>
      turn <- basicAttempt jql fields cleanToken lastFormat userFormat ;;
      match turn with
      | inl response => ret response
      | inr _ => basicLoop jql fields cleanToken lastFormat rest
      end
  end.

Definition tryBasicAuthRequest (jql fields : JsVal) : M Response :=
  cleanToken <- lift (cleanTokenOf (pat this)) ;;
  let username := default "namratha.singh" (orStr (username this) None) in
  let formats := usernameFormats username in
  basicLoop jql fields cleanToken (List.last formats EmptyString) formats.

Definition authMethods (tokenToUse : option string) : list AuthMethod :=
  [BearerToken] ++ (if negb (present tokenToUse) then [PATTokenHeader; BasicAuth] else []).

Definition runMethod (jql fields : JsVal) (tokenToUse : option string) (m : AuthMethod)
    : M Response :=
  match m with
  | BearerToken => tryBearerTokenRequest jql fields tokenToUse
  | PATTokenHeader => tryPATTokenRequest jql fields
  | BasicAuth => tryBasicAuthRequest jql fields
  end.

(** The [for] loop of [makeJiraRequest]; [errors] holds the messages of the
    failures so far, the latest first. *)
Fixpoint authLoop (jql fields : JsVal) (tokenToUse : option string)
    (methods : list AuthMethod) (errors : list string) : M Response :=
  match methods with
  | [] =>
      throw (Error ("All authentication methods failed. Last error: "
                    +:+ match errors with
                        | msg :: _ => if String.eqb msg "" then "Unknown error" else msg
                        | [] => "Unknown error"
                        end))
  | authMethod :: rest =>
      fun log =>
        match runMethod jql fields tokenToUse authMethod log with
        | (Ok response, log') => (Ok response, log')
        | (Throw error, log') =>
            authLoop jql fields tokenToUse rest (message error :: errors) log'
        end
  end.

Definition makeJiraRequest (jql fields : JsVal) (token : option string) : M Response :=
  let tokenToUse := orStr token (pat this) in
  authLoop jql fields tokenToUse (authMethods tokenToUse) [].

End Requests.

End Jira.

(** ** server.js: the token-guarded handlers *)

Module Server.
Import Js Net.
Local Open Scope net_scope.

(** What the handlers use of [jiraClient]. *)
Record JiraApi : Type := mkApi {
  fetchAllData : JsVal -> option string -> M JsVal;
  refreshColumns : JsVal -> option string -> M JsVal;
  formatIssues : JsVal -> bool -> Res (list (list (string * JsVal)))
}.

(** What a handler reads of the express request. *)
Record ExpressRequest : Type := mkReq {
  query : gmap string JsVal;
  headers : gmap string string
}.

(** [res.status(statusCode).json(json)] *)
Record HttpReply : Type := mkReply {
  statusCode : Z;
  json : JsVal
}.

(** [process.env.NODE_ENV === 'development'] and [error.stack] *)
Record Env : Type := mkEnv {
  development : bool;
  stack : JsError -> string
}.

Definition noToken : string :=
  "No authentication token provided. Please authenticate first using the Authenticate button.".

Definition rows (formattedIssues : list (list (string * JsVal))) : JsVal :=
  JArr (map JObj formattedIssues).

(** The [catch] shared by the two handlers *)
Definition failed (env : Env) (error : JsError) : HttpReply :=
  let statusCode :=
    match response error with
    | Some r => if (status r =? 0)%Z then 500%Z else status r
    | None => 500%Z
    end in
  mkReply statusCode
    (JObj [ ("success", JBool false);
            ("error", JStr (message error));
            ("details", if development env then JStr (stack env error) else JUndefined) ]).

Section Handlers.
Variable env : Env.
Variable jiraClient : JiraApi.

(** [app.get('/api/fetch-all-data', ...)] *)
Definition fetchAllDataHandler (req : ExpressRequest) : M HttpReply :=
  catch
    (let jql := default JUndefined (query req !! "jql") in
     let userToken := headers req !! "x-jira-token" in
     if negb (Jira.present userToken)
     then ret (mkReply 401 (JObj [ ("success", JBool false); ("error", JStr noToken) ]))
     else
       data <- fetchAllData jiraClient jql userToken ;;
       issues <- lift (getProp data "issues") ;;
       formattedIssues <- lift (formatIssues jiraClient issues true) ;;
       total <- lift (getProp data "total") ;;
       ret (mkReply 200
              (JObj [ ("success", JBool true);
                      ("total", total);
                      ("issues", rows formattedIssues);
                      ("message", JStr "All data fetched successfully") ])))
    (fun error => ret (failed env error)).

(** [app.get('/api/refresh-columns', ...)] *)
Definition refreshColumnsHandler (req : ExpressRequest) : M HttpReply :=
  catch
    (let jql := default JUndefined (query req !! "jql") in
     let userToken := headers req !! "x-jira-token" in
     if negb (Jira.present userToken)
     then ret (mkReply 401 (JObj [ ("success", JBool false); ("error", JStr noToken) ]))
     else
       data <- refreshColumns jiraClient jql userToken ;;
       issues <- lift (getProp data "issues") ;;
       formattedIssues <- lift (formatIssues jiraClient issues false) ;;
       total <- lift (getProp data "total") ;;
       ret (mkReply 200
              (JObj [ ("success", JBool true);
                      ("total", total);
                      ("issues", rows formattedIssues);
                      ("message", JStr "Columns refreshed successfully") ])))
    (fun error => ret (failed env error)).

End Handlers.

End Server.

(** ** Notions used to state the properties *)

Module Spec.
Import Js Net Jira.

(** *** Field resolution *)

(** A value the resolver can walk into. *)
Definition traversable (v : JsVal) : bool := truthy v && typeofObject v.

(** What a dotted path reaches from the field bag: [None] as soon as a
    segment is absent or the value at hand cannot be walked into. *)
Fixpoint reach (value : JsVal) (parts : list string) : option JsVal :=
  match parts with
  | [] => Some value
  | part :: rest =>
      if traversable value
      then match own value part with
           | Some next => reach next rest
           | None => None
           end
      else None
  end.

(** A name that objects and arrays inherit from a prototype: [__proto__],
    [constructor], or a method of [Object.prototype] or [Array.prototype]. *)
Definition inheritedName (part : string) : bool :=
  String.eqb part "__proto__" || String.eqb part "constructor"
  || existsb (String.eqb part) (map fst objectMethods ++ map fst arrayMethods).

(** A dotted path is well formed when it names data fields: no segment is
    a name that objects and arrays inherit. *)
Definition wellFormedPath (path : string) : bool :=
  forallb (fun part => negb (inheritedName part)) (Str.split "." path).

(** *** Values of the shape the tracker sends

    No object carries an own [toString] property, a [name] property holds a
    string (or a falsy value), and no array has a [null] or [undefined]
    element. *)
Definition nameOk (props : list (string * JsVal)) : bool :=
  match assoc "name" props with
  | Some n => typeofString n || negb (truthy n)
  | None => true
  end.

Fixpoint tame (v : JsVal) : bool :=
  match v with
  | JArr items =>
      (fix all (l : list JsVal) : bool :=
         match l with
         | [] => true
         | x :: rest => negb (nullish x) && tame x && all rest
         end) items
  | JObj props =>
      match assoc "toString" props with
      | Some _ => false
      | None =>
          nameOk props &&
          (fix all (l : list (string * JsVal)) : bool :=
             match l with
             | [] => true
             | (_, x) :: rest => tame x && all rest
             end) props
      end
  | _ => true
  end.

(** A value that is there and has that shape. *)
Definition sound (v : JsVal) : Prop := nullish v = false /\ tame v = true.

(** *** Column schema *)

(** The output key of a column that [formatIssues] applies: the entry is
    there and has a non-empty source field path and a non-empty output key. *)
Definition appliedKey (column : option Column) : option string :=
  match column with
  | Some col =>
      if present (jiraField col) && present (key col) then key col else None
  | None => None
  end.

Definition appliedKeys (columns : list (option Column)) : list string :=
  omap appliedKey columns.

(** The keys created so far, after the property [name] was assigned: a
    name that is already there keeps its place, a new one goes last, and
    [__proto__] never becomes a key. *)
Definition addKey (keys : list string) (name : string) : list string :=
  if String.eqb name "__proto__" then keys
  else if existsb (String.eqb name) keys then keys
  else keys ++ [name].

(** The keys of a formatted row in the order of their creation: [url],
    [key], then the output keys of the applied columns in schema order. *)
Definition rowKeys (columns : list (option Column)) : list string :=
  fold_left addKey (appliedKeys columns) ["url"; "key"].

(** A key that spells an array index, and one that does not. *)
Definition indexKey (name : string) : bool :=
  match arrayIndex name with
  | Some _ => true
  | None => false
  end.

Definition named (name : string) : bool := negb (indexKey name).

(** The order in which JavaScript lists the keys of an object: a key that
    spells an array index is followed by no smaller index, and a key that
    spells none is followed by no index at all. *)
Definition notBelow (index : N) (name : string) : bool :=
  match arrayIndex name with
  | Some j => (index <=? j)%N
  | None => true
  end.

Fixpoint enumerated (keys : list string) : bool :=
  match keys with
  | [] => true
  | k :: rest =>
      match arrayIndex k with
      | Some index => forallb (notBelow index) rest && enumerated rest
      | None => forallb named rest
      end
  end.

(** The same keys, those that spell no index in the same order. *)
Definition sameKeys (keys created : list string) : Prop :=
  keys ≡ₚ created /\ List.filter named keys = List.filter named created.

(** What a formatted row holds for an issue.  Its keys are the keys of the
    schema, each once; they are listed as JavaScript enumerates them, index
    keys first and in ascending order, the others in the order of their
    creation.  [key] holds the issue key and [url] the browse link, unless a
    column of that output key wrote over them. *)
Definition rowOf (this : JiraClient) (columns : list (option Column)) (issue : JsVal)
    (row : list (string * JsVal)) : Prop :=
  sameKeys (map fst row) (rowKeys columns) /\
  enumerated (map fst row) = true /\
  ("key" ∉ appliedKeys columns -> assoc "key" row = Some (or (get issue "key") (JStr ""))) /\
  ("url" ∉ appliedKeys columns ->
   exists keyText,
     ToString (get issue "key") = Ok keyText /\
     assoc "url" row =
       Some (JStr (Str.stripTrailingSlash (baseUrl this) +:+ "/browse/" +:+ keyText))).

(** *** Label entries *)

(** The label an array entry stands for: a string itself, a label object
    its non-empty [name]. *)
Definition labelText (entry : JsVal) : option string :=
  match entry with
  | JStr s => Some s
  | JObj props =>
      match assoc "name" props with
      | Some (JStr n) => if String.eqb n "" then None else Some n
      | _ => None
      end
  | _ => None
  end.

Definition sameLabel (a b : string) : bool :=
  String.eqb (Str.toLowerCase a) (Str.toLowerCase b).

Definition yesNo (b : bool) : string := if b then "Yes" else "No".

(** *** Link columns *)

Fixpoint firstTruthy (candidates : list JsVal) : option JsVal :=
  match candidates with
  | [] => None
  | v :: rest => if truthy v then Some v else firstTruthy rest
  end.

Definition urlShaped (v : JsVal) : bool :=
  match v with
  | JStr s => Str.startsWith s "http"
  | _ => false
  end.

(** *** Sections of a page *)

(** [s] starts with the opening of a level-1, 2 or 3 heading, or is empty:
    where a section ends. *)
Definition atBoundary (s : string) : bool :=
  match s with
  | EmptyString => true
  | String a (String b (String d _)) =>
      Regex.is_ci "<" a && Regex.is_ci "h" b && Regex.oneOf "123" d
  | _ => false
  end.

(** The section that starts [s]: everything up to the next heading of
    level 1 to 3, or to the end of the page. *)
Fixpoint sectionOf (s : string) : string :=
  if atBoundary s then EmptyString
  else match s with
       | EmptyString => EmptyString
       | String a s' => String a (sectionOf s')
       end.

(** What is left of [s] after its first section. *)
Fixpoint afterSection (s : string) : string :=
  if atBoundary s then s
  else match s with
       | EmptyString => EmptyString
       | String _ s' => afterSection s'
       end.

(** The cleaned text of a capture; a capture that is absent cleans to the
    empty string. *)
Definition textOf (o : option string) : string :=
  match o with
  | Some s => Confluence.cleanText s
  | None => EmptyString
  end.

(** [s] starts with the opening of a level-2 or level-3 heading. *)
Definition opensHeading (s : string) : bool :=
  match s with
  | String a (String b (String d _)) =>
      Regex.is_ci "<" a && Regex.is_ci "h" b && Regex.oneOf "23" d
  | _ => false
  end.

(** No level-2 or level-3 heading opens anywhere in [s]. *)
Fixpoint noHeading (s : string) : bool :=
  match s with
  | EmptyString => true
  | String _ s' => negb (opensHeading s) && noHeading s'
  end.

(** *** Summary results *)

Definition failureResult (msg : string) : JsVal :=
  JObj [ ("success", JBool false); ("summary", JNull); ("error", JStr msg) ].

(** The page was fetched: the request was answered with a status 2xx and
    with a body. *)
Definition pageFetched (o : Outcome) : bool :=
  match o with
  | Reply r => defaultValidate (status r) && negb (nullish (data r))
  | Failure _ _ => false
  end.

(** A result object of [getSummary]: marked as a success, or marked as a
    failure and carrying an error string. *)
Definition isSummaryResult (result : JsVal) : Prop :=
  get result "success" = JBool true ∨
  (get result "success" = JBool false ∧ ∃ msg, get result "error" = JStr msg).

(** [summary] is what [getSummary] returned for [url] at some point of the
    exchange with the wiki. *)
Definition fetched (net : World) (this : Confluence.ConfluenceClient)
    (userToken : option string) (url : string) (summary : JsVal) : Prop :=
  isSummaryResult summary /\
  exists before after,
    Confluence.getSummary net this (JStr url) userToken before = (Ok summary, after).

(** *** Authentication strategies *)

Definition post (this : JiraClient) (jql fields : JsVal) (hdrs : gmap string string)
    (timeout : option Z) : Request :=
  mkRequest POST (searchUrl this) hdrs (searchBody jql fields) timeout.

Definition bearerRequest (this : JiraClient) (jql fields : JsVal) (cleanToken : string)
    : Request :=
  post this jql fields (<["Authorization" := "Bearer " +:+ cleanToken]> jsonHeaders)
       (Some 30000%Z).

Definition patRequests (this : JiraClient) (jql fields : JsVal) (cleanToken : string)
    : list Request :=
  [ post this jql fields (<["X-API-Token" := cleanToken]> jsonHeaders) (Some 30000%Z);
    post this jql fields (<["X-Auth-Token" := cleanToken]> jsonHeaders) (Some 30000%Z);
    post this jql fields (<["Authorization" := "Token " +:+ cleanToken]> jsonHeaders)
         (Some 30000%Z);
    post this jql fields (<["Authorization" := "PAT " +:+ cleanToken]> jsonHeaders)
         (Some 30000%Z) ].

(** The request that [tryPATTokenRequest] sends for one header format. *)
Definition patRequestOf (this : JiraClient) (jql fields : JsVal) (format : HeaderFormat)
    : Request :=
  post this jql fields (patHeaders format) (Some 30000%Z).

Definition basicRequest (this : JiraClient) (jql fields : JsVal) (cleanToken userFormat : string)
    : Request :=
  post this jql fields
       (<["Authorization" := "Basic " +:+ base64 (utf8 (userFormat +:+ ":" +:+ cleanToken))]>
          jsonHeaders)
       None.

Definition basicRequests (this : JiraClient) (jql fields : JsVal) (cleanToken : string)
    : list Request :=
  let username := default "namratha.singh" (orStr (username this) None) in
  [ basicRequest this jql fields cleanToken username;
    basicRequest this jql fields cleanToken (username +:+ "@nutanix.com");
    basicRequest this jql fields cleanToken
      (if Str.includes username "@" then username else username +:+ "@nutanix.com") ].

(** The attempts in their fixed order: bearer, the four PAT headers, the
    three basic-auth user names. *)
Definition strategyOrder (this : JiraClient) (jql fields : JsVal) (cleanToken : string)
    : list Request :=
  bearerRequest this jql fields cleanToken
  :: patRequests this jql fields cleanToken ++ basicRequests this jql fields cleanToken.

(** Whether an attempt counts as a success.  The bearer attempt needs the
    status 200, a body that is not HTML and a JSON object; a PAT-header or
    basic-auth attempt needs the status 200. *)
Definition isBearer (req : Request) : bool :=
  match reqHeaders req !! "Authorization" with
  | Some value => String.prefix "Bearer " value
  | None => false
  end.

Definition bearerAccepts (o : Outcome) : bool :=
  match o with
  | Reply r =>
      (status r =? 200)%Z
      && negb (Str.includes (default "" (headers r !! "content-type")) "text/html"
               || stringIncludes (data r) "<!DOCTYPE")
      && truthy (data r) && typeofObject (data r)
  | Failure _ _ => false
  end.

Definition plainAccepts (o : Outcome) : bool :=
  match o with
  | Reply r => (status r =? 200)%Z
  | Failure _ _ => false
  end.

Definition accepts (req : Request) (o : Outcome) : bool :=
  if isBearer req then bearerAccepts o else plainAccepts o.

(** The answer says that basic authentication is disabled: it has the
    status 403 and its [message] contains the notice. *)
Definition basicDisabledAnswer (o : Outcome) : bool :=
  match o with
  | Reply r =>
      (status r =? 403)%Z
      && match optIncludes (getOpt (data r) "message") basicDisabled with
         | Ok found => found
         | Throw _ => false
         end
  | Failure _ _ => false
  end.

(** Every request of [sent], sent in turn after [log], was refused. *)
Inductive Refused (net : World) : list Request -> list Request -> Prop :=
  | refused_nil (log : list Request) : Refused net log []
  | refused_cons (log : list Request) (req : Request) (sent : list Request) :
      accepts req (net log req) = false ->
      Refused net (log ++ [req]) sent ->
      Refused net log (req :: sent).

(** The attempts [sent] after [log] stop at the first success: a returned
    response is the reply to the last request sent, and every request before
    it was refused; when the result is a failure all of them were refused. *)
Definition Stopped (net : World) (log sent : list Request) (result : Res Response) : Prop :=
  match result with
  | Ok response =>
      exists earlier req,
        sent = earlier ++ [req] /\ Refused net log earlier /\
        net (log ++ earlier) req = Reply response /\
        accepts req (Reply response) = true
  | Throw _ => Refused net log sent
  end.

End Spec.

(** ** Sample data *)

Module Sample.
Import Js Net Jira.

Definition host : Host := mkHost (fun _ => "Invalid Date") (fun _ => "Invalid Date").

Definition columns : list (option Column) :=
  [ Some (mkColumn (Some "summary") (Some "summary") (Some "text") None);
    Some (mkColumn None (Some "status.name") (Some "badge") None);
    Some (mkColumn (Some "assignee") (Some "assignee.displayName") None None);
    Some (mkColumn (Some "risk") (Some "labels") (Some "labelCheck") (Some "Risk")) ].

Definition client : JiraClient :=
  mkClient "https://jira.example.com/" (Some "config-pat") (Some "ann") (Some columns) host.

(** A schema with an output key that spells an array index. *)
Definition numberedColumns : list (option Column) :=
  [ Some (mkColumn (Some "summary") (Some "summary") (Some "text") None);
    Some (mkColumn (Some "7") (Some "status.name") (Some "badge") None) ].

Definition numbered : JiraClient :=
  mkClient "https://jira.example.com/" (Some "config-pat") (Some "ann")
    (Some numberedColumns) host.

(** A client whose configured token is empty (one that
    [validateConfiguration] would have refused). *)
Definition bareClient : JiraClient :=
  mkClient "https://jira.example.com/" (Some "") (Some "ann") (Some columns) host.

Definition issue : JsVal :=
  JObj [ ("key", JStr "NDB-1");
         ("fields", JObj [ ("summary", JStr "Upgrade");
                           ("status", JObj [("name", JStr "Open")]);
                           ("assignee", JObj [("displayName", JStr "Ann")]);
                           ("labels", JArr [JStr "risk"; JStr "q3"]) ]) ].

Definition reply (st : Z) (d : JsVal) : Response := mkResponse st "" ∅ d.

(** A tracker that refuses bearer tokens and accepts everything else. *)
Definition bearerRefused : World :=
  fun _ req =>
    match reqHeaders req !! "Authorization" with
    | Some a => if String.prefix "Bearer" a then Reply (reply 401 JNull)
                else Reply (reply 200 (JObj [("issues", JArr [])]))
    | None => Reply (reply 200 (JObj [("issues", JArr [])]))
    end.

(** A network where nothing answers. *)
Definition offline : World := fun _ _ => Failure "getaddrinfo ENOTFOUND" "ENOTFOUND".

Definition wiki : Confluence.ConfluenceClient :=
  Confluence.mkClient "https://nutanix.atlassian.net/wiki" (Some "wiki-token").

(** A wiki that serves page 1 and answers 404 for every other page. *)
Definition onePage : World :=
  fun _ req =>
    if Str.includes (url req) "/content/1?"
    then Reply (reply 200
                  (JObj [ ("title", JStr "Design");
                          ("body", JObj [("storage",
                             JObj [("value", JStr "<h2>Summary</h2><p>Short.</p>")])]) ]))
    else Reply (reply 404 JNull).

Definition twoUrls : list string :=
  [ "https://nutanix.atlassian.net/wiki/pages/viewpage.action?pageId=1";
    "https://nutanix.atlassian.net/wiki/spaces/NDB/pages/2/Plan" ].

(** A page with a Summary section and, later, a bold Summary paragraph. *)
Definition page : string :=
  "<h1>Design</h1><p>Intro.</p><h2>Summary</h2><p>From the heading.</p>"
  +:+ "<h2>Details</h2><p><strong>Summary:</strong> From the paragraph.</p>".

Definition env : Server.Env := Server.mkEnv false (fun e => "Error: " +:+ message e).

(** A stand-in for the client's two fetches: the search request alone. *)
Definition search (jql : JsVal) (token : option string) : M JsVal :=
  Net.mbind (makeJiraRequest offline client jql (JArr []) token)
            (fun response => Net.ret (data response)).

Definition api : Server.JiraApi := Server.mkApi search search (formatIssues client).

End Sample.

(** ** confluence-client.js: the constructor and the space key *)

Module Wiki.
Import Js Regex.
Local Open Scope regex_scope.

(** [loadToken()].  [file] is what [fs] finds at the token path: nothing
    ([existsSync] answers [false]), or a file whose reading gives its text or
    throws. *)
Definition loadToken (file : option (Res string)) : option string :=
  match file with
  | Some (Ok content) => Some (replaceAll Jira.newlineRegex "" (Str.trim content))
  | _ => None
  end.

(** [new ConfluenceClient()] *)
Definition newConfluenceClient (file : option (Res string)) : Confluence.ConfluenceClient :=
  Confluence.mkClient "https://nutanix.atlassian.net/wiki" (loadToken file).

(** [/\/spaces\/([^\/]+)/] *)
Definition spaceRegex : regex := lit "/spaces/" · Group 1 (plus (except "/")).

Definition extractSpaceKey (confluenceUrl : JsVal) : Res JsVal :=
  if negb (truthy confluenceUrl) then Ok JNull
  else
    (spaceMatch <- Confluence.strMatch confluenceUrl spaceRegex ;;
     match spaceMatch with
     | Some m => Ok (Confluence.group 1 m)
     | None => Ok JNull
     end)%res.

End Wiki.

(** ** jira-client-clean.js: configuration, fetches and error messages *)

Module Fetch.
Import Js Regex Net Jira.
Local Open Scope net_scope.

(** What the fetches read of the [ConfigManager] besides the columns:
    [jiraConfig.jql], [config.allPossibleFields] and the [allPossibleFields]
    of [getBackendConfig()].  The manager's getters hand these out and do not
    throw. *)
Record Config : Type := mkConfig {
  jql : JsVal;
  allPossibleFields : JsVal;
  backendAllPossibleFields : JsVal
}.

(** The engine's [StringToNumber(s) > 0]. *)
Record Engine : Type := mkEngine {
  positive : string -> bool
}.

Definition validateConfiguration (this : JiraClient) : Res unit :=
  if String.eqb (baseUrl this) "" then Throw (Error "JIRA base URL is required")
  else if negb (present (pat this)) then Throw (Error "JIRA API token is required")
  else Ok tt.

(** [v > 0]: the value is made a primitive and then a number. *)
Definition greaterThanZero (engine : Engine) (v : JsVal) : Res bool :=
  match v with
  | JUndefined | JNull => Ok false
  | JBool b => Ok b
  | JNum r => Ok (negb (String.prefix "-" r || String.eqb r "0" || String.eqb r "NaN"))
  | JStr s => Ok (positive engine s)
  | JArr _ | JObj _ | JNative _ => (s <- ToString v ;; Ok (positive engine s))%res
  end.

(** [v === 0] *)
Definition isZero (v : JsVal) : bool :=
  match v with
  | JNum r => String.eqb r "0"
  | _ => false
  end.

(** [statusMessages[status]] *)
Definition statusMessages (status : Z) : option string :=
  if (status =? 401)%Z
  then Some "Authentication failed. Please check your PAT token in jira-key-private.txt"
  else if (status =? 403)%Z then Some "Access forbidden. Please check your Jira permissions."
  else if (status =? 404)%Z
  then Some "Resource not found. Please check your Jira URL and filter ID."
  else if (status =? 500)%Z then Some "Jira server error. Please try again later."
  else if (status =? 503)%Z then Some "Jira service unavailable. Please try again later."
  else None.

Definition defaultFields : JsVal := JArr [JStr "key"; JStr "summary"; JStr "status"].

(** [columns.map(col => col.jiraField)] *)
Fixpoint columnFields (columns : list (option Column)) : Res (list JsVal) :=
  match columns with
  | [] => Ok []
  | None :: _ =>
      Throw (TypeError "Cannot read properties of null (reading 'jiraField')")
  | Some col :: rest =>
      (fields <- columnFields rest ;;
       Ok (Confluence.ofOption (jiraField col) :: fields))%res
  end.

Definition htmlInsteadOfJson : string :=
  "Bearer token authentication failed. The token works for PAT management but not for search API. Please check if your Jira instance requires a different authentication method for API v3 endpoints.".

Section Client.
Variable net : World.
Variable this : JiraClient.
Variable config : Config.
Variable engine : Engine.

(** [error.response], when its [status] is truthy *)
Definition withStatus (error : JsError) : option Response :=
  match response error with
  | Some r => if (status r =? 0)%Z then None else Some r
  | None => None
  end.

Definition extractErrorMessage (error : JsError) : Res JsVal :=
  let responseData :=
    match response error with
    | Some r => data r
    | None => JUndefined
    end in
  let errorMessages := getOpt responseData "errorMessages" in
  (some <- greaterThanZero engine (getOpt errorMessages "length") ;;
   if some : bool
   then (messages <- callJoin errorMessages "; " ;; Ok (JStr messages))
   else if truthy (getOpt responseData "message") then Ok (get responseData "message")
   else
     match withStatus error with
     | Some r =>
         Ok (JStr (default ("HTTP " +:+ Str.of_Z (status r) +:+ ": " +:+ statusText r)
                     (statusMessages (status r))))
     | None =>
         if isStr (code error) "ENOTFOUND" || isStr (code error) "ECONNREFUSED"
         then Ok (JStr ("Cannot connect to " +:+ baseUrl this
                        +:+ ". Please check your network connection and VPN status."))
         else if isStr (code error) "ECONNABORTED" || Str.includes (message error) "timeout"
         then Ok (JStr "Request timed out. Please check your network connection.")
         else Ok (JStr (if String.eqb (message error) "" then "Unknown error occurred"
                        else message error))
     end)%res.

(** The [catch] of the fetches: the error is replaced by a new one that
    carries the extracted message after [prefix]. *)
Definition rethrow {A : Type} (prefix : string) (error : JsError) : M A :=
  errorMessage <- lift (extractErrorMessage error) ;;
  text <- lift (ToString errorMessage) ;;
  throw (Error (prefix +:+ text)).

Definition fetchAllData (jql : JsVal) (userToken : option string) : M JsVal :=
  catch
    (let query := or jql (Fetch.jql config) in
     let tokenToUse := orStr userToken (pat this) in
     let configured := allPossibleFields config in
     let fields :=
       if negb (truthy configured) || isZero (get configured "length")
       then or (backendAllPossibleFields config) defaultFields
       else configured in
     _ <- lift (ToString (get fields "length")) ;;          (* the log line *)
     response <- makeJiraRequest net this query fields tokenToUse ;;
     if stringIncludes (data response) "<!DOCTYPE html>"
     then throw (Error htmlInsteadOfJson)
     else
       issues <- lift (getProp (data response) "issues") ;;
       _ <- lift (ToString (or (getOpt issues "length") (JNum "0"))) ;;      (* the log lines *)
       _ <- lift (ToString (or (get (data response) "total") (JNum "0"))) ;;
       ret (data response))
    (rethrow "Failed to fetch all Jira data: ").

Definition refreshColumns (jql : JsVal) (userToken : option string) : M JsVal :=
  catch
    (let query := or jql (Fetch.jql config) in
     let tokenToUse := orStr userToken (pat this) in
     mapped <- lift (match defaultColumns this with
                     | Some columns => (names <- columnFields columns ;; Ok (JArr names))%res
                     | None => Ok defaultFields
                     end) ;;
     _ <- lift (ToString (get mapped "length")) ;;          (* the log line *)
     let fields :=
       if negb (truthy mapped) || isZero (get mapped "length") then defaultFields
       else mapped in
     response <- makeJiraRequest net this query fields tokenToUse ;;
     if stringIncludes (data response) "<!DOCTYPE html>"
     then throw (Error htmlInsteadOfJson)
     else
       issues <- lift (getProp (data response) "issues") ;;
       _ <- lift (ToString (or (getOpt issues "length") (JNum "0"))) ;;      (* the log lines *)
       _ <- lift (ToString (or (get (data response) "total") (JNum "0"))) ;;
       ret (data response))
    (rethrow "Failed to refresh columns: ").

Definition getIssueDetails (issueKey : JsVal) : M JsVal :=
  catch
    (if negb (truthy issueKey) then throw (Error "Issue key is required")
     else
       keyText <- lift (ToString issueKey) ;;
       cleanToken <- lift (cleanTokenOf (pat this)) ;;
       response <- axios net defaultValidate
                     (mkRequest GET
                        (Str.stripTrailingSlash (baseUrl this) +:+ "/rest/api/2/issue/"
                         +:+ keyText)
                        (<["Authorization" := "Bearer " +:+ cleanToken]>
                           (<["Accept" := "application/json"]> ∅))
                        JUndefined None) ;;
       ret (data response))
    (fun error =>
       _ <- lift (ToString issueKey) ;;                     (* the log line *)
       rethrow "Failed to fetch issue details: " error).

End Client.
End Fetch.

(** ** server.js: the other handlers *)

Module Routes.
Import Js Net Server.
Local Open Scope net_scope.

(** [const { name } = source] *)
Definition destructure (v : JsVal) (name source : string) : Res JsVal :=
  match v with
  | JUndefined =>
      Throw (TypeError ("Cannot destructure property '" +:+ name +:+ "' of '" +:+ source
                        +:+ "' as it is undefined."))
  | JNull =>
      Throw (TypeError ("Cannot destructure property '" +:+ name +:+ "' of '" +:+ source
                        +:+ "' as it is null."))
  | _ => Ok (get v name)
  end.

(** What a handler reads of a POST request. *)
Record PostRequest : Type := mkPost {
  body : JsVal;
  postHeaders : gmap string string
}.

(** What the batch handler answers: a JSON reply, or the mapping of
    [getSummaries] under [summaries] next to [success: true]. *)
Inductive BatchReply : Type :=
  | Plain (reply : HttpReply)
  | Summaries (results : gmap string JsVal).

Definition failure (statusCode : Z) (error : string) : HttpReply :=
  mkReply statusCode (JObj [ ("success", JBool false); ("error", JStr error) ]).

(** [error.message || fallback] *)
Definition messageOr (error : JsError) (fallback : string) : string :=
  if String.eqb (message error) "" then fallback else message error.

Section Handlers.
Variable net : World.
Variable jiraClient : Jira.JiraClient.
Variable config : Fetch.Config.
Variable engine : Fetch.Engine.
Variable confluenceClient : Confluence.ConfluenceClient.

(** [jiraClient] as the token-guarded handlers use it *)
Definition api : JiraApi :=
  mkApi (Fetch.fetchAllData net jiraClient config engine)
        (Fetch.refreshColumns net jiraClient config engine)
        (Jira.formatIssues jiraClient).

(** [app.get('/api/issues', ...)] *)
Definition issuesHandler (req : ExpressRequest) : M HttpReply :=
  catch
    (let jql := default JUndefined (query req !! "jql") in
     data <- Fetch.refreshColumns net jiraClient config engine jql None ;;
     issues <- lift (getProp data "issues") ;;
     formattedIssues <- lift (Jira.formatIssues jiraClient issues false) ;;
     total <- lift (getProp data "total") ;;
     ret (mkReply 200
            (JObj [ ("success", JBool true);
                    ("total", total);
                    ("issues", rows formattedIssues) ])))
    (fun error => ret (failure 500 (message error))).

(** [app.get('/api/issue/:key', ...)]; a route parameter is a string *)
Definition issueHandler (key : string) : M HttpReply :=
  catch
    (issue <- Fetch.getIssueDetails net jiraClient engine (JStr key) ;;
     ret (mkReply 200 (JObj [ ("success", JBool true); ("issue", issue) ])))
    (fun error => ret (failure 500 (message error))).

(** [app.post('/api/test-token', ...)]; [configuredBaseUrl] is the
    [baseUrl] that the fresh [ConfigManager] of the handler hands out. *)
Definition testTokenHandler (configuredBaseUrl : option string) (req : PostRequest)
    : M HttpReply :=
  catch
    (token <- lift (destructure (body req) "token" "req.body") ;;
     if negb (truthy token) then ret (failure 400 "Token is required")
     else
       let baseUrl := default "https://jira.nutanix.com"
                        (Jira.orStr configuredBaseUrl None) in
       let cleanBaseUrl := Str.stripTrailingSlash baseUrl in
       catch
         (trimmed <- lift (match token with
                           | JStr s => Ok (Str.trim s)
                           | _ => Throw (TypeError "token.trim is not a function")
                           end) ;;
          testResponse <- axios net defaultValidate
                            (mkRequest GET (cleanBaseUrl +:+ "/rest/pat/latest/tokens")
                               (<["Authorization" := "Bearer " +:+ trimmed]>
                                  (<["Accept" := "application/json"]> ∅))
                               JUndefined (Some 10000%Z)) ;;
          match data testResponse with
          | JArr tokens =>
              if (status testResponse =? 200)%Z
              then ret (mkReply 200
                          (JObj [ ("success", JBool true);
                                  ("message", JStr "Token is valid");
                                  ("tokenCount", JNum (Str.of_nat (length tokens))) ]))
              else throw (Error "Invalid response from token endpoint")
          | _ => throw (Error "Invalid response from token endpoint")
          end)
         (fun error =>
            match response error with
            | Some r =>
                if (status r =? 401)%Z || (status r =? 403)%Z
                then ret (failure 401 "Invalid token. Please check your Bearer token (PAT).")
                else throw error
            | None => throw error
            end))
    (fun error => ret (failure 500 (messageOr error "Failed to test token"))).

(** [req.headers['x-confluence-token'] || req.headers['x-jira-token']] *)
Definition wikiToken (hdrs : gmap string string) : option string :=
  Jira.orStr (hdrs !! "x-confluence-token") (hdrs !! "x-jira-token").

(** [app.get('/api/confluence/summary', ...)] *)
Definition confluenceSummaryHandler (req : ExpressRequest) : M HttpReply :=
  catch
    (let url := default JUndefined (query req !! "url") in
     let userToken := wikiToken (headers req) in
     if negb (truthy url) then ret (failure 400 "Confluence URL is required")
     else
       _ <- lift (ToString url) ;;                          (* the log line *)
       result <- Confluence.getSummary net confluenceClient url userToken ;;
       success <- lift (getProp result "success") ;;
       _ <- (if truthy success then ret EmptyString
             else
               error <- lift (getProp result "error") ;;    (* the log line *)
               lift (ToString error)) ;;
       ret (mkReply 200 result))
    (fun error => ret (failure 500 (messageOr error "Failed to fetch Confluence summary"))).

(** [app.post('/api/confluence/summaries', ...)] *)
Definition confluenceSummariesHandler (req : PostRequest) : M BatchReply :=
  catch
    (urls <- lift (destructure (body req) "urls" "req.body") ;;
     let userToken := wikiToken (postHeaders req) in
     match urls with
     | JArr confluenceUrls =>
         results <- Confluence.getSummaries net confluenceClient confluenceUrls userToken ;;
         ret (Summaries results)
     | _ => ret (Plain (failure 400 "URLs array is required"))
     end)
    (fun error =>
       ret (Plain (failure 500 (messageOr error "Failed to fetch Confluence summaries")))).

End Handlers.
End Routes.

(** ** Further notions used to state the properties *)

Module Notions.
Import Js Net.

(** *** Scanning a string *)

Fixpoint takeWhile (p : ascii -> bool) (s : string) : string :=
  match s with
  | EmptyString => EmptyString
  | String a s' => if p a then String a (takeWhile p s') else EmptyString
  end.

Fixpoint dropWhile (p : ascii -> bool) (s : string) : string :=
  match s with
  | EmptyString => EmptyString
  | String a s' => if p a then dropWhile p s' else s
  end.

Fixpoint dropFirst (n : nat) (s : string) : string :=
  match n, s with
  | S n', String _ s' => dropFirst n' s'
  | _, _ => s
  end.

Fixpoint every (p : ascii -> bool) (s : string) : bool :=
  match s with
  | EmptyString => true
  | String a s' => p a && every p s'
  end.

(** The non-empty run of [p] that follows [marker] at the start of [s]. *)
Definition segmentAt (marker : string) (p : ascii -> bool) (s : string) : option string :=
  if String.prefix marker s
  then match takeWhile p (dropFirst (String.length marker) s) with
       | EmptyString => None
       | found => Some found
       end
  else None.

(** The one at the leftmost place of [s] that has one. *)
Fixpoint firstSegment (marker : string) (p : ascii -> bool) (s : string) : option string :=
  match segmentAt marker p s with
  | Some found => Some found
  | None =>
      match s with
      | EmptyString => None
      | String _ s' => firstSegment marker p s'
      end
  end.

(** The digits after the leftmost [pageId=] or [pages/] that digits follow. *)
Fixpoint firstPageId (s : string) : option string :=
  match segmentAt "pageId=" Regex.digit s with
  | Some found => Some found
  | None =>
      match segmentAt "pages/" Regex.digit s with
      | Some found => Some found
      | None =>
          match s with
          | EmptyString => None
          | String _ s' => firstPageId s'
          end
      end
  end.

(** *** Scanning a page *)

(** What follows [marker] at the start of [s], letter case aside. *)
Fixpoint afterCi (marker s : string) : option string :=
  match marker, s with
  | EmptyString, _ => Some s
  | String a marker', String c s' => if Regex.is_ci a c then afterCi marker' s' else None
  | String _ _, EmptyString => None
  end.

(** What [scan] finds at the leftmost place of [s] where it finds
    something. *)
Fixpoint leftmost {A : Type} (scan : string -> option A) (s : string) : option A :=
  match scan s with
  | Some found => Some found
  | None =>
      match s with
      | EmptyString => None
      | String _ s' => leftmost scan s'
      end
  end.

(** The text before the leftmost [marker] of [s], and what follows that
    marker. *)
Fixpoint upTo (marker s : string) : option (string * string) :=
  match afterCi marker s with
  | Some rest => Some (EmptyString, rest)
  | None =>
      match s with
      | EmptyString => None
      | String a s' =>
          match upTo marker s' with
          | Some (text, rest) => Some (String a text, rest)
          | None => None
          end
      end
  end.

(** [s] from its first [>] on: the end of the tag that [s] is in. *)
Definition tagEnd (s : string) : string := dropWhile (Regex.except ">") s.

(** A heading titled Summary opens [s]: [<h2] or [<h3], attributes if any,
    [>Summary</h2>] or [>Summary</h3>], letter case aside.  The result is
    what follows the heading. *)
Definition summaryHeadingAt (s : string) : option string :=
  match afterCi "<h" s with
  | Some (String level attributes) =>
      if Regex.oneOf "23" level
      then
        match afterCi ">Summary</h" (tagEnd attributes) with
        | Some (String closing (String last rest)) =>
            if Regex.oneOf "23" closing && Ascii.eqb last ">" then Some rest else None
        | _ => None
        end
      else None
  | _ => None
  end.

Definition dropColon (s : string) : string :=
  match s with
  | String c rest => if Ascii.eqb c ":" then rest else s
  | EmptyString => s
  end.

(** A paragraph that starts with a bold Summary label opens [s]:
    [<p ..><strong ..>Summary], a colon or none, [</strong>], letter case
    aside.  The result is the text up to the next [</p>] and what follows
    it. *)
Definition boldSummaryAt (s : string) : option (string * string) :=
  match afterCi "<p" s with
  | Some attributes =>
      match afterCi "><strong" (tagEnd attributes) with
      | Some attributes' =>
          match afterCi ">Summary" (tagEnd attributes') with
          | Some label =>
              match afterCi "</strong>" (dropColon label) with
              | Some text => upTo "</p>" text
              | None => None
              end
          | None => None
          end
      | None => None
      end
  | None => None
  end.

(** A paragraph opens [s]: [<p ..>].  The result is the text up to the
    next [</p>] and what follows it. *)
Definition paragraphAt (s : string) : option (string * string) :=
  match afterCi "<p" s with
  | Some attributes =>
      match afterCi ">" (tagEnd attributes) with
      | Some text => upTo "</p>" text
      | None => None
      end
  | None => None
  end.

(** The summary of a page: the section under the first Summary heading,
    else the first paragraph with a bold Summary label, else the first
    paragraph, else the first 500 code units of the page, each as cleaned
    text. *)
Definition summaryOf (html : string) : string :=
  match leftmost summaryHeadingAt html with
  | Some rest => Confluence.cleanText (Spec.sectionOf rest)
  | None =>
      match leftmost boldSummaryAt html with
      | Some (text, _) => Confluence.cleanText text
      | None =>
          match leftmost paragraphAt html with
          | Some (text, _) => Confluence.cleanText text
          | None => Str.take 500 (Confluence.cleanText html)
          end
      end
  end.

(** [s] does not start with white space. *)
Definition startsClean (s : string) : bool :=
  match s with
  | EmptyString => true
  | String a _ => negb (Str.is_space a)
  end.

(** Every white-space code unit of [s] is a space, and no white space
    follows it. *)
Fixpoint collapsed (s : string) : bool :=
  match s with
  | EmptyString => true
  | String a s' =>
      (if Str.is_space a then Ascii.eqb a " " && startsClean s' else true) && collapsed s'
  end.

(** *** Requests *)

(** The request [fetchPageContent] sends for a page id and a token. *)
Definition contentRequest (this : Confluence.ConfluenceClient) (pageId tokenText : string)
    : Request :=
  mkRequest GET
    (Confluence.baseUrl this +:+ "/rest/api/content/" +:+ pageId
     +:+ "?expand=body.storage,version")
    (<["Authorization" := "Bearer " +:+ tokenText]> (<["Accept" := "application/json"]> ∅))
    JUndefined (Some 10000%Z).

(** The request [getIssueDetails] sends. *)
Definition issueRequest (this : Jira.JiraClient) (keyText cleanToken : string) : Request :=
  mkRequest GET
    (Str.stripTrailingSlash (Jira.baseUrl this) +:+ "/rest/api/2/issue/" +:+ keyText)
    (<["Authorization" := "Bearer " +:+ cleanToken]> (<["Accept" := "application/json"]> ∅))
    JUndefined None.

(** The request the token test sends. *)
Definition tokenRequest (baseUrl trimmed : string) : Request :=
  mkRequest GET (Str.stripTrailingSlash baseUrl +:+ "/rest/pat/latest/tokens")
    (<["Authorization" := "Bearer " +:+ trimmed]> (<["Accept" := "application/json"]> ∅))
    JUndefined (Some 10000%Z).

(** The token file is there, can be read and is not blank. *)
Definition usable (file : option (Res string)) : bool :=
  match file with
  | Some (Ok content) => negb (Str.all_space content)
  | _ => false
  end.

(** *** Cells *)

(** A column type that [formatFieldValue] renders as text: none of the
    types with a case of their own. *)
Definition plainType (type : option string) : bool :=
  negb (Jira.isStr type "link" || Jira.isStr type "confluence" || Jira.isStr type "badge"
        || Jira.isStr type "date" || Jira.isStr type "datetime").

(** What a column shows for an issue. *)
Definition cellOf (this : Jira.JiraClient) (issue : JsVal) (col : Jira.Column) : Res JsVal :=
  (fieldValue <- Jira.getFieldValue issue (default "" (Jira.jiraField col)) ;;
   if Jira.isStr (Jira.type col) "labelCheck" && Jira.present (Jira.labelToCheck col)
   then
     answer <- Jira.checkLabel fieldValue (default "" (Jira.labelToCheck col)) ;;
     Ok (JStr answer)
   else Jira.formatFieldValue this fieldValue (Jira.type col))%res.

(** *** Errors *)

(** An error that carries neither a response nor a code: one made by
    [new Error(..)] or raised by the engine. *)
Definition plain (e : JsError) : Prop := response e = None /\ code e = None.

Definition plainRes {A : Type} (m : Res A) : Prop :=
  match m with
  | Ok _ => True
  | Throw e => plain e
  end.

(** The message [extractErrorMessage] finds for such an error. *)
Definition plainMessage (error : JsError) : string :=
  if Str.includes (message error) "timeout"
  then "Request timed out. Please check your network connection."
  else if String.eqb (message error) "" then "Unknown error occurred"
  else message error.

(** *** Replies of the token-guarded handlers *)

(** With a token in the request the reply has status 200 or 500, and what
    was sent meanwhile is nothing or one bearer request that carries the
    caller's token; without one the reply has status 401 and nothing was
    sent. *)
Definition guardedReply (this : Jira.JiraClient) (userToken : option string)
    (log : list Request) (reply : Server.HttpReply) (log' : list Request) : Prop :=
  if Jira.present userToken
  then
    (Server.statusCode reply = 200%Z \/ Server.statusCode reply = 500%Z) /\
    (log' = log \/
     exists query fields cleanToken,
       Jira.cleanTokenOf userToken = Ok cleanToken /\
       log' = log ++ [Spec.bearerRequest this query fields cleanToken])
  else Server.statusCode reply = 401%Z /\ log' = log.

End Notions.

(** ** Further sample data *)

Module Examples.
Import Js Net Jira.

Definition config : Fetch.Config :=
  Fetch.mkConfig (JStr "project = NDB") (JArr [JStr "key"; JStr "summary"]) JUndefined.

(** An engine that knows the plain decimal numerals. *)
Definition engine : Fetch.Engine :=
  Fetch.mkEngine
    (fun s => negb (String.eqb s "") && Notions.every Regex.digit s
              && negb (Notions.every (Regex.only "0") s)).

(** A tracker that answers every search with one issue. *)
Definition tracker : World :=
  fun _ _ =>
    Reply (Sample.reply 200 (JObj [ ("issues", JArr [Sample.issue]); ("total", JNum "1") ])).

(** A tracker where the caller has two tokens. *)
Definition tokenEndpoint : World :=
  fun _ _ => Reply (Sample.reply 200 (JArr [JObj []; JObj []])).

Definition riskColumn : Column :=
  mkColumn (Some "risk") (Some "labels") (Some "labelCheck") (Some "Risk").

Definition pageUrl : string :=
  "https://nutanix.atlassian.net/wiki/pages/viewpage.action?pageId=1".

End Examples.

(* ================================================================== *)
(** * Part II. Properties                                              *)
(* ================================================================== *)

Import Js Regex Net Jira Spec Notions.

(** ** Reading properties *)

Lemma getProp_present (v : JsVal) (name : string) :
  nullish v = false -> getProp v name = Ok (get v name).
Proof. intros H. unfold getProp. now rewrite H. Qed.

Lemma truthy_not_nullish (v : JsVal) : truthy v = true -> nullish v = false.
Proof. now destruct v. Qed.

Lemma traversable_not_nullish (v : JsVal) : traversable v = true -> nullish v = false.
Proof.
  unfold traversable. intros H. apply truthy_not_nullish. now apply andb_true_iff in H.
Qed.

(** ** The field resolver *)

Lemma split_go_nonempty (sep : string) (s : string) :
  forall skip cur, Str.split_go sep skip cur s <> [].
Proof.
  induction s as [|c s IH]; intros skip cur; cbn [Str.split_go]; [discriminate|].
  destruct skip; [|apply IH].
  destruct (String.prefix sep (String c s)); [discriminate | apply IH].
Qed.

Lemma split_last (sep s : string) :
  exists init lastPart, Str.split sep s = init ++ [lastPart].
Proof.
  destruct (exists_last (split_go_nonempty sep s 0 EmptyString)) as (init & lastPart & H).
  now exists init, lastPart.
Qed.

Lemma walk_stuck (v : JsVal) (parts : list string) :
  traversable v = false -> parts <> [] -> walk v parts = Ok JNull.
Proof.
  intros Hv Hp. destruct parts as [|p rest]; [contradiction|].
  cbn [walk]. fold (traversable v). now rewrite Hv.
Qed.

Lemma walk_step (v : JsVal) (part : string) (rest : list string) :
  traversable v = true -> walk v (part :: rest) = walk (member v part) rest.
Proof. intros Hv. cbn [walk]. fold (traversable v). now rewrite Hv. Qed.

Lemma walk_total (parts : list string) : forall value, exists v, walk value parts = Ok v.
Proof.
  induction parts as [|part rest IH]; intros value; [now exists value|].
  cbn [walk]. destruct (truthy value && typeofObject value); [apply IH | now exists JNull].
Qed.

(** A name that no prototype defines is read from the data alone. *)
Lemma method_absent (methods : list (string * nat)) (name : string) :
  existsb (String.eqb name) (map fst methods) = false -> method methods name = None.
Proof.
  induction methods as [|[k arity] methods IH]; cbn [map fst existsb method]; [reflexivity|].
  rewrite (String.eqb_sym name k). destruct (String.eqb k name); [discriminate | exact IH].
Qed.

Lemma member_data (v : JsVal) (part : string) :
  inheritedName part = false -> member v part = get v part.
Proof.
  unfold inheritedName. intros H.
  apply orb_false_iff in H as [H Hmethods]. apply orb_false_iff in H as [Hproto Hctor].
  rewrite existsb_app in Hmethods. apply orb_false_iff in Hmethods as [Hobject Harray].
  assert (HO : own (JNative ObjectPrototype) part = None).
  { cbn [own]. rewrite Hctor. now apply method_absent. }
  unfold member, get. destruct (own v part) as [w|] eqn:Hown; [reflexivity|].
  rewrite Hproto. destruct v as [| |b|r|s|items|props|[| |fname arity]]; try reflexivity.
  - cbn [prototypes firstOwn]. rewrite HO.
    cbn [own] in Hown |- *. destruct (String.eqb part "length"); [discriminate|].
    rewrite Hctor. now rewrite method_absent.
  - cbn [prototypes firstOwn]. now rewrite HO.
  - cbn [prototypes firstOwn]. now rewrite HO.
Qed.

Lemma wellFormed_parts (path : string) :
  wellFormedPath path = true ->
  Forall (fun part => inheritedName part = false) (Str.split "." path).
Proof.
  unfold wellFormedPath. rewrite forallb_forall, Forall_forall.
  intros H part Hin. apply negb_true_iff, H. now apply list_elem_of_In.
Qed.

(** The walk looks at the last part only from a parent it has reached. *)
Lemma walk_last (lastPart : string) (init : list string) :
  Forall (fun part => inheritedName part = false) (init ++ [lastPart]) ->
  forall value,
    walk value (init ++ [lastPart]) =
    match reach value init with
    | Some parent => if traversable parent then Ok (get parent lastPart) else Ok JNull
    | None => Ok JNull
    end.
Proof.
  induction init as [|p init IH]; intros Hparts value.
  - cbn [app reach] in *. apply Forall_cons in Hparts as [Hlast _].
    destruct (traversable value) eqn:Hv.
    + rewrite walk_step by assumption. now rewrite member_data.
    + now rewrite walk_stuck.
  - cbn [app reach] in *. apply Forall_cons in Hparts as [Hp Hparts].
    destruct (traversable value) eqn:Hv.
    + rewrite walk_step, member_data by assumption. rewrite (IH Hparts). unfold get.
      destruct (own value p) as [next|]; [reflexivity|].
      destruct init; reflexivity.
    + now rewrite walk_stuck.
Qed.

Lemma walk_reach (parts : list string) :
  Forall (fun part => inheritedName part = false) parts ->
  forall value,
    match reach value parts with
    | Some v => walk value parts = Ok v
    | None => walk value parts = Ok JNull \/ walk value parts = Ok JUndefined
    end.
Proof.
  induction 1 as [|p rest Hp _ IH]; intros value; [reflexivity|].
  cbn [reach]. destruct (traversable value) eqn:Hv.
  - rewrite walk_step, member_data by assumption. unfold get.
    destruct (own value p) as [next|]; [apply IH|].
    destruct rest; [right; reflexivity | left; reflexivity].
  - left. now apply walk_stuck.
Qed.

Lemma getFieldValue_walk (issue : JsVal) (path : string) :
  truthy issue = true -> path <> "" -> path <> "key" ->
  truthy (get issue "fields") = true ->
  getFieldValue issue path = walk (get issue "fields") (Str.split "." path).
Proof.
  intros Hi Hp Hk Hf. unfold getFieldValue. rewrite Hi. cbn [negb orb].
  destruct (String.eqb path "") eqn:E1; [apply String.eqb_eq in E1; contradiction|].
  destruct (String.eqb path "key") eqn:E2; [apply String.eqb_eq in E2; contradiction|].
  rewrite getProp_present by now apply truthy_not_nullish.
  cbn [bind]. now rewrite Hf.
Qed.

(** C3 fails as stated: when only the last segment of the path is absent,
    [getFieldValue] returns [undefined], not [null]; here [a] and [a.b] are
    there and [a.b.c] is not.  And a segment that the data lacks is still
    found when a prototype defines it: the array [labels] has no property
    [__proto__], yet [labels.__proto__.length] yields the length of
    [Array.prototype]. *)
Lemma getFieldValue_last_segment_counterexample :
  getFieldValue (JObj [("fields", JObj [("a", JObj [("b", JObj [])])])]) "a.b.c"
    = Ok JUndefined /\
  getFieldValue (JObj [("fields", JObj [("a", JObj [("b", JObj [])])])]) "a.b.c"
    <> Ok JNull /\
  own (JArr []) "__proto__" = None /\
  getFieldValue (JObj [("fields", JObj [("labels", JArr [])])]) "labels.__proto__.length"
    = Ok (JNum "0").
Proof. split; [reflexivity|]. split; [discriminate|]. split; reflexivity. Qed.

(** C3, amended.  [getFieldValue] never throws, for any issue value and
    any path string.  It returns [null] when the issue or the path is
    missing; the path [key] is read from the issue itself, whether it has a
    field bag or not; for any other path it returns [null] when the issue
    has no field bag.  For a well-formed dotted path other than [key], one
    whose segments name data fields (no segment is [__proto__],
    [constructor] or the name of a method of [Object.prototype] or
    [Array.prototype], which objects and arrays inherit), it returns [null]
    when a segment before the last one is absent or leads to a value that
    cannot be walked into, and from a parent that was reached and can be
    walked into it returns the last segment's value, which is [undefined]
    (not [null]) when that segment is absent.  So whenever some segment of
    such a path is absent the result is [null] or [undefined]. *)
Theorem getFieldValue_resolves (issue : JsVal) (path : string) :
  (exists v, getFieldValue issue path = Ok v) /\
  (truthy issue = false \/ path = "" -> getFieldValue issue path = Ok JNull) /\
  (truthy issue = true -> path = "key" -> getFieldValue issue path = Ok (get issue "key")) /\
  (truthy issue = true -> path <> "" -> path <> "key" ->
   let fields := get issue "fields" in
   (truthy fields = false -> getFieldValue issue path = Ok JNull) /\
   (truthy fields = true -> wellFormedPath path = true ->
    match reach fields (Str.split "." path) with
    | Some v => getFieldValue issue path = Ok v
    | None => getFieldValue issue path = Ok JNull \/ getFieldValue issue path = Ok JUndefined
    end /\
    forall init lastPart, Str.split "." path = init ++ [lastPart] ->
      getFieldValue issue path =
      match reach fields init with
      | Some parent =>
          if traversable parent
          then match own parent lastPart with
               | Some v => Ok v
               | None => Ok JUndefined
               end
          else Ok JNull
      | None => Ok JNull
      end)).
Proof.
  assert (Hfalsy : truthy issue = false \/ path = "" -> getFieldValue issue path = Ok JNull).
  { intros [H| ->]; unfold getFieldValue.
    - now rewrite H.
    - now rewrite orb_true_r. }
  assert (Hkey : truthy issue = true -> path = "key" ->
                 getFieldValue issue path = Ok (get issue "key")).
  { intros H ->. unfold getFieldValue. rewrite H. cbn.
    now apply getProp_present, truthy_not_nullish. }
  assert (Hnofields : truthy issue = true -> path <> "" -> path <> "key" ->
                      truthy (get issue "fields") = false ->
                      getFieldValue issue path = Ok JNull).
  { intros Hi Hp Hk Hf. unfold getFieldValue. rewrite Hi. cbn [negb orb].
    destruct (String.eqb path "") eqn:E1; [apply String.eqb_eq in E1; contradiction|].
    destruct (String.eqb path "key") eqn:E2; [apply String.eqb_eq in E2; contradiction|].
    rewrite getProp_present by now apply truthy_not_nullish.
    cbn [bind]. now rewrite Hf. }
  split; [|split; [exact Hfalsy | split; [exact Hkey|]]].
  - destruct (truthy issue) eqn:Hi; [|eauto].
    destruct (string_dec path "") as [->|Hp]; [eauto|].
    destruct (string_dec path "key") as [->|Hk]; [eauto|].
    destruct (truthy (get issue "fields")) eqn:Hf; [|eauto].
    rewrite getFieldValue_walk by assumption. apply walk_total.
  - intros Hi Hp Hk fields. split; [now apply Hnofields|].
    intros Hf Hwell. apply wellFormed_parts in Hwell.
    rewrite getFieldValue_walk by assumption. fold fields.
    split; [now apply walk_reach|].
    intros init lastPart Hsplit. rewrite Hsplit in *. rewrite walk_last by assumption.
    unfold get.
    destruct (reach fields init) as [parent|]; [|reflexivity].
    destruct (traversable parent); [|reflexivity].
    now destruct (own parent lastPart).
Qed.

Lemma getFieldValue_resolves_witness :
  truthy Sample.issue = true /\ wellFormedPath "assignee.displayName" = true /\
  getFieldValue Sample.issue "assignee.displayName" = Ok (JStr "Ann").
Proof.
  split; [reflexivity|]. split; [reflexivity|].
  exact (proj1 (proj2 (proj2 (proj2 (proj2 (getFieldValue_resolves Sample.issue
                                             "assignee.displayName")))
                               eq_refl ltac:(discriminate) ltac:(discriminate))
                      eq_refl eq_refl)).
Defined.


(** ** Column formatting *)

(** C7 fails as stated for the type [link]: an object value is handed back
    as it is, its [url] field is not probed. *)
Lemma formatFieldValue_link_counterexample :
  formatFieldValue Sample.client (JObj [("url", JStr "http://wiki/x")]) (Some "link")
    = Ok (JObj [("url", JStr "http://wiki/x")]) /\
  formatFieldValue Sample.client (JObj [("url", JStr "http://wiki/x")]) (Some "link")
    <> Ok (JStr "http://wiki/x").
Proof. split; [reflexivity | discriminate]. Qed.

(** C7, amended.  The type [link] returns the value unchanged whatever its
    shape.  The type [confluence] passes a string starting with [http]
    through unchanged; for an object (or array) value it takes the first
    truthy one of the fields [url], [value], [href], in that order, and the
    value's string form when none is truthy; any other value gives its string
    form.  Both types render [null] and [undefined] as the empty string. *)
Theorem formatFieldValue_link_confluence (this : JiraClient) (value : JsVal) :
  formatFieldValue this value (Some "link") =
    (if nullish value then Ok (JStr "") else Ok value) /\
  formatFieldValue this value (Some "confluence") =
    (if nullish value then Ok (JStr "")
     else if urlShaped value then Ok value
     else if typeofObject value then
       match firstTruthy [get value "url"; get value "value"; get value "href"] with
       | Some found => Ok found
       | None => str (toString value)
       end
     else str (toString value)).
Proof.
  split.
  - unfold formatFieldValue. now destruct (nullish value).
  - unfold formatFieldValue.
    destruct (nullish value) eqn:Hn; [reflexivity|].
    cbn [isStr String.eqb Ascii.eqb Bool.eqb].
    destruct value as [| |b|r|s|items|props|[| |fname arity]];
      try discriminate Hn; cbn -[get toString]; try reflexivity;
      unfold orElse;
      (destruct (truthy (get _ "url")); [reflexivity|]);
      (destruct (truthy (get _ "value")); [reflexivity|]);
      (destruct (truthy (get _ "href")); reflexivity).
Qed.

(** ** Label checks *)

Lemma someLabel_texts (labelToCheck : string) (items : list JsVal) (texts : list string) :
  Forall2 (fun entry text => labelText entry = Some text) items texts ->
  someLabel labelToCheck items = Ok (existsb (fun text => sameLabel text labelToCheck) texts).
Proof.
  induction 1 as [|entry text items texts Hentry _ IH]; [reflexivity|].
  cbn [someLabel existsb].
  assert (Hstr : (if typeofString entry then Ok entry
                  else bind (getProp entry "name")
                         (fun name => orElse name (str (toString entry))))
                 = Ok (JStr text)).
  { destruct entry as [| |b|r|s|items0|props|native]; try discriminate Hentry.
    - cbn in *. congruence.
    - cbn [typeofString labelText] in *. unfold getProp, get, own. cbn [nullish].
      destruct (assoc "name" props) as [[| | | |n| | |]|]; try discriminate Hentry.
      destruct (String.eqb n "") eqn:E; [discriminate|].
      injection Hentry as <-. cbn [bind]. unfold orElse. cbn [truthy]. now rewrite E. }
  rewrite Hstr. cbn [bind toLowerCase]. unfold sameLabel at 1.
  destruct (String.eqb (Str.toLowerCase text) (Str.toLowerCase labelToCheck)); [reflexivity|].
  exact IH.
Qed.

Lemma existsb_sameLabel (labelToCheck : string) (texts : list string) :
  existsb (fun text => sameLabel text labelToCheck) texts = true <->
  Exists (fun text => Str.toLowerCase text = Str.toLowerCase labelToCheck) texts.
Proof.
  unfold sameLabel. induction texts as [|t texts IH]; cbn [existsb].
  - split; [discriminate | intros H; inversion H].
  - rewrite orb_true_iff, IH, Exists_cons, String.eqb_eq. reflexivity.
Qed.

(** C8 fails as stated: [checkLabel] is not total.  A [null] entry in the
    array makes it throw when it reads the entry's [name]. *)
Lemma checkLabel_null_entry_counterexample :
  exists e, checkLabel (JArr [JNull]) "foo" = Throw e.
Proof. eexists. reflexivity. Qed.

(** C8, amended.  [checkLabel] is case-insensitive.  For an array whose
    entries are strings or label objects with a non-empty string [name], it
    returns ["Yes"] if and only if some entry equals [labelToCheck] up to
    case, and ["No"] otherwise; for a non-empty string value it returns
    ["Yes"] if and only if the string contains [labelToCheck] up to case;
    for [null], [undefined] and every other falsy value, and for a value
    that is neither an array nor a string, it returns ["No"].  In particular
    [checkLabel(["Foo"], "foo") === "Yes"]. *)
Theorem checkLabel_case_insensitive (labelToCheck : string) :
  (forall items texts,
      Forall2 (fun entry text => labelText entry = Some text) items texts ->
      (checkLabel (JArr items) labelToCheck = Ok "Yes" \/
       checkLabel (JArr items) labelToCheck = Ok "No") /\
      (checkLabel (JArr items) labelToCheck = Ok "Yes" <->
       Exists (fun text => Str.toLowerCase text = Str.toLowerCase labelToCheck) texts)) /\
  (forall s, s <> "" ->
      (checkLabel (JStr s) labelToCheck = Ok "Yes" \/
       checkLabel (JStr s) labelToCheck = Ok "No") /\
      (checkLabel (JStr s) labelToCheck = Ok "Yes" <->
       Str.includes (Str.toLowerCase s) (Str.toLowerCase labelToCheck) = true)) /\
  (forall v, truthy v = false -> checkLabel v labelToCheck = Ok "No") /\
  (forall v, isArray v = false -> typeofString v = false ->
      checkLabel v labelToCheck = Ok "No") /\
  checkLabel (JArr [JStr "Foo"]) "foo" = Ok "Yes".
Proof.
  repeat split.
  - unfold checkLabel. cbn [truthy negb]. rewrite (someLabel_texts _ _ _ H). cbn [bind].
    destruct (existsb _ texts); auto.
  - unfold checkLabel. cbn [truthy negb]. rewrite (someLabel_texts _ _ _ H). cbn [bind].
    rewrite <- existsb_sameLabel. destruct (existsb _ texts); [reflexivity | discriminate].
  - unfold checkLabel. cbn [truthy negb]. rewrite (someLabel_texts _ _ _ H). cbn [bind].
    rewrite <- existsb_sameLabel. now intros ->.
  - unfold checkLabel. cbn [truthy]. destruct (String.eqb s "") eqn:E.
    + apply String.eqb_eq in E. contradiction.
    + cbn [negb]. destruct (Str.includes _ _); auto.
  - unfold checkLabel. cbn [truthy]. destruct (String.eqb s "") eqn:E.
    + apply String.eqb_eq in E. contradiction.
    + cbn [negb]. destruct (Str.includes _ _); [reflexivity | discriminate].
  - unfold checkLabel. cbn [truthy]. destruct (String.eqb s "") eqn:E.
    + apply String.eqb_eq in E. contradiction.
    + cbn [negb]. now intros ->.
  - intros v Hv. unfold checkLabel. now rewrite Hv.
  - intros v Ha Hs. unfold checkLabel. destruct (truthy v); [|reflexivity].
    destruct v as [| | | | | | |[| |]]; try discriminate; reflexivity.
Qed.

Lemma checkLabel_case_insensitive_witness :
  Forall2 (fun entry text => labelText entry = Some text)
    [JStr "q3"; JObj [("name", JStr "RISK")]] ["q3"; "RISK"] /\
  (checkLabel (JArr [JStr "q3"; JObj [("name", JStr "RISK")]]) "Risk" = Ok "Yes" \/
   checkLabel (JArr [JStr "q3"; JObj [("name", JStr "RISK")]]) "Risk" = Ok "No").
Proof.
  assert (H : Forall2 (fun entry text => labelText entry = Some text)
                [JStr "q3"; JObj [("name", JStr "RISK")]] ["q3"; "RISK"])
    by (repeat constructor).
  split; [exact H|].
  exact (proj1 (proj1 (checkLabel_case_insensitive "Risk") _ _ H)).
Defined.

(** ** The projection *)

(** *** Values of the tracker's shape *)

Lemma tame_array (items : list JsVal) :
  tame (JArr items) = true <-> Forall sound items.
Proof.
  cbn [tame]. induction items as [|x items IH].
  - split; [constructor | reflexivity].
  - rewrite Forall_cons, <- IH, !andb_true_iff, negb_true_iff. unfold sound. tauto.
Qed.

Lemma tame_object (props : list (string * JsVal)) :
  tame (JObj props) = true <->
  assoc "toString" props = None /\ nameOk props = true /\
  Forall (fun kv => tame (snd kv) = true) props.
Proof.
  cbn [tame]. destruct (assoc "toString" props) as [v|].
  { split; [discriminate | intros [H _]; discriminate]. }
  rewrite andb_true_iff.
  assert (Hall : (fix all (l : list (string * JsVal)) : bool :=
                    match l with
                    | [] => true
                    | (_, x) :: rest => tame x && all rest
                    end) props = true <-> Forall (fun kv => tame (snd kv) = true) props).
  { induction props as [|[k x] props IH].
    - split; [constructor | reflexivity].
    - rewrite Forall_cons, <- IH, andb_true_iff. reflexivity. }
  rewrite Hall. tauto.
Qed.

Lemma assoc_tame (name : string) (props : list (string * JsVal)) (v : JsVal) :
  Forall (fun kv => tame (snd kv) = true) props -> assoc name props = Some v -> tame v = true.
Proof.
  induction 1 as [|[k x] props Hx _ IH]; cbn [assoc]; [discriminate|].
  destruct (String.eqb k name); [now intros [= <-] | exact IH].
Qed.

Lemma element_sound (name : string) (items : list JsVal) :
  Forall sound items -> forall i v, element items i name = Some v -> sound v.
Proof.
  induction 1 as [|x items Hx _ IH]; intros i v; cbn [element]; [discriminate|].
  destruct (String.eqb (Str.of_nat i) name); [now intros [= <-] | apply IH].
Qed.

Lemma charAt_string (name : string) (s : string) :
  forall i v, charAt s i name = Some v -> exists c, v = JStr c.
Proof.
  induction s as [|a s IH]; intros i v; cbn [charAt]; [discriminate|].
  destruct (String.eqb (Str.of_nat i) name); [intros [= <-]; eauto | apply IH].
Qed.

Lemma method_native (methods : list (string * nat)) (name : string) (w : JsVal) :
  method methods name = Some w -> exists fname arity, w = JNative (NativeFunction fname arity).
Proof.
  induction methods as [|[k arity] methods IH]; cbn [method]; [discriminate|].
  destruct (String.eqb k name); [intros [= <-]; eauto | exact IH].
Qed.

Lemma own_tame (v : JsVal) (name : string) (w : JsVal) :
  tame v = true -> own v name = Some w -> tame w = true.
Proof.
  intros Hv. unfold own.
  destruct v as [| |b|r|s|items|props|[| |fname arity]]; try discriminate.
  - destruct (String.eqb name "length"); [now intros [= <-]|].
    intros E. now destruct (charAt_string _ _ _ _ E) as (c & ->).
  - destruct (String.eqb name "length"); [now intros [= <-]|].
    intros E. apply tame_array in Hv. exact (proj2 (element_sound _ _ Hv _ _ E)).
  - intros E. apply tame_object in Hv as (_ & _ & Hall). exact (assoc_tame _ _ _ Hall E).
  - destruct (String.eqb name "constructor"); [now intros [= <-]|].
    intros E. now destruct (method_native _ _ _ E) as (f & a & ->).
  - destruct (String.eqb name "length"); [now intros [= <-]|].
    destruct (String.eqb name "constructor"); [now intros [= <-]|].
    intros E. now destruct (method_native _ _ _ E) as (f & a & ->).
  - destruct (String.eqb name "name"); [now intros [= <-]|].
    destruct (String.eqb name "length"); [now intros [= <-] | discriminate].
Qed.

Lemma get_tame (v : JsVal) (name : string) : tame v = true -> tame (get v name) = true.
Proof.
  intros Hv. unfold get. destruct (own v name) as [w|] eqn:E; [|reflexivity].
  exact (own_tame v name w Hv E).
Qed.

Lemma firstOwn_tame (holders : list JsVal) (name : string) (w : JsVal) :
  Forall (fun holder => tame holder = true) holders ->
  firstOwn holders name = Some w -> tame w = true.
Proof.
  induction 1 as [|holder holders Hholder _ IH]; cbn [firstOwn]; [discriminate|].
  destruct (own holder name) as [x|] eqn:E; [|exact IH].
  intros [= <-]. exact (own_tame holder name x Hholder E).
Qed.

(** What the prototype chain adds is a built-in object, which converts
    without throwing. *)
Lemma member_tame (v : JsVal) (name : string) : tame v = true -> tame (member v name) = true.
Proof.
  intros Hv. unfold member. destruct (own v name) as [w|] eqn:E.
  { exact (own_tame v name w Hv E). }
  destruct (String.eqb name "__proto__").
  { destruct v as [| |b|r|s|items|props|[| |fname arity]]; reflexivity. }
  destruct (firstOwn (prototypes v) name) as [w|] eqn:F; [|reflexivity].
  apply (firstOwn_tame (prototypes v) name w); [|exact F].
  destruct v as [| |b|r|s|items|props|[| |fname arity]]; repeat constructor.
Qed.

(** A decimal numeral never spells a field name. *)
Lemma of_nat_digit (n : nat) (a : ascii) (rest : string) :
  Str.of_nat n = String a rest -> Regex.digit a = true.
Proof.
  unfold Str.of_nat. destruct (Nat.to_uint n); cbn; intros [= <- _]; reflexivity.
Qed.

Lemma element_named (items : list JsVal) (a : ascii) (rest : string) :
  Regex.digit a = false -> forall i, element items i (String a rest) = None.
Proof.
  intros Ha. induction items as [|x items IH]; intros i; cbn [element]; [reflexivity|].
  destruct (String.eqb (Str.of_nat i) (String a rest)) eqn:E; [|apply IH].
  apply String.eqb_eq, of_nat_digit in E. congruence.
Qed.

Lemma array_name (items : list JsVal) : get (JArr items) "name" = JUndefined.
Proof. unfold get, own. cbn [String.eqb Ascii.eqb Bool.eqb]. now rewrite element_named. Qed.

(** Conversions of such values do not throw. *)
Lemma joinWith_ok (conv : JsVal -> Res string) (sep : string) (items : list JsVal) :
  Forall (fun x => nullish x = true \/ exists s, conv x = Ok s) items ->
  exists s, joinWith conv sep items = Ok s.
Proof.
  induction 1 as [|x items Hx _ IH]; [now exists ""|].
  assert (Hpiece : exists a, piece conv x = Ok a).
  { unfold piece. destruct Hx as [->|Hx]; [eauto|]. destruct (nullish x); eauto. }
  destruct Hpiece as (a & Ha). destruct IH as (b & Hb).
  cbn [joinWith]. destruct items as [|y items]; [eauto|].
  rewrite Ha. cbn [bind]. rewrite Hb. cbn [bind]. eauto.
Qed.

Lemma ToString_array (items : list JsVal) :
  ToString (JArr items) = joinWith ToString "," items.
Proof.
  cbn [ToString]. induction items as [|x items IH]; [reflexivity|].
  cbn [joinWith]. unfold piece at 1 2. destruct items as [|y items]; [reflexivity|].
  destruct (if nullish x then Ok "" else ToString x) as [a|e]; [|reflexivity].
  cbn [bind]. now rewrite IH.
Qed.

Lemma ToString_tame (v : JsVal) : tame v = true -> exists s, ToString v = Ok s.
Proof.
  induction v as [| |b|r|s|items IH|props _|native] using JsVal_induction; intros Hv;
    try (eexists; reflexivity).
  - destruct b; eexists; reflexivity.
  - rewrite ToString_array. apply joinWith_ok.
    apply tame_array in Hv. rewrite Forall_forall in *.
    intros x Hx. right. apply IH; [exact Hx|]. exact (proj2 (Hv x Hx)).
  - apply tame_object in Hv as (Hno & _). cbn [ToString]. rewrite Hno. eauto.
  - destruct native; eexists; reflexivity.
Qed.

Lemma toString_sound (v : JsVal) : sound v -> exists s, toString v = Ok s.
Proof.
  intros [Hn Hv]. destruct v as [| |b|r|s|items|props|native]; try discriminate Hn;
    try (now apply ToString_tame).
  apply tame_object in Hv as (Hno & _). cbn [toString]. rewrite Hno. eauto.
Qed.

Lemma ToPrimitive_tame (v : JsVal) : tame v = true -> exists p, ToPrimitive v = Ok p.
Proof.
  intros Hv. destruct v as [| |b|r|s|items|props|native]; try (eexists; reflexivity);
    unfold ToPrimitive; destruct (ToString_tame _ Hv) as (s & ->); cbn [bind]; eauto.
Qed.

Lemma join_tame (sep : string) (items : list JsVal) :
  Forall (fun x => tame x = true) items -> exists s, join sep items = Ok s.
Proof.
  intros H. apply joinWith_ok. eapply Forall_impl; [exact H|].
  intros x Hx. right. now apply ToString_tame.
Qed.

(** The resolver stays within such values. *)
Lemma walk_tame (parts : list string) :
  forall value, tame value = true -> exists v, walk value parts = Ok v /\ tame v = true.
Proof.
  induction parts as [|part rest IH]; intros value Hv; [now exists value|].
  cbn [walk]. destruct (truthy value && typeofObject value) eqn:Ht; [|now exists JNull].
  apply IH. now apply member_tame.
Qed.

Lemma getFieldValue_tame (issue : JsVal) (path : string) :
  tame issue = true -> exists v, getFieldValue issue path = Ok v /\ tame v = true.
Proof.
  intros Hi. unfold getFieldValue.
  destruct (negb (truthy issue) || String.eqb path "") eqn:E; [now exists JNull|].
  apply orb_false_iff in E as [Ht _]. apply negb_false_iff in Ht.
  rewrite !getProp_present by now apply truthy_not_nullish.
  destruct (String.eqb path "key"); [exists (get issue "key"); split; [reflexivity|now apply get_tame]|].
  cbn [bind]. destruct (negb (truthy (get issue "fields"))); [now exists JNull|].
  apply walk_tame. now apply get_tame.
Qed.

(** *** Formatting does not throw on such values *)
Lemma orElse_ok (a : JsVal) (k : Res JsVal) :
  (exists v, k = Ok v) -> exists v, orElse a k = Ok v.
Proof. unfold orElse. destruct (truthy a); eauto. Qed.

Lemma str_ok (m : Res string) : (exists s, m = Ok s) -> exists v, str m = Ok v.
Proof. intros (s & ->). cbn. eauto. Qed.

Lemma shown_ok (v : JsVal) : sound v -> exists w, str (toString v) = Ok w.
Proof. intros H. now apply str_ok, toString_sound. Qed.

Lemma name_of_sound (item : JsVal) :
  sound item ->
  exists s, orElse (get item "name") (str (toString item)) = Ok (JStr s).
Proof.
  intros [Hn Hv]. unfold orElse.
  destruct (toString_sound item (conj Hn Hv)) as (s & Hs).
  destruct (truthy (get item "name")) eqn:Ht.
  2:{ rewrite Hs. cbn. eauto. }
  destruct item as [| |b|r|s0|items|props|native]; try discriminate Hn; try discriminate Ht.
  - unfold get, own in *. cbn [String.eqb Ascii.eqb Bool.eqb] in *.
    destruct (charAt s0 0 "name") as [w|] eqn:E; [|discriminate].
    destruct (charAt_string _ _ _ _ E) as (c & ->). eauto.
  - now rewrite array_name in Ht.
  - apply tame_object in Hv as (_ & Hname & _). unfold nameOk in Hname.
    unfold get, own in *. destruct (assoc "name" props) as [w|]; [|discriminate].
    rewrite Ht in Hname. cbn in Hname. rewrite orb_false_r in Hname.
    destruct w; try discriminate. eauto.
  - destruct native as [| |fname arity]; try discriminate Ht. cbn. eauto.
Qed.

Lemma itemNames_ok (items : list JsVal) :
  Forall sound items ->
  exists names, itemNames items = Ok names /\ Forall (fun x => tame x = true) names.
Proof.
  induction 1 as [|item items Hitem _ IH]; [now exists []|].
  destruct (name_of_sound item Hitem) as (s & Hshown).
  destruct IH as (names & Hnames & Hall).
  exists (JStr s :: names). split; [|now constructor].
  cbn [itemNames]. rewrite getProp_present by apply Hitem.
  cbn [bind]. rewrite Hshown. cbn [bind]. now rewrite Hnames.
Qed.

Lemma formatFieldValue_ok (this : JiraClient) (value : JsVal) (type : option string) :
  tame value = true -> exists shown, formatFieldValue this value type = Ok shown.
Proof.
  intros Hv. unfold formatFieldValue.
  destruct (nullish value) eqn:Hn; [eauto|].
  assert (Hs : sound value) by now split.
  assert (Hshown := shown_ok value Hs).
  destruct (isStr type "link"); [eauto|].
  destruct (isStr type "confluence").
  { destruct (typeofString value && _); [eauto|].
    destruct (typeofObject value); [|exact Hshown].
    rewrite !getProp_present by assumption. cbn [bind].
    now repeat apply orElse_ok. }
  destruct (isStr type "badge").
  { destruct (typeofObject value); [|exact Hshown].
    rewrite !getProp_present by assumption. cbn [bind].
    now repeat apply orElse_ok. }
  destruct (isStr type "date").
  { destruct (ToPrimitive_tame value Hv) as (p & ->). cbn. eauto. }
  destruct (isStr type "datetime").
  { destruct (ToPrimitive_tame value Hv) as (p & ->). cbn. eauto. }
  destruct value as [| |b|r|s|items|props|native]; try discriminate Hn; try exact Hshown.
  - destruct items as [|first items]; [eauto|].
    assert (Hitems := proj1 (tame_array _) Hv).
    destruct (typeofObject first).
    + destruct (itemNames_ok _ Hitems) as (names & -> & Hnames). cbn [bind].
      apply str_ok. now apply join_tame.
    + apply str_ok, join_tame. eapply Forall_impl; [exact Hitems|]. now intros x [_ Hx].
  - cbn [typeofObject]. rewrite !getProp_present by assumption. cbn [bind].
    now repeat apply orElse_ok.
  - destruct native as [| |fname arity]; [|eauto|exact Hshown].
    cbn [typeofObject]. rewrite !getProp_present by assumption. cbn [bind].
    now repeat apply orElse_ok.
Qed.

Lemma someLabel_ok (labelToCheck : string) (labels : list JsVal) :
  Forall sound labels -> exists found, someLabel labelToCheck labels = Ok found.
Proof.
  induction 1 as [|label labels Hlabel _ IH]; [now exists false|].
  cbn [someLabel].
  assert (Hstr : exists s,
            (if typeofString label then Ok label
             else bind (getProp label "name")
                    (fun name => orElse name (str (toString label)))) = Ok (JStr s)).
  { destruct label as [| |b|r|s|items|props|native]; try (cbn [typeofString]; eauto; fail);
      cbn [typeofString]; rewrite getProp_present by apply Hlabel; cbn [bind];
      now apply name_of_sound. }
  destruct Hstr as (s & ->). cbn [bind toLowerCase].
  destruct (String.eqb _ _); [eauto | exact IH].
Qed.

Lemma checkLabel_ok (labels : JsVal) (labelToCheck : string) :
  tame labels = true -> exists answer, checkLabel labels labelToCheck = Ok answer.
Proof.
  intros Hv. unfold checkLabel. destruct (negb (truthy labels)); [eauto|].
  destruct labels as [| |b|r|s|items|props|[| |fname arity]]; eauto.
  destruct (someLabel_ok labelToCheck items (proj1 (tame_array _) Hv)) as (found & ->).
  cbn. eauto.
Qed.

(** *** The keys of a row *)
Lemma existsb_elem (name : string) (keys : list string) :
  existsb (String.eqb name) keys = true <-> name ∈ keys.
Proof.
  induction keys as [|k keys IH]; cbn [existsb].
  - split; [discriminate | intros H; inversion H].
  - rewrite orb_true_iff, IH, elem_of_cons, String.eqb_eq. reflexivity.
Qed.

Lemma assoc_existsb (name : string) (row : list (string * JsVal)) :
  existsb (String.eqb name) (map fst row)
  = match assoc name row with Some _ => true | None => false end.
Proof.
  induction row as [|[k v] row IH]; [reflexivity|].
  cbn [map fst existsb assoc]. rewrite (String.eqb_sym name k).
  destruct (String.eqb k name); [reflexivity | exact IH].
Qed.

Lemma keys_replaceProp (row : list (string * JsVal)) (name : string) (value : JsVal) :
  map fst (replaceProp row name value) = map fst row.
Proof.
  induction row as [|[k v] row IH]; [reflexivity|]. cbn [replaceProp].
  destruct (String.eqb k name); cbn [map fst]; [reflexivity | now rewrite IH].
Qed.

Lemma keys_insertIndexed (row : list (string * JsVal)) (index : N) (name : string)
    (value : JsVal) :
  map fst (insertIndexed row index name value) ≡ₚ name :: map fst row.
Proof.
  induction row as [|[k v] row IH]; [reflexivity|]. cbn [insertIndexed].
  destruct (arrayIndex k) as [j|]; [|reflexivity].
  destruct (j <? index)%N; [|reflexivity].
  cbn [map fst]. rewrite IH. apply perm_swap.
Qed.

Lemma named_index (name : string) (index : N) : arrayIndex name = Some index -> named name = false.
Proof. unfold named, indexKey. now intros ->. Qed.

Lemma named_other (name : string) : arrayIndex name = None -> named name = true.
Proof. unfold named, indexKey. now intros ->. Qed.

Lemma named_insertIndexed (row : list (string * JsVal)) (index : N) (name : string)
    (value : JsVal) :
  arrayIndex name = Some index ->
  List.filter named (map fst (insertIndexed row index name value))
  = List.filter named (map fst row).
Proof.
  intros Hname. assert (Hn := named_index name index Hname).
  induction row as [|[k v] row IH]; cbn [insertIndexed map fst List.filter].
  - now rewrite Hn.
  - destruct (arrayIndex k) as [j|] eqn:Ek.
    + destruct (j <? index)%N; cbn [map fst List.filter].
      * now rewrite IH.
      * now rewrite Hn.
    + cbn [map fst List.filter]. now rewrite Hn.
Qed.

Lemma forallb_insertIndexed (p : string -> bool) (row : list (string * JsVal)) (index : N)
    (name : string) (value : JsVal) :
  forallb p (map fst (insertIndexed row index name value))
  = p name && forallb p (map fst row).
Proof.
  induction row as [|[k v] row IH]; [reflexivity|]. cbn [insertIndexed].
  destruct (arrayIndex k) as [j|]; [|reflexivity].
  destruct (j <? index)%N; [|reflexivity].
  cbn [map fst forallb]. rewrite IH. now destruct (p k), (p name).
Qed.

Lemma forallb_impl (p q : string -> bool) (keys : list string) :
  (forall k, p k = true -> q k = true) -> forallb p keys = true -> forallb q keys = true.
Proof.
  intros Hpq. induction keys as [|k keys IH]; [reflexivity|]. cbn [forallb].
  intros H. apply andb_true_iff in H as [Hk Hrest]. now rewrite (Hpq k Hk), IH.
Qed.

Lemma notBelow_le (i j : N) (k : string) :
  (i <= j)%N -> notBelow j k = true -> notBelow i k = true.
Proof.
  unfold notBelow. destruct (arrayIndex k) as [m|]; [|reflexivity].
  rewrite !N.leb_le. lia.
Qed.

Lemma notBelow_named (i : N) (k : string) : named k = true -> notBelow i k = true.
Proof. unfold named, indexKey, notBelow. now destruct (arrayIndex k). Qed.

Lemma enumerated_insertIndexed (row : list (string * JsVal)) (index : N) (name : string)
    (value : JsVal) :
  arrayIndex name = Some index ->
  enumerated (map fst row) = true ->
  enumerated (map fst (insertIndexed row index name value)) = true.
Proof.
  intros Hname. induction row as [|[k v] row IH]; intros Hrow.
  - cbn. now rewrite Hname.
  - cbn [insertIndexed]. cbn [map fst enumerated] in Hrow.
    destruct (arrayIndex k) as [j|] eqn:Ek.
    + apply andb_true_iff in Hrow as [Hlater Hrest].
      destruct (j <? index)%N eqn:Hlt.
      * apply N.ltb_lt in Hlt. cbn [map fst enumerated]. rewrite Ek, forallb_insertIndexed.
        rewrite Hlater, (IH Hrest). unfold notBelow. rewrite Hname.
        assert (Hle : (j <=? index)%N = true) by (apply N.leb_le; lia).
        now rewrite Hle.
      * apply N.ltb_ge in Hlt. cbn [map fst enumerated forallb]. rewrite Hname, Ek.
        rewrite Hlater, Hrest.
        assert (Hk : notBelow index k = true).
        { unfold notBelow. rewrite Ek. now apply N.leb_le. }
        rewrite Hk. cbn [andb]. rewrite andb_true_r.
        apply (forallb_impl (notBelow j)); [|exact Hlater].
        intros k'. now apply notBelow_le.
    + cbn [map fst enumerated forallb]. rewrite Hname, Ek, Hrow.
      assert (Hk : notBelow index k = true) by (unfold notBelow; now rewrite Ek).
      rewrite Hk. cbn [andb]. rewrite andb_true_r.
      apply (forallb_impl named); [|exact Hrow].
      intros k'. apply notBelow_named.
Qed.

Lemma enumerated_append (keys : list string) (name : string) :
  arrayIndex name = None -> enumerated keys = true -> enumerated (keys ++ [name]) = true.
Proof.
  intros Hname. induction keys as [|k keys IH]; intros H; cbn [app enumerated] in *.
  - now rewrite Hname.
  - destruct (arrayIndex k) as [j|].
    + apply andb_true_iff in H as [Hlater Hrest].
      rewrite forallb_app, Hlater, (IH Hrest). cbn. unfold notBelow. now rewrite Hname.
    + rewrite forallb_app, H. cbn. now rewrite (named_other name Hname).
Qed.

(** Assigning a property keeps the keys in the order of enumeration; the
    keys are those created so far, and the ones that spell no index stay in
    the order of their creation. *)
Lemma assign_keys (row : list (string * JsVal)) (name : string) (value : JsVal) :
  let created :=
    if existsb (String.eqb name) (map fst row) then map fst row else map fst row ++ [name] in
  sameKeys (map fst (assign row name value)) created /\
  (enumerated (map fst row) = true -> enumerated (map fst (assign row name value)) = true).
Proof.
  intros created. unfold created, assign. rewrite assoc_existsb.
  destruct (assoc name row) as [old|].
  { rewrite keys_replaceProp. now split. }
  destruct (arrayIndex name) as [index|] eqn:Hname.
  - split; [split|].
    + rewrite keys_insertIndexed. apply Permutation_cons_append.
    + rewrite (named_insertIndexed _ _ _ _ Hname), List.filter_app. cbn [List.filter].
      rewrite (named_index name index Hname). now rewrite app_nil_r.
    + now apply enumerated_insertIndexed.
  - rewrite map_app. cbn [map fst]. split; [now split|]. now apply enumerated_append.
Qed.

Lemma setProp_keys (row : list (string * JsVal)) (name : string) (value : JsVal) :
  sameKeys (map fst (setProp row name value)) (addKey (map fst row) name) /\
  (enumerated (map fst row) = true -> enumerated (map fst (setProp row name value)) = true).
Proof.
  unfold setProp, addKey. destruct (String.eqb name "__proto__"); [now split|].
  apply assign_keys.
Qed.

Lemma assoc_replaceProp (row : list (string * JsVal)) (name k : string) (value : JsVal) :
  assoc k (replaceProp row name value)
  = if String.eqb name k
    then match assoc name row with Some _ => Some value | None => None end
    else assoc k row.
Proof.
  induction row as [|[k' v] row IH]; cbn [replaceProp assoc].
  - now destruct (String.eqb name k).
  - destruct (String.eqb k' name) eqn:E1; cbn [assoc].
    + apply String.eqb_eq in E1. subst k'. now destruct (String.eqb name k).
    + rewrite IH. destruct (String.eqb name k) eqn:E2; [|reflexivity].
      apply String.eqb_eq in E2. subst k. now rewrite E1.
Qed.

Lemma assoc_insertIndexed (row : list (string * JsVal)) (index : N) (name k : string)
    (value : JsVal) :
  assoc name row = None ->
  assoc k (insertIndexed row index name value)
  = if String.eqb name k then Some value else assoc k row.
Proof.
  induction row as [|[k' v] row IH]; intros Hfresh; cbn [insertIndexed].
  - reflexivity.
  - cbn [assoc] in Hfresh. destruct (String.eqb k' name) eqn:E1; [discriminate|].
    destruct (arrayIndex k') as [j|]; [|reflexivity].
    destruct (j <? index)%N; [|reflexivity].
    cbn [assoc]. rewrite (IH Hfresh).
    destruct (String.eqb k' k) eqn:E2; [|reflexivity].
    apply String.eqb_eq in E2. subst k'. now rewrite String.eqb_sym, E1.
Qed.

Lemma assoc_append (row : list (string * JsVal)) (name k : string) (value : JsVal) :
  assoc name row = None ->
  assoc k (row ++ [(name, value)]) = if String.eqb name k then Some value else assoc k row.
Proof.
  induction row as [|[k' v] row IH]; intros Hfresh; cbn [app assoc].
  - reflexivity.
  - cbn [assoc] in Hfresh. destruct (String.eqb k' name) eqn:E1; [discriminate|].
    rewrite (IH Hfresh). destruct (String.eqb k' k) eqn:E2; [|reflexivity].
    apply String.eqb_eq in E2. subst k'. now rewrite String.eqb_sym, E1.
Qed.

Lemma assoc_assign (row : list (string * JsVal)) (name k : string) (value : JsVal) :
  assoc k (assign row name value) = if String.eqb name k then Some value else assoc k row.
Proof.
  unfold assign. destruct (assoc name row) as [old|] eqn:Hold.
  - rewrite assoc_replaceProp, Hold. reflexivity.
  - destruct (arrayIndex name) as [index|].
    + now apply assoc_insertIndexed.
    + now apply assoc_append.
Qed.

Lemma assoc_assign_other (row : list (string * JsVal)) (name k : string) (value : JsVal) :
  k <> name -> assoc k (assign row name value) = assoc k row.
Proof.
  intros Hne. rewrite assoc_assign. destruct (String.eqb name k) eqn:E; [|reflexivity].
  apply String.eqb_eq in E. congruence.
Qed.

Lemma assoc_setProp_other (row : list (string * JsVal)) (name k : string) (value : JsVal) :
  k <> name -> assoc k (setProp row name value) = assoc k row.
Proof.
  intros Hne. unfold setProp. destruct (String.eqb name "__proto__"); [reflexivity|].
  now apply assoc_assign_other.
Qed.

Lemma sameKeys_refl (keys : list string) : sameKeys keys keys.
Proof. now split. Qed.

Lemma sameKeys_trans (a b c : list string) : sameKeys a b -> sameKeys b c -> sameKeys a c.
Proof. intros [H1 H2] [H3 H4]. split; [now rewrite H1 | now rewrite H2]. Qed.

Lemma sameKeys_existsb (name : string) (a b : list string) :
  a ≡ₚ b -> existsb (String.eqb name) a = existsb (String.eqb name) b.
Proof.
  intros Hperm. destruct (existsb (String.eqb name) b) eqn:Hb.
  - apply existsb_elem. rewrite Hperm. now apply existsb_elem.
  - destruct (existsb (String.eqb name) a) eqn:Ha; [|reflexivity].
    apply existsb_elem in Ha. rewrite Hperm in Ha. apply existsb_elem in Ha. congruence.
Qed.

Lemma sameKeys_addKey (name : string) (a b : list string) :
  sameKeys a b -> sameKeys (addKey a name) (addKey b name).
Proof.
  intros [Hperm Hnamed]. unfold addKey.
  destruct (String.eqb name "__proto__"); [now split|].
  rewrite (sameKeys_existsb name a b Hperm).
  destruct (existsb (String.eqb name) b); [now split|].
  split; [now rewrite Hperm | now rewrite !List.filter_app, Hnamed].
Qed.

Lemma sameKeys_fold (names : list string) :
  forall a b, sameKeys a b -> sameKeys (fold_left addKey names a) (fold_left addKey names b).
Proof.
  induction names as [|name names IH]; intros a b H; [exact H|].
  cbn [fold_left]. now apply IH, sameKeys_addKey.
Qed.

Lemma fold_addKey_elem (name : string) (keys : list string) :
  forall init,
    name ∈ fold_left addKey keys init <->
    name ∈ init \/ (name <> "__proto__" /\ name ∈ keys).
Proof.
  induction keys as [|k keys IH]; intros init; cbn [fold_left].
  - split; [auto | intros [H|[_ H]]; [exact H | inversion H]].
  - rewrite IH, elem_of_cons. unfold addKey.
    destruct (String.eqb k "__proto__") eqn:Ep.
    { apply String.eqb_eq in Ep. subst k. split; [tauto|].
      intros [H|[Hne [->|H]]]; tauto. }
    apply String.eqb_neq in Ep.
    destruct (existsb (String.eqb k) init) eqn:Ee.
    { apply existsb_elem in Ee. split; [tauto|].
      intros [H|[Hne [->|H]]]; tauto. }
    rewrite elem_of_app, list_elem_of_singleton. split; [|tauto].
    intros [[H| ->]|H]; tauto.
Qed.

Lemma fold_addKey_NoDup (keys : list string) :
  forall init, NoDup init -> NoDup (fold_left addKey keys init).
Proof.
  induction keys as [|k keys IH]; intros init Hinit; [exact Hinit|].
  cbn [fold_left]. apply IH. unfold addKey.
  destruct (String.eqb k "__proto__"); [exact Hinit|].
  destruct (existsb (String.eqb k) init) eqn:Ee; [exact Hinit|].
  apply NoDup_app. split; [exact Hinit|]. split; [|apply NoDup_singleton].
  intros x Hx Hk. apply list_elem_of_singleton in Hk. subst x.
  apply existsb_elem in Hx. congruence.
Qed.

Lemma fold_addKey_distinct (keys : list string) :
  forall init,
    NoDup (init ++ keys) -> "__proto__" ∉ keys ->
    fold_left addKey keys init = init ++ keys.
Proof.
  induction keys as [|k keys IH]; intros init Hnodup Hproto; cbn [fold_left].
  - now rewrite app_nil_r.
  - apply not_elem_of_cons in Hproto as [Hne Hproto].
    assert (Hfresh : k ∉ init).
    { apply NoDup_app in Hnodup as (_ & Hdisj & _). intros Hin.
      apply (Hdisj k Hin). now left. }
    assert (Hadd : addKey init k = init ++ [k]).
    { unfold addKey. destruct (String.eqb k "__proto__") eqn:Ep.
      - apply String.eqb_eq in Ep. congruence.
      - destruct (existsb (String.eqb k) init) eqn:Ee; [|reflexivity].
        apply existsb_elem in Ee. contradiction. }
    rewrite Hadd, IH, <- app_assoc; [reflexivity| |exact Hproto].
    now rewrite <- app_assoc.
Qed.

Lemma filter_named_all (keys : list string) :
  Forall (fun k => named k = true) keys -> List.filter named keys = keys.
Proof.
  induction 1 as [|k keys Hk _ IH]; [reflexivity|]. cbn [List.filter]. now rewrite Hk, IH.
Qed.

(** Keys that spell no index are listed in the order of their creation. *)
Lemma sameKeys_named (keys created : list string) :
  sameKeys keys created -> Forall (fun k => named k = true) created -> keys = created.
Proof.
  intros [Hperm Hnamed] Hall.
  rewrite <- (filter_named_all created Hall), <- Hnamed. symmetry.
  apply filter_named_all. now rewrite Hperm.
Qed.

Section Rows.
Variable this : JiraClient.

Lemma applyColumn_ok (issue : JsVal) (row : list (string * JsVal)) (column : option Column) :
  tame issue = true ->
  exists row',
    applyColumn this issue row column = Ok row' /\
    sameKeys (map fst row') match appliedKey column with
                            | Some name => addKey (map fst row) name
                            | None => map fst row
                            end /\
    (enumerated (map fst row) = true -> enumerated (map fst row') = true) /\
    forall k, appliedKey column <> Some k -> assoc k row' = assoc k row.
Proof.
  intros Hissue. unfold applyColumn, appliedKey.
  assert (Hskip : exists row',
            Ok row = Ok row' /\ sameKeys (map fst row') (map fst row) /\
            (enumerated (map fst row) = true -> enumerated (map fst row') = true) /\
            forall k : string, None <> Some k -> assoc k row' = assoc k row).
  { exists row. split; [reflexivity|]. split; [apply sameKeys_refl|]. now split. }
  destruct column as [col|]; [|exact Hskip].
  destruct (jiraField col) as [field|]; [|exact Hskip].
  destruct (key col) as [name|]; [|cbn; rewrite andb_false_r; exact Hskip].
  cbn [present]. destruct (negb (String.eqb field "") && negb (String.eqb name ""));
    [|exact Hskip].
  destruct (getFieldValue_tame issue field Hissue) as (fieldValue & -> & Hvalue).
  cbn [bind].
  destruct (isStr (type col) "labelCheck" && present (labelToCheck col)).
  - destruct (checkLabel_ok fieldValue (default "" (labelToCheck col)) Hvalue)
      as (answer & ->).
    cbn [bind]. eexists. split; [reflexivity|].
    split; [apply setProp_keys|]. split; [apply setProp_keys|].
    intros k Hk. apply assoc_setProp_other. congruence.
  - destruct (formatFieldValue_ok this fieldValue (type col) Hvalue) as (shown & ->).
    cbn [bind]. eexists. split; [reflexivity|].
    split; [apply setProp_keys|]. split; [apply setProp_keys|].
    intros k Hk. apply assoc_setProp_other. congruence.
Qed.

Lemma applyColumns_ok (issue : JsVal) (columns : list (option Column)) :
  tame issue = true ->
  forall row, exists row',
    applyColumns this issue row columns = Ok row' /\
    sameKeys (map fst row') (fold_left addKey (appliedKeys columns) (map fst row)) /\
    (enumerated (map fst row) = true -> enumerated (map fst row') = true) /\
    forall k, k ∉ appliedKeys columns -> assoc k row' = assoc k row.
Proof.
  intros Hissue. induction columns as [|column columns IH]; intros row.
  { exists row. split; [reflexivity|]. split; [apply sameKeys_refl|]. now split. }
  destruct (applyColumn_ok issue row column Hissue)
    as (row1 & Hone & Hkeys1 & Henum1 & Hkeep1).
  destruct (IH row1) as (row' & Hrest & Hkeys & Henum & Hkeep).
  exists row'. cbn [applyColumns]. rewrite Hone. cbn [bind]. split; [exact Hrest|].
  split; [|split; [auto|]].
  - apply (sameKeys_trans _ _ _ Hkeys).
    unfold appliedKeys in *. cbn [omap list_omap].
    destruct (appliedKey column) as [name|]; cbn [fold_left]; now apply sameKeys_fold.
  - unfold appliedKeys in *. cbn [omap list_omap]. destruct (appliedKey column) as [name|].
    + intros k Hk. apply not_elem_of_cons in Hk as [Hne Hk].
      rewrite (Hkeep k Hk). apply Hkeep1. congruence.
    + intros k Hk. rewrite (Hkeep k Hk). now apply Hkeep1.
Qed.

Lemma formatIssue_ok (columns : list (option Column)) (issue : JsVal) :
  sound issue ->
  exists row, formatIssue this columns issue = Ok row /\ rowOf this columns issue row.
Proof.
  intros [Hn Hissue]. unfold formatIssue. rewrite getProp_present by assumption.
  cbn [bind].
  destruct (ToString_tame (get issue "key") (get_tame _ _ Hissue)) as (keyText & Hkey).
  rewrite Hkey. cbn [bind].
  match goal with |- context [applyColumns this issue ?row0 columns] =>
    destruct (applyColumns_ok issue columns Hissue row0)
      as (row & Hrun & Hkeys & Henum & Hkeep) end.
  exists row. split; [exact Hrun|]. split; [exact Hkeys|].
  split; [now apply Henum|]. split.
  - intros Hk. now rewrite (Hkeep "key" Hk).
  - intros Hk. exists keyText. split; [exact Hkey|]. now rewrite (Hkeep "url" Hk).
Qed.

Lemma mapIssues_ok (columns : list (option Column)) (issues : list JsVal) :
  Forall sound issues ->
  exists rows, mapIssues this columns issues = Ok rows /\ Forall2 (rowOf this columns) issues rows.
Proof.
  induction 1 as [|issue issues Hissue _ IH]; [exists []; split; [reflexivity|constructor]|].
  destruct (formatIssue_ok columns issue Hissue) as (row & Hrow & Hof).
  destruct IH as (rows & Hrows & Hall).
  exists (row :: rows). cbn [mapIssues]. rewrite Hrow. cbn [bind]. rewrite Hrows.
  split; [reflexivity | now constructor].
Qed.


End Rows.



(** C10.  Called with an [issues] argument that is not an array,
    [formatIssues] returns the empty array and does not throw. *)
Theorem formatIssues_not_array (this : JiraClient) (issues : JsVal) (useAllColumns : bool) :
  isArray issues = false ->
  formatIssues this issues useAllColumns = Ok [].
Proof. destruct issues; simpl; intros H; try reflexivity; discriminate. Qed.

Lemma formatIssues_not_array_witness :
  isArray JNull = false /\ formatIssues Sample.client JNull false = Ok [].
Proof.
  split; [reflexivity|].
  apply (formatIssues_not_array Sample.client JNull false). reflexivity.
Defined.

(** ** The HTTP facade *)

(** C9.  A GET of [/api/refresh-columns] or of [/api/fetch-all-data] whose
    [x-jira-token] header is absent (or empty) is answered with status 401
    and the body [{success: false, error: "No authentication token
    provided. ..."}]; the client is not called and no request is sent. *)
Theorem handlers_require_token (env : Server.Env) (jiraClient : Server.JiraApi)
    (req : Server.ExpressRequest) (log : list Request) :
  present (Server.headers req !! "x-jira-token") = false ->
  let refusal :=
    Server.mkReply 401 (JObj [ ("success", JBool false); ("error", JStr Server.noToken) ]) in
  Server.refreshColumnsHandler env jiraClient req log = (Ok refusal, log) /\
  Server.fetchAllDataHandler env jiraClient req log = (Ok refusal, log) /\
  Str.startsWith Server.noToken "No authentication token provided" = true.
Proof.
  intros H refusal.
  unfold Server.refreshColumnsHandler, Server.fetchAllDataHandler, catch.
  rewrite H. simpl. repeat split; reflexivity.
Qed.

Lemma handlers_require_token_witness :
  present (Server.headers (Server.mkReq ∅ ∅) !! "x-jira-token") = false /\
  Server.refreshColumnsHandler Sample.env Sample.api (Server.mkReq ∅ ∅) []
    = (Ok (Server.mkReply 401
             (JObj [ ("success", JBool false); ("error", JStr Server.noToken) ])), []).
Proof.
  split; [reflexivity|].
  exact (proj1 (handlers_require_token Sample.env Sample.api (Server.mkReq ∅ ∅) [] eq_refl)).
Defined.

(** ** Strings *)
Lemma append_cons (a : ascii) (s t : string) : String a s +:+ t = String a (s +:+ t).
Proof. reflexivity. Qed.

Lemma append_nil_l (s : string) : "" +:+ s = s.
Proof. reflexivity. Qed.

Lemma append_nil_r (s : string) : s +:+ "" = s.
Proof. induction s as [|a s IH]; [reflexivity | now rewrite append_cons, IH]. Qed.

Lemma append_assoc (a b c : string) : (a +:+ b) +:+ c = a +:+ (b +:+ c).
Proof. induction a as [|x a IH]; [reflexivity | now rewrite !append_cons, IH]. Qed.

Lemma length_append (a b : string) :
  String.length (a +:+ b) = String.length a + String.length b.
Proof. induction a as [|x a IH]; [reflexivity | rewrite append_cons; cbn; now rewrite IH]. Qed.

Lemma take_append (a b : string) : Str.take (String.length a) (a +:+ b) = a.
Proof.
  unfold Str.take. induction a as [|x a IH].
  - rewrite append_nil_l. now destruct b.
  - rewrite append_cons. cbn. now rewrite IH.
Qed.

(** ** The matcher

    The matcher commutes with a map of its answers: what it finds does not
    depend on what the continuation returns, only on where it fails. *)
Lemma greedyStar_map {A B : Type} (f : A -> B) (p : ascii -> bool)
    (k : string -> option A) (k' : string -> option B) :
  (forall s, k' s = option_map f (k s)) ->
  forall s, greedyStar p k' s = option_map f (greedyStar p k s).
Proof.
  intros Hk. induction s as [|a s IH]; cbn [greedyStar]; [apply Hk|].
  destruct (p a); [|apply Hk].
  rewrite IH. destruct (greedyStar p k s); [reflexivity | apply Hk].
Qed.

Lemma lazyStar_map {A B : Type} (f : A -> B) (p : ascii -> bool)
    (k : string -> option A) (k' : string -> option B) :
  (forall s, k' s = option_map f (k s)) ->
  forall s, lazyStar p k' s = option_map f (lazyStar p k s).
Proof.
  intros Hk. induction s as [|a s IH]; cbn [lazyStar]; rewrite Hk.
  - now destruct (k "").
  - destruct (k (String a s)); [reflexivity|]. cbn [option_map].
    destruct (p a); [apply IH | reflexivity].
Qed.

Lemma run_map (r : regex) :
  forall (A B : Type) (f : A -> B) (s : string) (c : captures)
         (k : string -> captures -> option A) (k' : string -> captures -> option B),
    (forall s c, k' s c = option_map f (k s c)) ->
    run r B s c k' = option_map f (run r A s c k).
Proof.
  induction r as [|p|r1 IH1 r2 IH2|r1 IH1 r2 IH2|p|p|n r1 IH1|r1 IH1|];
    intros A B f s c k k' Hk; cbn [run].
  - apply Hk.
  - destruct s as [|a s]; [reflexivity|]. destruct (p a); [apply Hk | reflexivity].
  - apply IH1. intros s' c'. now apply IH2.
  - rewrite (IH1 A B f s c k k' Hk). destruct (run r1 A s c k); [reflexivity|].
    now apply IH2.
  - apply greedyStar_map. intros s'. apply Hk.
  - apply lazyStar_map. intros s'. apply Hk.
  - apply IH1. intros s' c'. apply Hk.
  - destruct (run r1 unit s c _); [apply Hk | reflexivity].
  - destruct s; [apply Hk | reflexivity].
Qed.

(** What follows a match of [r1 · r2] when [r2] always matches. *)
Lemma matchAt_seq_total (r1 r2 : regex) (g : string -> captures -> string * captures) :
  (forall s c, run r2 _ s c (fun rest c' => Some (rest, c')) = Some (g s c)) ->
  forall s,
    matchAt (Seq r1 r2) s =
    match matchAt r1 s with
    | Some (rest, c) => Some (g rest c)
    | None => None
    end.
Proof.
  intros Htotal s. unfold matchAt. cbn [run].
  rewrite (run_map r1 _ _ (fun '(rest, c) => g rest c) s []
             (fun rest c => Some (rest, c))).
  - now destruct (run r1 _ s [] _) as [[rest c]|].
  - intros s' c'. now rewrite Htotal.
Qed.

Lemma ahead_boundary (R : Type) (s : string) (c : captures)
    (k : string -> captures -> option R) :
  run (Ahead (Alt (Seq (lit_ci "<h") (Chr (oneOf "123"))) Eoi)) R s c k =
  if atBoundary s then k s c else None.
Proof.
  cbn [run lit_ci]. destruct s as [|a [|b [|d s]]]; cbn [atBoundary].
  - reflexivity.
  - now destruct (is_ci "<" a).
  - destruct (is_ci "<" a); [|reflexivity]. now destruct (is_ci "h" b).
  - destruct (is_ci "<" a); [|reflexivity]. destruct (is_ci "h" b); [|reflexivity].
    cbn [andb]. now destruct (oneOf "123" d).
Qed.

Lemma section_split (s : string) : sectionOf s +:+ afterSection s = s.
Proof.
  induction s as [|a s IH]; [reflexivity|].
  cbn [sectionOf afterSection]. destruct (atBoundary (String a s)); [reflexivity|].
  now rewrite append_cons, IH.
Qed.

Lemma consumed_section (pre s : string) :
  consumed (pre +:+ s) (afterSection s) = pre +:+ sectionOf s.
Proof.
  assert (H : pre +:+ s = (pre +:+ sectionOf s) +:+ afterSection s)
    by now rewrite append_assoc, section_split.
  unfold consumed. generalize dependent (afterSection s). intros aft ->.
  rewrite length_append.
  replace (String.length (pre +:+ sectionOf s) + String.length aft - String.length aft)
    with (String.length (pre +:+ sectionOf s)) by lia.
  apply take_append.
Qed.

Lemma lazy_section (c : captures) (s : string) :
  forall pre,
    lazyStar any
      (fun s' => if atBoundary s' then Some (s', (1, consumed (pre +:+ s) s') :: c) else None) s
    = Some (afterSection s, (1, pre +:+ sectionOf s) :: c).
Proof.
  induction s as [|a s IH]; intros pre.
  - cbn [lazyStar atBoundary]. now rewrite <- (consumed_section pre "").
  - assert (Hc := consumed_section pre (String a s)).
    cbn [afterSection sectionOf] in *. cbn [lazyStar].
    destruct (atBoundary (String a s)) eqn:Hb.
    + now rewrite Hc.
    + cbn [any].
      specialize (IH (pre +:+ String a "")).
      rewrite !append_assoc, append_cons, append_nil_l in IH. exact IH.
Qed.

Lemma lazyStar_ext {R : Type} (p : ascii -> bool) (k k' : string -> option R) :
  (forall s, k s = k' s) -> forall s, lazyStar p k s = lazyStar p k' s.
Proof.
  intros Hk. induction s as [|a s IH]; cbn [lazyStar]; rewrite Hk; [reflexivity|].
  destruct (k' (String a s)); [reflexivity|]. now rewrite IH.
Qed.

Lemma sectionRegex_total (s : string) (c : captures) :
  run Confluence.sectionRegex _ s c (fun rest c' => Some (rest, c'))
  = Some (afterSection s, (1, sectionOf s) :: c).
Proof.
  unfold Confluence.sectionRegex.
  change (lazyStar any
            (fun s' => run (Ahead (Alt (Seq (lit_ci "<h") (Chr (oneOf "123"))) Eoi)) _ s'
                         ((1, consumed s s') :: c) (fun rest c' => Some (rest, c'))) s
          = Some (afterSection s, (1, sectionOf s) :: c)).
  erewrite lazyStar_ext; [apply (lazy_section c s "")|].
  intros s'. now rewrite ahead_boundary.
Qed.

Lemma matchAt_summary (s : string) :
  matchAt Confluence.summaryRegex s =
  match matchAt Confluence.headingRegex s with
  | Some (rest, c) => Some (afterSection rest, (1, sectionOf rest) :: c)
  | None => None
  end.
Proof.
  unfold Confluence.summaryRegex.
  apply (matchAt_seq_total _ _ (fun rest c => (afterSection rest, (1, sectionOf rest) :: c))).
  apply sectionRegex_total.
Qed.

(** A heading opens with [<h2] or [<h3]. *)
Lemma heading_opens (s : string) :
  opensHeading s = false -> matchAt Confluence.headingRegex s = None.
Proof.
  unfold matchAt, Confluence.headingRegex. cbn [run lit_ci].
  destruct s as [|a [|b [|d s]]]; cbn [opensHeading]; try reflexivity.
  - now destruct (is_ci "<" a).
  - destruct (is_ci "<" a); [|reflexivity]. now destruct (is_ci "h" b).
  - destruct (is_ci "<" a); [|reflexivity]. destruct (is_ci "h" b); [|reflexivity].
    cbn [andb]. now intros ->.
Qed.

Lemma opensHeading_before (a : ascii) (pre rest : string) :
  opensHeading (String a pre) = false ->
  opensHeading (String a (pre +:+ "<h2>Summary</h2>" +:+ rest)) = false.
Proof.
  destruct pre as [|b [|d pre]]; intros H.
  - rewrite append_nil_l, !append_cons. cbn [opensHeading].
    destruct (is_ci "<" a); reflexivity.
  - rewrite append_cons, append_nil_l, !append_cons. cbn [opensHeading].
    destruct (is_ci "<" a); [|reflexivity]. destruct (is_ci "h" b); reflexivity.
  - exact H.
Qed.

Lemma cleanHtml_group (n : nat) (m : captures) :
  Confluence.cleanHtml (Confluence.group n m) = Ok (textOf (capture n m)).
Proof.
  unfold Confluence.group, textOf. destruct (capture n m) as [s|]; [|reflexivity].
  unfold Confluence.cleanHtml. cbn [truthy]. now destruct s.
Qed.

Lemma extractSummary_chain (html : string) :
  html <> "" ->
  Confluence.extractSummary (JStr html) =
  Ok (JStr
        match exec Confluence.summaryRegex html with
        | Some m => textOf (capture 1 m)
        | None =>
            match exec Confluence.summaryStrongRegex html with
            | Some m => textOf (capture 1 m)
            | None =>
                match exec Confluence.firstParaRegex html with
                | Some m => textOf (capture 1 m)
                | None => Str.take 500 (Confluence.cleanText html)
                end
            end
        end).
Proof.
  intros Hne. unfold Confluence.extractSummary. cbn [truthy].
  destruct (String.eqb html "") eqn:E; [apply String.eqb_eq in E; contradiction|].
  cbn [negb Confluence.strMatch bind].
  destruct (exec Confluence.summaryRegex html) as [m|].
  { rewrite cleanHtml_group. reflexivity. }
  destruct (exec Confluence.summaryStrongRegex html) as [m|].
  { rewrite cleanHtml_group. reflexivity. }
  destruct (exec Confluence.firstParaRegex html) as [m|].
  { rewrite cleanHtml_group. reflexivity. }
  unfold Confluence.cleanHtml. cbn [truthy]. rewrite E. reflexivity.
Qed.

(** *** Patterns and scanners

    Each pattern of [extractSummary] finds at a place of the page what the
    scanner of the same name finds there. *)
Lemma run_lit_ci (l : string) (R : Type) :
  forall (s : string) (c : captures) (k : string -> captures -> option R),
    run (lit_ci l) R s c k = match afterCi l s with Some rest => k rest c | None => None end.
Proof.
  induction l as [|a l IH]; intros s c k.
  - now destruct s.
  - destruct l as [|b l'].
    + cbn [lit_ci run afterCi]. destruct s as [|x s']; [reflexivity|].
      destruct (is_ci a x); [now destruct s' | reflexivity].
    + change (lit_ci (String a (String b l'))) with (Seq (Chr (is_ci a)) (lit_ci (String b l'))).
      cbn [run]. destruct s as [|x s']; [reflexivity|].
      cbn [afterCi]. destruct (is_ci a x); [apply IH | reflexivity].
Qed.

(** [[^>]*] before something that cannot start with a code unit of the
    class: the star stops at the first code unit outside the class. *)
Lemma greedyStar_until {R : Type} (p : ascii -> bool) (k : string -> option R) :
  (forall a s, p a = true -> k (String a s) = None) ->
  forall s, greedyStar p k s = k (dropWhile p s).
Proof.
  intros Hk. induction s as [|a s IH]; [reflexivity|].
  cbn [greedyStar dropWhile]. destruct (p a) eqn:Ha; [|reflexivity].
  rewrite IH. destruct (k (dropWhile p s)); [reflexivity|]. now apply Hk.
Qed.

Lemma is_ci_gt (a : ascii) : is_ci ">" a = negb (except ">" a).
Proof. destruct a as [[|] [|] [|] [|] [|] [|] [|] [|]]; reflexivity. Qed.

Lemma afterCi_tag (l : string) (a : ascii) (s : string) :
  except ">" a = true -> afterCi (String ">" l) (String a s) = None.
Proof. intros H. cbn [afterCi]. now rewrite is_ci_gt, H. Qed.

Lemma consumed_prefix (pre s : string) : consumed (pre +:+ s) s = pre.
Proof.
  unfold consumed. rewrite length_append.
  replace (String.length pre + String.length s - String.length s) with (String.length pre) by lia.
  apply take_append.
Qed.

Lemma lazy_upTo {R : Type} (marker : string) (c : captures)
    (k : string -> captures -> option R) (s : string) :
  (forall rest c', k rest c' <> None) ->
  forall pre,
    lazyStar any
      (fun s' => match afterCi marker s' with
                 | Some rest => k rest ((1, consumed (pre +:+ s) s') :: c)
                 | None => None
                 end) s
    = match upTo marker s with
      | Some (text, rest) => k rest ((1, pre +:+ text) :: c)
      | None => None
      end.
Proof.
  intros Hk. induction s as [|a s IH]; intros pre.
  - cbn [lazyStar upTo]. destruct (afterCi marker "") as [rest|] eqn:E; [|reflexivity].
    rewrite consumed_prefix, append_nil_r.
    destruct (k rest ((1, pre) :: c)) eqn:Ek; [reflexivity|]. now destruct (Hk _ _ Ek).
  - cbn [lazyStar upTo]. destruct (afterCi marker (String a s)) as [rest|] eqn:E.
    + rewrite consumed_prefix, append_nil_r.
      destruct (k rest ((1, pre) :: c)) eqn:Ek; [reflexivity|]. now destruct (Hk _ _ Ek).
    + cbn [any]. specialize (IH (pre +:+ String a "")).
      rewrite !append_assoc, append_cons, append_nil_l in IH. rewrite IH.
      destruct (upTo marker s) as [[text rest]|]; [|reflexivity].
      now rewrite append_assoc, append_cons, append_nil_l.
Qed.

(** The tail of the two paragraph patterns: [(.*?)<\/p>] *)
Lemma run_text (s : string) (c : captures) :
  run (Seq (Group 1 (Lazy any)) (lit_ci "</p>")) _ s c (fun rest c' => Some (rest, c'))
  = match upTo "</p>" s with
    | Some (text, rest) => Some (rest, (1, text) :: c)
    | None => None
    end.
Proof.
  cbn [run].
  transitivity
    (lazyStar any
       (fun s' => match afterCi "</p>" s' with
                  | Some rest => Some (rest, (1, consumed ("" +:+ s) s') :: c)
                  | None => None
                  end) s).
  { apply lazyStar_ext. intros s'. now rewrite run_lit_ci. }
  rewrite (lazy_upTo "</p>" c (fun rest c' => Some (rest, c'))) by discriminate.
  destruct (upTo "</p>" s) as [[text rest]|]; reflexivity.
Qed.

(** [:?] before something that cannot start with a colon *)
Lemma run_optColon {R : Type} (s : string) (c : captures)
    (k : string -> captures -> option R) :
  (forall rest c', k (String ":" rest) c' = None) ->
  run (opt (Chr (only ":"))) R s c k = k (dropColon s) c.
Proof.
  intros Hk. unfold opt. cbn [run]. destruct s as [|a s]; [reflexivity|].
  cbn [dropColon]. unfold only. destruct (Ascii.eqb a ":") eqn:E.
  - destruct (k s c); [reflexivity|]. apply Ascii.eqb_eq in E as ->. apply Hk.
  - reflexivity.
Qed.

Lemma matchAt_heading (s : string) :
  matchAt Confluence.headingRegex s = option_map (fun rest => (rest, [])) (summaryHeadingAt s).
Proof.
  unfold matchAt, Confluence.headingRegex, summaryHeadingAt. cbn [run].
  rewrite run_lit_ci. destruct (afterCi "<h" s) as [[|level attributes]|]; try reflexivity.
  destruct (oneOf "23" level); [|reflexivity].
  rewrite greedyStar_until.
  2:{ intros a t Ha. rewrite run_lit_ci. now rewrite afterCi_tag. }
  fold (tagEnd attributes). rewrite run_lit_ci.
  destruct (afterCi ">Summary</h" (tagEnd attributes)) as [[|closing [|last rest]]|];
    try reflexivity.
  - now destruct (oneOf "23" closing).
  - destruct (oneOf "23" closing); [|reflexivity]. unfold only. now destruct (Ascii.eqb last ">").
Qed.

Lemma matchAt_summaryHeading (s : string) :
  matchAt Confluence.summaryRegex s
  = option_map (fun rest => (afterSection rest, [(1, sectionOf rest)])) (summaryHeadingAt s).
Proof.
  rewrite matchAt_summary, matchAt_heading. now destruct (summaryHeadingAt s).
Qed.

Lemma matchAt_bold (s : string) :
  matchAt Confluence.summaryStrongRegex s
  = option_map (fun found => (snd found, [(1, fst found)])) (boldSummaryAt s).
Proof.
  unfold matchAt, Confluence.summaryStrongRegex, boldSummaryAt.
  change (run (lit_ci "<p" · Star (except ">") · lit_ci "><strong" · Star (except ">")
               · lit_ci ">Summary" · opt (Chr (only ":")) · lit_ci "</strong>"
               · Group 1 (Lazy any) · lit_ci "</p>")%re (string * captures) s []
            (fun rest c => Some (rest, c)))
    with (run (lit_ci "<p") (string * captures) s []
            (fun s1 c1 =>
               greedyStar (except ">")
                 (fun s2 =>
                    run (lit_ci "><strong") (string * captures) s2 c1
                      (fun s3 c3 =>
                         greedyStar (except ">")
                           (fun s4 =>
                              run (lit_ci ">Summary") (string * captures) s4 c3
                                (fun s5 c5 =>
                                   run (opt (Chr (only ":"))) (string * captures) s5 c5
                                     (fun s6 c6 =>
                                        run (lit_ci "</strong>") (string * captures) s6 c6
                                          (fun s7 c7 =>
                                             run (Seq (Group 1 (Lazy any)) (lit_ci "</p>"))
                                               (string * captures) s7 c7
                                               (fun rest c => Some (rest, c)))))) s3)) s1)).
  rewrite run_lit_ci. destruct (afterCi "<p" s) as [attributes|]; [|reflexivity].
  rewrite greedyStar_until.
  2:{ intros a t Ha. rewrite run_lit_ci. now rewrite afterCi_tag. }
  fold (tagEnd attributes). rewrite run_lit_ci.
  destruct (afterCi "><strong" (tagEnd attributes)) as [attributes'|]; [|reflexivity].
  rewrite greedyStar_until.
  2:{ intros a t Ha. rewrite run_lit_ci. now rewrite afterCi_tag. }
  fold (tagEnd attributes'). rewrite run_lit_ci.
  destruct (afterCi ">Summary" (tagEnd attributes')) as [label|]; [|reflexivity].
  rewrite run_optColon.
  2:{ intros rest c'. now rewrite run_lit_ci. }
  rewrite run_lit_ci.
  destruct (afterCi "</strong>" (dropColon label)) as [text|]; [|reflexivity].
  rewrite run_text. now destruct (upTo "</p>" text) as [[found rest]|].
Qed.

Lemma matchAt_paragraph (s : string) :
  matchAt Confluence.firstParaRegex s
  = option_map (fun found => (snd found, [(1, fst found)])) (paragraphAt s).
Proof.
  unfold matchAt, Confluence.firstParaRegex, paragraphAt.
  change (run (lit_ci "<p" · Star (except ">") · Chr (only ">") · Group 1 (Lazy any)
               · lit_ci "</p>")%re (string * captures) s []
            (fun rest c => Some (rest, c)))
    with (run (lit_ci "<p") (string * captures) s []
            (fun s1 c1 =>
               greedyStar (except ">")
                 (fun s2 =>
                    run (Chr (only ">")) (string * captures) s2 c1
                      (fun s3 c3 =>
                         run (Seq (Group 1 (Lazy any)) (lit_ci "</p>")) (string * captures) s3 c3
                           (fun rest c => Some (rest, c)))) s1)).
  rewrite run_lit_ci. destruct (afterCi "<p" s) as [attributes|]; [|reflexivity].
  rewrite greedyStar_until.
  2:{ intros a t Ha. cbn [run]. unfold only. unfold except in Ha.
      now destruct (Ascii.eqb a ">"). }
  fold (tagEnd attributes). cbn [run afterCi].
  destruct (tagEnd attributes) as [|a text]; [reflexivity|].
  rewrite is_ci_gt. unfold only, except. destruct (Ascii.eqb a ">"); [|reflexivity].
  cbn [negb]. change (lazyStar any _ text) with
    (run (Seq (Group 1 (Lazy any)) (lit_ci "</p>")) _ text []
       (fun rest c' => Some (rest, c'))).
  rewrite run_text. now destruct (upTo "</p>" text) as [[found rest]|].
Qed.

(** The leftmost match of a pattern is what its scanner finds leftmost. *)
Lemma exec_leftmost {A : Type} (r : regex) (scan : string -> option A)
    (f : A -> string * captures) :
  (forall s, matchAt r s = option_map f (scan s)) ->
  forall s, exec r s = option_map (fun found => snd (f found)) (leftmost scan s).
Proof.
  intros Hr. induction s as [|a s IH]; cbn [exec leftmost]; rewrite Hr.
  - now destruct (scan "") as [found|]; cbn [option_map]; [destruct (f found)|].
  - destruct (scan (String a s)) as [found|]; cbn [option_map]; [now destruct (f found)|].
    exact IH.
Qed.

Lemma extractSummary_summaryOf (html : string) :
  html <> "" -> Confluence.extractSummary (JStr html) = Ok (JStr (summaryOf html)).
Proof.
  intros Hne. rewrite (extractSummary_chain html Hne). unfold summaryOf.
  rewrite (exec_leftmost _ _ _ matchAt_summaryHeading).
  rewrite (exec_leftmost _ _ _ matchAt_bold).
  rewrite (exec_leftmost _ _ _ matchAt_paragraph).
  destruct (leftmost summaryHeadingAt html) as [rest|]; [reflexivity|].
  destruct (leftmost boldSummaryAt html) as [[text rest]|]; [reflexivity|].
  destruct (leftmost paragraphAt html) as [[text rest]|]; reflexivity.
Qed.

Lemma summaryHeadingAt_opens (s : string) :
  opensHeading s = false -> summaryHeadingAt s = None.
Proof.
  intros H. generalize (heading_opens s H). rewrite matchAt_heading.
  now destruct (summaryHeadingAt s).
Qed.

(** A page with an [<h2>Summary</h2>] heading has a leftmost Summary
    heading: that one, when no level-2 or level-3 heading opens before
    it. *)
Lemma leftmost_heading (pre rest : string) :
  exists rest',
    leftmost summaryHeadingAt (pre +:+ "<h2>Summary</h2>" +:+ rest) = Some rest' /\
    (noHeading pre = true -> rest' = rest).
Proof.
  induction pre as [|a pre IH].
  - exists rest. rewrite append_nil_l. split; [|reflexivity].
    destruct rest; reflexivity.
  - rewrite append_cons. cbn [leftmost].
    destruct (summaryHeadingAt (String a (pre +:+ "<h2>Summary</h2>" +:+ rest)))
      as [found|] eqn:E.
    + exists found. split; [reflexivity|]. intros Hpre.
      cbn [noHeading] in Hpre. apply andb_true_iff in Hpre as [Hopen _].
      apply negb_true_iff in Hopen.
      rewrite (summaryHeadingAt_opens _ (opensHeading_before a pre rest Hopen)) in E.
      discriminate.
    + destruct IH as (rest' & Hleft & Hrest). exists rest'. split; [exact Hleft|].
      intros Hpre. cbn [noHeading] in Hpre. apply andb_true_iff in Hpre as [_ Hpre].
      now apply Hrest.
Qed.

(** C4, as stated, fails.  The section under the Summary heading does not
    stop at the next heading: it runs on through a heading of level 4, up to
    the next [<h1], [<h2] or [<h3] or the end of the page.  The heading is
    not literally titled Summary: the title is matched with letter case
    aside, the opening tag may carry attributes and the closing tag may be
    of the other level.  The bold label need not end with a colon, and the
    first paragraph is whatever follows the first [<p] up to the next
    [</p>], a [<pre>] block included. *)
Lemma extractSummary_heading_counterexample :
  Confluence.extractSummary
    (JStr "<h2>Summary</h2>One<h4>More</h4>Two<h2>Next</h2>Three")
  = Ok (JStr "One More Two") /\
  Confluence.extractSummary
    (JStr "<H3 class=x>SUMMARY</h2>Upper<p><strong>Summary:</strong>Bold</p>")
  = Ok (JStr "Upper Summary: Bold") /\
  Confluence.extractSummary (JStr "<p><strong>summary</strong>No colon</p>")
  = Ok (JStr "No colon") /\
  Confluence.extractSummary (JStr "<pre>code</pre><p>First</p>")
  = Ok (JStr "code First").
Proof. repeat split; vm_compute; reflexivity. Qed.

(** C4, amended.  [extractSummary] gives [null] for an empty page and, for
    any other page, the first of four heuristics that finds something, in
    this order.  (a) The section after the leftmost heading titled Summary:
    [<h2] or [<h3], attributes if any, [>Summary</h2>] or [>Summary</h3>],
    letter case aside; the section runs up to the next opening of a heading
    of level 1, 2 or 3, or to the end of the page.  (b) The text, up to the
    next [</p>], of the leftmost paragraph that opens with a bold Summary
    label: [<p ..><strong ..>Summary], a colon or none, [</strong>].
    (c) The text, up to the next [</p>], after the leftmost [<p ..>].
    (d) The first 500 code units of the cleaned page.  In (a) to (c) the
    text found is cleaned.  In particular a page with an [<h2>Summary</h2>]
    heading yields the cleaned section of its leftmost Summary heading,
    whatever comes later, a bold Summary paragraph included; that heading
    is the [<h2>Summary</h2>] one when no level-2 or level-3 heading opens
    before it. *)
Theorem extractSummary_priority :
  Confluence.extractSummary (JStr "") = Ok JNull /\
  (forall html, html <> "" ->
     Confluence.extractSummary (JStr html) = Ok (JStr (summaryOf html))) /\
  (forall pre rest,
     exists rest',
       leftmost summaryHeadingAt (pre +:+ "<h2>Summary</h2>" +:+ rest) = Some rest' /\
       Confluence.extractSummary (JStr (pre +:+ "<h2>Summary</h2>" +:+ rest)) =
       Ok (JStr (Confluence.cleanText (sectionOf rest'))) /\
       (noHeading pre = true -> rest' = rest)) /\
  Confluence.extractSummary (JStr Sample.page) = Ok (JStr "From the heading.").
Proof.
  split; [reflexivity|]. split; [exact extractSummary_summaryOf|]. split.
  - intros pre rest. destruct (leftmost_heading pre rest) as (rest' & Hleft & Hrest).
    exists rest'. split; [exact Hleft|]. split; [|exact Hrest].
    assert (Hne : pre +:+ "<h2>Summary</h2>" +:+ rest <> "").
    { destruct pre; discriminate. }
    rewrite (extractSummary_summaryOf _ Hne). unfold summaryOf. now rewrite Hleft.
  - vm_compute. reflexivity.
Qed.

Lemma extractSummary_priority_witness :
  noHeading "<h1>Design</h1>" = true /\
  Confluence.extractSummary
    (JStr ("<h1>Design</h1>" +:+ "<h2>Summary</h2>"
           +:+ "<p>Short.</p><h2>More</h2><p><strong>Summary:</strong> Long.</p>"))
  = Ok (JStr "Short.").
Proof.
  split; [reflexivity|].
  destruct (proj1 (proj2 (proj2 extractSummary_priority)) "<h1>Design</h1>"
              "<p>Short.</p><h2>More</h2><p><strong>Summary:</strong> Long.</p>")
    as (rest' & _ & Hrun & Hrest).
  rewrite Hrun, (Hrest eq_refl). vm_compute. reflexivity.
Defined.

(** ** The wiki summary fetcher *)

Lemma mbind_Ok {A B : Type} (m : M A) (f : A -> M B) (log log' : list Request) (b : B) :
  mbind m f log = (Ok b, log') ->
  exists a mid, m log = (Ok a, mid) /\ f a mid = (Ok b, log').
Proof.
  unfold mbind. destruct (m log) as [[a|e] mid]; [eauto | discriminate].
Qed.

(** [fetchPageContent] converts every failure into a result object. *)
Lemma fetchPageContent_shape (net : World) (this : Confluence.ConfluenceClient)
    (confluenceUrl : JsVal) (userToken : option string) (log : list Request) :
  exists page log',
    Confluence.fetchPageContent net this confluenceUrl userToken log = (Ok page, log') /\
    ((exists title body version,
        page = JObj [ ("success", JBool true); ("title", title); ("body", body);
                      ("version", version) ]) \/
     (exists msg,
        page = JObj [ ("success", JBool false); ("error", JStr msg); ("title", JNull);
                      ("body", JNull) ])).
Proof.
  unfold Confluence.fetchPageContent, catch.
  match goal with |- context [match ?body log with _ => _ end] =>
    destruct (body log) as [[page|error] log'] eqn:Hbody end.
  - exists page, log'. split; [reflexivity|].
    destruct (negb (truthy (Confluence.extractUrl confluenceUrl))); [discriminate|].
    apply mbind_Ok in Hbody as (pageId & l1 & _ & Hbody).
    destruct (negb (truthy pageId)); [discriminate|].
    destruct (negb (truthy _)); [discriminate|].
    apply mbind_Ok in Hbody as (pageIdText & l2 & _ & Hbody).
    apply mbind_Ok in Hbody as (tokenText & l3 & _ & Hbody).
    apply mbind_Ok in Hbody as (response & l4 & _ & Hbody).
    apply mbind_Ok in Hbody as (title & l5 & _ & Hbody).
    apply mbind_Ok in Hbody as (bodyField & l6 & _ & Hbody).
    apply mbind_Ok in Hbody as (versionField & l7 & _ & Hbody).
    inversion Hbody. left. eauto.
  - eexists _, log'. split; [reflexivity|]. right. eauto.
Qed.

(** Every path through [getSummary] ends in a result object. *)
Lemma getSummary_returns (net : World) (this : Confluence.ConfluenceClient)
    (confluenceUrl : JsVal) (userToken : option string) (log : list Request) :
  exists result log',
    Confluence.getSummary net this confluenceUrl userToken log = (Ok result, log') /\
    isSummaryResult result.
Proof.
  unfold Confluence.getSummary, catch.
  match goal with |- context [match ?body log with _ => _ end] =>
    destruct (body log) as [[result|error] log'] eqn:Hbody end.
  - exists result, log'. split; [reflexivity|].
    destruct (truthy (Confluence.extractUrl confluenceUrl)) eqn:Hurl; cbn [negb] in Hbody.
    + apply mbind_Ok in Hbody as (page & l1 & Hpage & Hbody).
      destruct (fetchPageContent_shape net this (Confluence.extractUrl confluenceUrl)
                  userToken log) as (page' & l1' & Hpage' & Hshape).
      rewrite Hpage in Hpage'. injection Hpage' as <- <-.
      destruct Hshape as [(title & body & version & ->)|(msg & ->)].
      * cbn in Hbody. destruct (Confluence.extractSummary body); [|discriminate].
        inversion Hbody. now left.
      * cbn in Hbody. inversion Hbody. right. split; [reflexivity|].
        cbn. unfold or. cbn. destruct (String.eqb msg ""); eauto.
    + inversion Hbody. right. split; [reflexivity|].
      now exists "No valid Confluence URL provided".
  - eexists _, log'. split; [reflexivity|].
    right. split; [reflexivity|]. now exists (message error).
Qed.

(** What [fetchPageContent] returns: without a request a failure, and
    after its one request a success exactly when the page was fetched. *)
Lemma fetchPageContent_outcome (net : World) (this : Confluence.ConfluenceClient)
    (confluenceUrl : JsVal) (userToken : option string) (log : list Request) :
  exists page sent,
    Confluence.fetchPageContent net this confluenceUrl userToken log = (Ok page, log ++ sent) /\
    match sent with
    | [] =>
        exists msg,
          page = JObj [ ("success", JBool false); ("error", JStr msg); ("title", JNull);
                        ("body", JNull) ]
    | req :: rest =>
        rest = [] /\
        if pageFetched (net log req)
        then exists title body version,
               page = JObj [ ("success", JBool true); ("title", title); ("body", body);
                             ("version", version) ]
        else exists msg,
               page = JObj [ ("success", JBool false); ("error", JStr msg); ("title", JNull);
                             ("body", JNull) ]
    end.
Proof.
  unfold Confluence.fetchPageContent, catch.
  assert (Hnone : forall e : JsError, exists page sent,
            (let (r0, log') := (Throw e : Res JsVal, log) in
             match r0 with
             | Ok a => (Ok a, log')
             | Throw e =>
                 ret (Confluence.obj [ ("success", JBool false); ("error", JStr (message e));
                                       ("title", JNull); ("body", JNull) ]) log'
             end) = (Ok page, log ++ sent) /\
            match sent with
            | [] =>
                exists msg,
                  page = JObj [ ("success", JBool false); ("error", JStr msg);
                                ("title", JNull); ("body", JNull) ]
            | req :: rest =>
                rest = [] /\
                if pageFetched (net log req)
                then exists title body version,
                       page = JObj [ ("success", JBool true); ("title", title);
                                     ("body", body); ("version", version) ]
                else exists msg,
                       page = JObj [ ("success", JBool false); ("error", JStr msg);
                                     ("title", JNull); ("body", JNull) ]
            end).
  { intros e. eexists _, []. rewrite app_nil_r. split; [reflexivity | eauto]. }
  destruct (negb (truthy (Confluence.extractUrl confluenceUrl))); [apply Hnone|].
  unfold mbind at 1, lift at 1.
  destruct (Confluence.extractPageId _) as [pageId|e]; [|apply Hnone].
  destruct (negb (truthy pageId)); [apply Hnone|].
  destruct (negb (truthy _)); [apply Hnone|].
  unfold mbind at 1, lift at 1. destruct (ToString pageId) as [pageIdText|e]; [|apply Hnone].
  unfold mbind at 1, lift at 1. destruct (ToString _) as [tokenText|e]; [|apply Hnone].
  unfold mbind at 1, axios.
  match goal with |- context [net log ?r] => set (req := r) end.
  destruct (net log req) as [r|msg c] eqn:Hnet.
  2:{ eexists _, [req]. split; [reflexivity|]. split; [reflexivity|]. rewrite Hnet. cbn. eauto. }
  destruct (defaultValidate (status r)) eqn:Hvalid.
  2:{ eexists _, [req]. split; [reflexivity|]. split; [reflexivity|].
      rewrite Hnet. cbn. rewrite Hvalid. cbn. eauto. }
  unfold mbind, lift, ret, getProp. destruct (nullish (data r)) eqn:Hnull.
  - eexists _, [req]. split; [reflexivity|]. split; [reflexivity|].
    rewrite Hnet. cbn. rewrite Hvalid, Hnull. cbn. eauto.
  - eexists _, [req]. split; [reflexivity|]. split; [reflexivity|].
    rewrite Hnet. cbn. rewrite Hvalid, Hnull. cbn. eauto.
Qed.

Lemma extractSummary_returns (htmlContent : JsVal) :
  exists summary, Confluence.extractSummary htmlContent = Ok summary.
Proof.
  unfold Confluence.extractSummary. destruct (negb (truthy htmlContent)); [eauto|].
  match goal with |- context [tryCatch ?m _] => destruct m end; cbn; eauto.
Qed.

(** C5 fails as stated: the error text of the no-URL failure is
    ["No valid Confluence URL provided"], not ["No valid URL provided"]. *)
Lemma getSummary_error_text_counterexample :
  Confluence.getSummary Sample.offline Sample.wiki JNull None []
    = (Ok (failureResult "No valid Confluence URL provided"), []) /\
  Confluence.getSummary Sample.offline Sample.wiki JNull None []
    <> (Ok (failureResult "No valid URL provided"), []).
Proof. split; [reflexivity | discriminate]. Qed.

(** C5, amended.  [getSummary] never throws: for every input value, token
    and network it returns a result object and sends at most one request.
    Every failure is turned into the result [{success: false, summary: null,
    error}] with an error string: that is the result when no request was
    sent (no URL, no page id, no token), and when the request failed, was
    answered with a status outside 2xx, or was answered without a body.  The
    result is marked [success: true] only when the page was fetched.  When
    no URL can be extracted from the input value, the error is
    ["No valid Confluence URL provided"]. *)
Theorem getSummary_never_throws (net : World) (this : Confluence.ConfluenceClient)
    (confluenceUrl : JsVal) (userToken : option string) (log : list Request) :
  exists result sent,
    Confluence.getSummary net this confluenceUrl userToken log = (Ok result, log ++ sent) /\
    match sent with
    | [] => exists msg, result = failureResult msg
    | req :: rest =>
        rest = [] /\
        if pageFetched (net log req)
        then exists summary title,
               result = JObj [ ("success", JBool true); ("summary", summary);
                               ("title", title); ("error", JNull) ]
        else exists msg, result = failureResult msg
    end /\
    (truthy (Confluence.extractUrl confluenceUrl) = false ->
     result = failureResult "No valid Confluence URL provided" /\ sent = []).
Proof.
  unfold Confluence.getSummary, catch.
  destruct (truthy (Confluence.extractUrl confluenceUrl)) eqn:Hurl; cbn [negb].
  2:{ eexists _, []. rewrite app_nil_r. split; [reflexivity|]. split; [eauto | now split]. }
  destruct (fetchPageContent_outcome net this (Confluence.extractUrl confluenceUrl)
              userToken log) as (page & sent & Hfetch & Hpage).
  unfold mbind at 1. rewrite Hfetch.
  assert (Hfailed : forall msg,
            page = JObj [ ("success", JBool false); ("error", JStr msg); ("title", JNull);
                          ("body", JNull) ] ->
            exists result,
              match
                (success <- lift (getProp page "success") ;;
                 if negb (truthy success)
                 then
                   error <- lift (getProp page "error") ;;
                   ret (Confluence.obj [ ("success", JBool false); ("summary", JNull);
                                         ("error", or error (JStr "Failed to fetch page")) ])
                 else
                   pageBody <- lift (getProp page "body") ;;
                   summary <- lift (Confluence.extractSummary pageBody) ;;
                   title <- lift (getProp page "title") ;;
                   ret (Confluence.obj [ ("success", JBool true); ("summary", summary);
                                         ("title", title); ("error", JNull) ]))%net
                  (log ++ sent)
              with
              | (Ok a, log') => (Ok a, log')
              | (Throw e, log') =>
                  ret (Confluence.obj [ ("success", JBool false); ("summary", JNull);
                                        ("error", JStr (message e)) ]) log'
              end = (Ok result, log ++ sent) /\
              exists msg', result = failureResult msg').
  { intros msg ->. cbn. unfold or. cbn [truthy].
    destruct (String.eqb msg ""); eexists; (split; [reflexivity|]); unfold failureResult; eauto. }
  destruct sent as [|req rest].
  - destruct Hpage as (msg & Hmsg). destruct (Hfailed msg Hmsg) as (result & Hrun & Hres).
    exists result, []. split; [exact Hrun|]. split; [exact Hres | discriminate].
  - destruct Hpage as (-> & Hpage). destruct (pageFetched (net log req)) eqn:Hfetched.
    + destruct Hpage as (title & body & version & ->).
      destruct (extractSummary_returns body) as (summary & Hsummary).
      exists (JObj [ ("success", JBool true); ("summary", summary); ("title", title);
                     ("error", JNull) ]), [req].
      split; [cbn; rewrite Hsummary; reflexivity|]. split; [|discriminate].
      split; [reflexivity|]. rewrite Hfetched. eauto.
    + destruct Hpage as (msg & Hmsg). destruct (Hfailed msg Hmsg) as (result & Hrun & Hres).
      exists result, [req]. split; [exact Hrun|]. split; [|discriminate].
      split; [reflexivity|]. now rewrite Hfetched.
Qed.

Lemma getSummary_never_throws_witness :
  truthy (Confluence.extractUrl (JNum "7")) = false /\
  exists result sent,
    Confluence.getSummary Sample.offline Sample.wiki (JNum "7") None []
    = (Ok result, [] ++ sent) /\
    result = failureResult "No valid Confluence URL provided".
Proof.
  split; [reflexivity|].
  destruct (getSummary_never_throws Sample.offline Sample.wiki (JNum "7") None [])
    as (result & sent & Hrun & _ & Hnone).
  exists result, sent. split; [exact Hrun|]. exact (proj1 (Hnone eq_refl)).
Defined.


(** *** The batch *)

Lemma summariesOf_total (net : World) (this : Confluence.ConfluenceClient)
    (userToken : option string) (urls : list string) :
  forall log, exists summaries log',
    Confluence.summariesOf net this (map JStr urls) userToken log = (Ok summaries, log') /\
    Forall2 (fetched net this userToken) urls summaries.
Proof.
  induction urls as [|url urls IH]; intros log.
  - exists [], log. split; [reflexivity | constructor].
  - destruct (getSummary_returns net this (JStr url) userToken log)
      as (summary & mid & Hone & Hres).
    destruct (IH mid) as (summaries & log' & Hrest & Hall).
    exists (summary :: summaries), log'. split.
    + cbn [map Confluence.summariesOf]. unfold mbind. rewrite Hone, Hrest. reflexivity.
    + constructor; [|exact Hall]. split; [exact Hres | eauto].
Qed.

Lemma setResult_string (results : gmap string JsVal) (url : string) (value : JsVal) :
  Confluence.setResult results (JStr url) value =
  Ok (if String.eqb url "__proto__" then results else <[url := value]> results).
Proof. unfold Confluence.setResult. cbn. now destruct (String.eqb url "__proto__"). Qed.

(** What [forEach] leaves in [results]: a URL keeps the summary of its last
    occurrence. *)
Lemma collect_strings (urls : list string) :
  forall (summaries : list JsVal) (results : gmap string JsVal),
    length summaries = length urls ->
    exists final,
      Confluence.collect results (map JStr urls) summaries = Ok final /\
      (forall url, url ∉ urls -> final !! url = results !! url) /\
      (final !! "__proto__" = results !! "__proto__") /\
      (forall url, url ∈ urls -> url <> "__proto__" -> is_Some (final !! url)) /\
      (NoDup urls -> forall i url, urls !! i = Some url -> url <> "__proto__" ->
                     final !! url = summaries !! i).
Proof.
  induction urls as [|u urls IH]; intros summaries results Hlen.
  - exists results. repeat split; try reflexivity.
    + intros url Hin. inversion Hin.
    + intros _ i url Hi. discriminate.
  - destruct summaries as [|s summaries]; [discriminate|].
    injection Hlen as Hlen.
    cbn [map Confluence.collect]. rewrite setResult_string. cbn [bind].
    set (results' := if String.eqb u "__proto__" then results else <[u := s]> results).
    destruct (IH summaries results' Hlen) as (final & Hfinal & Hout & Hproto & Hin & Hidx).
    assert (Hother : forall url, url <> u -> results' !! url = results !! url).
    { intros url Hne. unfold results'. destruct (String.eqb u "__proto__"); [reflexivity|].
      now rewrite lookup_insert_ne. }
    assert (Hself : u <> "__proto__" -> results' !! u = Some s).
    { intros Hne. unfold results'. destruct (String.eqb u "__proto__") eqn:E.
      - apply String.eqb_eq in E. contradiction.
      - now rewrite lookup_insert_eq. }
    exists final. split; [exact Hfinal|]. repeat split.
    + intros url Hnot. apply not_elem_of_cons in Hnot as [Hne Hnot].
      rewrite (Hout url Hnot). now apply Hother.
    + rewrite Hproto. unfold results'.
      destruct (String.eqb u "__proto__") eqn:E; [reflexivity|].
      apply lookup_insert_ne. intros ->. discriminate.
    + intros url Hurl Hne. destruct (decide (url ∈ urls)) as [Hyes|Hno]; [now apply Hin|].
      apply elem_of_cons in Hurl as [->|Hurl]; [|contradiction].
      rewrite (Hout u Hno), Hself by assumption. eauto.
    + intros Hnodup i url Hi Hne. apply NoDup_cons in Hnodup as [Hfresh Hnodup].
      destruct i as [|i]; cbn in Hi.
      * injection Hi as ->. cbn. rewrite (Hout url Hfresh). now apply Hself.
      * cbn. now apply Hidx.
Qed.

(** C6.  For every list of URLs and every network, [getSummaries] returns a
    mapping and never aborts: each fetch yields a result object, a success
    or a failure of its own.  The keys of the mapping are the input URLs:
    every key is an input URL and every input URL is a key.  When the N URLs
    are pairwise distinct, each is mapped to the result of its own fetch, so
    a failing URL leaves exactly its own entry marked [success: false], and
    the mapping has N keys.  (The string [__proto__], which is no URL, never
    becomes a key.) *)
Theorem getSummaries_maps_every_url (net : World) (this : Confluence.ConfluenceClient)
    (urls : list string) (userToken : option string) (log : list Request) :
  exists summaries results log',
    Confluence.summariesOf net this (map JStr urls) userToken log = (Ok summaries, log') /\
    Confluence.getSummaries net this (map JStr urls) userToken log = (Ok results, log') /\
    Forall2 (fetched net this userToken) urls summaries /\
    (forall url, is_Some (results !! url) -> url ∈ urls) /\
    (forall url, url ∈ urls -> url <> "__proto__" -> is_Some (results !! url)) /\
    (NoDup urls ->
     (forall i url, urls !! i = Some url -> url <> "__proto__" ->
                    results !! url = summaries !! i) /\
     ("__proto__" ∉ urls -> size results = length urls)).
Proof.
  destruct (summariesOf_total net this userToken urls log)
    as (summaries & log' & Hsum & Hall).
  assert (Hlen : length summaries = length urls) by (symmetry; eapply Forall2_length; eauto).
  destruct (collect_strings urls summaries ∅ Hlen)
    as (results & Hcollect & Hout & Hproto & Hin & Hidx).
  exists summaries, results, log'. split; [exact Hsum|]. split.
  { unfold Confluence.getSummaries, mbind. rewrite Hsum. unfold lift. now rewrite Hcollect. }
  split; [exact Hall|].
  assert (Hkeys : forall url, is_Some (results !! url) -> url ∈ urls).
  { intros url Hsome. destruct (decide (url ∈ urls)) as [Hyes|Hno]; [exact Hyes|].
    rewrite (Hout url Hno), lookup_empty in Hsome. now destruct Hsome. }
  split; [exact Hkeys|]. split; [exact Hin|].
  intros Hnodup. split; [now apply Hidx|].
  intros Hnoproto.
  assert (Hdom : dom results = list_to_set urls).
  { apply set_eq. intros url. rewrite elem_of_dom, elem_of_list_to_set. split; [apply Hkeys|].
    intros Hurl. apply Hin; [exact Hurl|]. intros ->. contradiction. }
  rewrite <- size_dom, Hdom. now apply size_list_to_set.
Qed.

Lemma getSummaries_maps_every_url_witness :
  NoDup Sample.twoUrls /\ ("__proto__" ∉ Sample.twoUrls) /\
  exists results log',
    Confluence.getSummaries Sample.onePage Sample.wiki (map JStr Sample.twoUrls) None []
      = (Ok results, log') /\
    size results = 2.
Proof.
  assert (Hnodup : NoDup Sample.twoUrls)
    by (unfold Sample.twoUrls; refine (bool_decide_unpack _ _); vm_compute; exact I).
  assert (Hproto : "__proto__" ∉ Sample.twoUrls)
    by (unfold Sample.twoUrls; refine (bool_decide_unpack _ _); vm_compute; exact I).
  split; [exact Hnodup|]. split; [exact Hproto|].
  destruct (getSummaries_maps_every_url Sample.onePage Sample.wiki Sample.twoUrls None [])
    as (summaries & results & log' & _ & Hrun & _ & _ & _ & Hdistinct).
  exists results, log'. split; [exact Hrun|].
  exact (proj2 (Hdistinct Hnodup) Hproto).
Defined.

(** ** Errors raised by a conversion carry no response *)

Lemma plain_bind {A B : Type} (m : Res A) (f : A -> Res B) :
  Notions.plainRes m -> (forall a, Notions.plainRes (f a)) -> Notions.plainRes (bind m f).
Proof. destruct m as [a|e]; cbn; auto. Qed.

Lemma plain_joinWith (conv : JsVal -> Res string) (sep : string) (items : list JsVal) :
  Forall (fun x => Notions.plainRes (conv x)) items -> Notions.plainRes (joinWith conv sep items).
Proof.
  induction 1 as [|x items Hx _ IH]; [exact I|].
  assert (Hpiece : Notions.plainRes (piece conv x)) by (unfold piece; now destruct (nullish x)).
  cbn [joinWith]. destruct items as [|y items]; [exact Hpiece|].
  apply plain_bind; [exact Hpiece|]. intros a. now apply plain_bind.
Qed.

Lemma plain_ToString (v : JsVal) : Notions.plainRes (ToString v).
Proof.
  induction v as [| |b|r|s|items IH|props _|native] using JsVal_induction; try exact I.
  - now destruct b.
  - rewrite ToString_array. now apply plain_joinWith.
  - cbn [ToString]. now destruct (assoc "toString" props).
  - now destruct native.
Qed.

(** ** The request loop *)

Lemma orStr_idem (a b : option string) : orStr (orStr a b) b = orStr a b.
Proof. unfold orStr. destruct (present a) eqn:Ha; [now rewrite Ha|]. now destruct (present b). Qed.

Lemma isBearer_bearerRequest (this : JiraClient) (jql fields : JsVal) (cleanToken : string) :
  isBearer (bearerRequest this jql fields cleanToken) = true.
Proof.
  unfold isBearer, bearerRequest, post. cbn [reqHeaders].
  rewrite lookup_insert_eq. destruct cleanToken; reflexivity.
Qed.

Lemma anyStatus_200 (s : Z) : anyStatus s = false -> (s =? 200)%Z = false.
Proof. unfold anyStatus. intros H. apply Z.eqb_neq. intros ->. discriminate. Qed.

Lemma Refused_one (net : World) (log : list Request) (req : Request) :
  accepts req (net log req) = false -> Refused net log [req].
Proof. intros H. constructor; [exact H | constructor]. Qed.

Lemma Refused_app (net : World) (a b : list Request) :
  forall log, Refused net log a -> Refused net (log ++ a) b -> Refused net log (a ++ b).
Proof.
  induction a as [|req a IH]; intros log Ha Hb.
  - now rewrite app_nil_r in Hb.
  - inversion Ha as [|? ? ? Hreq Hrest]; subst. cbn. constructor; [exact Hreq|].
    apply IH; [exact Hrest|]. now rewrite <- app_assoc.
Qed.

Lemma bearer_attempt (net : World) (this : JiraClient) (jql fields : JsVal)
    (token : option string) (cleanToken : string) (log : list Request) :
  cleanTokenOf (orStr token (pat this)) = Ok cleanToken ->
  exists result,
    tryBearerTokenRequest net this jql fields token log
      = (result, log ++ [bearerRequest this jql fields cleanToken]) /\
    Stopped net log [bearerRequest this jql fields cleanToken] result.
Proof.
  intros Hclean.
  assert (Hb := isBearer_bearerRequest this jql fields cleanToken).
  unfold tryBearerTokenRequest, catch, mbind, lift. rewrite Hclean.
  unfold bearerRequest, post in *. unfold axios.
  set (req := mkRequest _ _ _ _ _) in *.
  assert (Hacc : forall o, accepts req o = bearerAccepts o).
  { intros o. unfold accepts. now rewrite Hb. }
  destruct (net log req) as [r|msg c] eqn:Hnet.
  2:{ eexists. split; [reflexivity|]. apply Refused_one. now rewrite Hacc, Hnet. }
  destruct (anyStatus (status r)) eqn:Hany.
  2:{ eexists. split; [reflexivity|]. apply Refused_one. rewrite Hacc, Hnet.
      cbn. now rewrite (anyStatus_200 _ Hany). }
  destruct (status r =? 200)%Z eqn:H200; cbn [negb].
  - destruct (Str.includes (default "" (headers r !! "content-type")) "text/html"
              || stringIncludes (data r) "<!DOCTYPE") eqn:Hhtml.
    { eexists. split; [reflexivity|]. apply Refused_one. rewrite Hacc, Hnet.
      cbn. now rewrite H200, Hhtml. }
    destruct (negb (truthy (data r)) || negb (typeofObject (data r))) eqn:Hobj.
    { eexists. split; [reflexivity|]. apply Refused_one. rewrite Hacc, Hnet.
      cbn. rewrite H200, Hhtml. cbn.
      apply orb_true_iff in Hobj as [H|H]; apply negb_true_iff in H; rewrite H;
        [reflexivity | apply andb_false_r]. }
    eexists. split; [reflexivity|]. exists [], req. rewrite app_nil_r.
    split; [reflexivity|]. split; [constructor|]. split; [exact Hnet|].
    rewrite Hacc. cbn. rewrite H200, Hhtml. cbn.
    apply orb_false_iff in Hobj as [H1 H2].
    apply negb_false_iff in H1, H2. now rewrite H1, H2.
  - assert (Hno : accepts req (net log req) = false).
    { rewrite Hacc, Hnet. cbn. now rewrite H200. }
    destruct ((status r =? 401)%Z || (status r =? 403)%Z).
    { eexists. split; [reflexivity|]. now apply Refused_one. }
    destruct (status r =? 302)%Z.
    { eexists. split; [reflexivity|]. now apply Refused_one. }
    destruct (stringIncludes (data r) "<!DOCTYPE" || stringIncludes (data r) "<html").
    { eexists. split; [reflexivity|]. now apply Refused_one. }
    destruct (truthy (data r) && typeofObject (data r)
              && truthy (get (data r) "errorMessages")).
    { destruct (callJoin (get (data r) "errorMessages") "; ");
        (eexists; split; [reflexivity|]; now apply Refused_one). }
    eexists. split; [reflexivity|]. now apply Refused_one.
Qed.

Lemma Stopped_app (net : World) (a b : list Request) (log : list Request)
    (result : Res Response) :
  Refused net log a -> Stopped net (log ++ a) b result -> Stopped net log (a ++ b) result.
Proof.
  intros Ha Hb. destruct result as [response|e]; cbn [Stopped] in *.
  - destruct Hb as (earlier & req & -> & Hearlier & Hnet & Hacc).
    exists (a ++ earlier), req. rewrite app_assoc. split; [reflexivity|].
    split; [now apply Refused_app|]. rewrite app_assoc. now split.
  - now apply Refused_app.
Qed.

Lemma Stopped_cons (net : World) (req : Request) (sent log : list Request)
    (result : Res Response) :
  accepts req (net log req) = false ->
  Stopped net (log ++ [req]) sent result -> Stopped net log (req :: sent) result.
Proof.
  intros Hreq Hsent. apply (Stopped_app net [req] sent); [now apply Refused_one | exact Hsent].
Qed.

Lemma Stopped_here (net : World) (req : Request) (log : list Request) (r : Response) :
  net log req = Reply r -> accepts req (Reply r) = true -> Stopped net log [req] (Ok r).
Proof.
  intros Hnet Hacc. exists [], req. rewrite app_nil_r.
  split; [reflexivity|]. split; [constructor|]. now split.
Qed.

Section Loops.
Variable net : World.
Variable this : JiraClient.
Variables jql fields : JsVal.

Lemma pat_loop (formats : list HeaderFormat) :
  Forall (fun format => isBearer (patRequestOf this jql fields format) = false) formats ->
  forall log, exists result sent,
    patLoop net this jql fields formats log = (result, log ++ sent) /\
    sent `prefix_of` map (patRequestOf this jql fields) formats /\
    Stopped net log sent result /\
    (forall e, result = Throw e -> sent = map (patRequestOf this jql fields) formats).
Proof.
  induction 1 as [|format rest Hplain _ IH]; intros log.
  - exists (Throw (Error "All PAT token header formats failed")), [].
    rewrite app_nil_r. split; [reflexivity|]. split; [reflexivity|].
    split; [constructor|]. intros e _. reflexivity.
  - cbn [patLoop map]. unfold axios.
    change (mkRequest POST (searchUrl this) (patHeaders format) (searchBody jql fields)
              (Some 30000%Z)) with (patRequestOf this jql fields format).
    set (req := patRequestOf this jql fields format) in *.
    assert (Hacc : forall o, accepts req o = plainAccepts o).
    { intros o. unfold accepts. now rewrite Hplain. }
    assert (Hnext : accepts req (net log req) = false ->
                    exists result sent,
                      patLoop net this jql fields rest (log ++ [req]) = (result, log ++ sent) /\
                      sent `prefix_of` req :: map (patRequestOf this jql fields) rest /\
                      Stopped net log sent result /\
                      (forall e, result = Throw e ->
                                 sent = req :: map (patRequestOf this jql fields) rest)).
    { intros Hno. destruct (IH (log ++ [req])) as (result & sent & Hrun & Hpre & Hstop & Hall).
      exists result, (req :: sent). rewrite Hrun, <- app_assoc. split; [reflexivity|].
      split; [now apply prefix_cons|]. split; [now apply Stopped_cons|].
      intros e He. now rewrite (Hall e He). }
    destruct (net log req) as [r|msg c] eqn:Hnet.
    + destruct (anyStatus (status r)) eqn:Hany.
      * destruct (status r =? 200)%Z eqn:H200.
        -- exists (Ok r), [req]. split; [reflexivity|].
           split; [apply prefix_cons, prefix_nil|].
           split; [apply Stopped_here; [exact Hnet | now rewrite Hacc]|].
           intros e He. discriminate.
        -- assert (Hno : accepts req (Reply r) = false) by (rewrite Hacc; exact H200).
           destruct ((status r =? 302)%Z || stringIncludes (data r) "<!DOCTYPE");
             now apply Hnext.
      * assert (Hno : accepts req (Reply r) = false)
          by (rewrite Hacc; cbn; now apply anyStatus_200).
        destruct rest as [|format' rest]; [|now apply Hnext].
        exists (Throw (statusError r)), [req]. split; [reflexivity|].
        split; [reflexivity|]. split; [apply Refused_one; now rewrite Hnet|].
        intros e _. reflexivity.
    + assert (Hno : accepts req (Failure msg c) = false) by now rewrite Hacc.
      destruct rest as [|format' rest]; [|now apply Hnext].
      eexists _, [req]. split; [reflexivity|].
      split; [reflexivity|]. split; [apply Refused_one; now rewrite Hnet|].
      intros e _. reflexivity.
Qed.

Lemma isBearer_basicRequest (cleanToken userFormat : string) :
  isBearer (basicRequest this jql fields cleanToken userFormat) = false.
Proof.
  unfold isBearer, basicRequest, post. cbn [reqHeaders].
  rewrite lookup_insert_eq. reflexivity.
Qed.

(** The [catch] of one turn never returns a response. *)
Lemma basic_handler (lastFormat userFormat : string) (error : JsError)
    (log : list Request) :
  exists turn : Res (Response + unit),
    (disabled <-
       match Js.response error with
       | Some r =>
           if (status r =? 403)%Z
           then lift (optIncludes (getOpt (data r) "message") basicDisabled)
           else ret false
       | None => ret false
       end ;;
     if disabled : bool then ret (inr tt)
     else if String.eqb userFormat lastFormat then throw error
     else ret (inr tt))%net log = (turn, log) /\
    forall r, turn <> Ok (inl r).
Proof.
  unfold mbind.
  assert (Hrest : forall disabled : bool, exists turn : Res (Response + unit),
            (if disabled then ret (inr tt)
             else if String.eqb userFormat lastFormat then throw error
             else ret (inr tt)) log = (turn, log) /\ forall r, turn <> Ok (inl r)).
  { intros [|]; [|destruct (String.eqb userFormat lastFormat)];
      eexists; (split; [reflexivity | discriminate]). }
  destruct (Js.response error) as [r|]; [|exact (Hrest false)].
  destruct (status r =? 403)%Z; [|exact (Hrest false)].
  unfold lift. destruct (optIncludes _ _) as [disabled|e]; [exact (Hrest disabled)|].
  eexists. split; [reflexivity | discriminate].
Qed.

Lemma basic_attempt (cleanToken lastFormat userFormat : string) (log : list Request) :
  let req := basicRequest this jql fields cleanToken userFormat in
  exists turn,
    basicAttempt net this jql fields cleanToken lastFormat userFormat log
      = (turn, log ++ [req]) /\
    match turn with
    | Ok (inl r) => net log req = Reply r /\ accepts req (Reply r) = true
    | _ => accepts req (net log req) = false
    end.
Proof.
  intros req.
  assert (Hacc : forall o, accepts req o = plainAccepts o).
  { intros o. unfold accepts, req. now rewrite isBearer_basicRequest. }
  unfold basicAttempt, catch. unfold mbind at 1. unfold axios.
  unfold req, basicRequest, post in *. set (req' := mkRequest _ _ _ _ _) in *.
  assert (Hcaught : forall error : JsError,
            accepts req' (net log req') = false ->
            exists turn : Res (Response + unit),
              (disabled <-
                 match Js.response error with
                 | Some r =>
                     if (status r =? 403)%Z
                     then lift (optIncludes (getOpt (data r) "message") basicDisabled)
                     else ret false
                 | None => ret false
                 end ;;
               if disabled : bool then ret (inr tt)
               else if String.eqb userFormat lastFormat then throw error
               else ret (inr tt))%net (log ++ [req']) = (turn, log ++ [req']) /\
              match turn with
              | Ok (inl r) => net log req' = Reply r /\ accepts req' (Reply r) = true
              | _ => accepts req' (net log req') = false
              end).
  { intros error Hno.
    destruct (basic_handler lastFormat userFormat error (log ++ [req']))
      as (turn & Hturn & Hnot).
    exists turn. split; [exact Hturn|].
    destruct turn as [[r|[]]|e]; [now destruct (Hnot r) | exact Hno | exact Hno]. }
  destruct (net log req') as [r|msg c] eqn:Hnet.
  - destruct (anyStatus (status r)) eqn:Hany.
    + destruct (status r =? 200)%Z eqn:H200.
      * exists (Ok (inl r)). split; [reflexivity|]. split; [reflexivity|].
        now rewrite Hacc.
      * assert (Hno : accepts req' (Reply r) = false) by (rewrite Hacc; exact H200).
        unfold mbind at 1.
        destruct (status r =? 403)%Z.
        -- unfold lift at 1.
           destruct (optIncludes (getOpt (data r) "message") basicDisabled) as [[|]|e].
           ++ exists (Ok (inr tt)). split; [reflexivity | exact Hno].
           ++ unfold mbind at 1, lift at 1.
              destruct (ToString _) as [detail|e]; now apply Hcaught.
           ++ now apply Hcaught.
        -- unfold ret at 1. unfold mbind at 1, lift at 1.
           destruct (ToString _) as [detail|e]; now apply Hcaught.
    + apply Hcaught. rewrite Hacc. cbn. now apply anyStatus_200.
  - apply Hcaught. now rewrite Hacc.
Qed.

Lemma basic_loop (cleanToken lastFormat : string) (formats : list string) :
  forall log, exists result sent,
    basicLoop net this jql fields cleanToken lastFormat formats log = (result, log ++ sent) /\
    sent `prefix_of` map (basicRequest this jql fields cleanToken) formats /\
    Stopped net log sent result.
Proof.
  induction formats as [|userFormat rest IH]; intros log.
  - eexists _, []. rewrite app_nil_r. split; [reflexivity|]. split; [reflexivity|].
    constructor.
  - cbn [basicLoop map]. unfold mbind.
    destruct (basic_attempt cleanToken lastFormat userFormat log) as (turn & -> & Hturn).
    set (req := basicRequest this jql fields cleanToken userFormat) in *.
    destruct turn as [[r|[]]|e].
    + destruct Hturn as [Hnet Hacc]. exists (Ok r), [req]. split; [reflexivity|].
      split; [apply prefix_cons, prefix_nil|]. now apply Stopped_here.
    + destruct (IH (log ++ [req])) as (result & sent & Hrun & Hpre & Hstop).
      exists result, (req :: sent). rewrite Hrun, <- app_assoc. split; [reflexivity|].
      split; [now apply prefix_cons|]. now apply Stopped_cons.
    + exists (Throw e), [req]. split; [reflexivity|].
      split; [apply prefix_cons, prefix_nil|]. now apply Refused_one.
Qed.

(** What one turn of the basic-auth loop does with a refused attempt: it
    goes on when the answer says that basic authentication is disabled, and
    otherwise ends the attempts exactly when the user name is the last of
    the formats. *)
Lemma basic_caught (lastFormat userFormat : string) (error : JsError) (log : list Request) :
  match Js.response error with
  | Some r => (status r =? 403)%Z = false
  | None => True
  end ->
  (disabled <-
     match Js.response error with
     | Some r =>
         if (status r =? 403)%Z
         then lift (optIncludes (getOpt (data r) "message") basicDisabled)
         else ret false
     | None => ret false
     end ;;
   if disabled : bool then ret (inr tt)
   else if String.eqb userFormat lastFormat then throw error
   else ret (inr tt))%net log
  = (if String.eqb userFormat lastFormat then Throw error else Ok (inr tt : Response + unit),
     log).
Proof.
  intros Hplain. unfold mbind.
  destruct (Js.response error) as [r|]; [rewrite Hplain|];
    cbn [ret]; now destruct (String.eqb userFormat lastFormat).
Qed.

Lemma optIncludes_thrown (v : JsVal) (needle : string) (e : JsError) :
  optIncludes v needle = Throw e -> Js.response e = None.
Proof. destruct v as [| | | | | | |[| |]]; try discriminate; now intros [= <-]. Qed.

Lemma ToString_thrown (v : JsVal) (e : JsError) : ToString v = Throw e -> Js.response e = None.
Proof. intros H. generalize (plain_ToString v). rewrite H. now intros [Hr _]. Qed.

Lemma basic_turn (cleanToken lastFormat userFormat : string) (log : list Request) :
  let req := basicRequest this jql fields cleanToken userFormat in
  exists turn,
    basicAttempt net this jql fields cleanToken lastFormat userFormat log
      = (turn, log ++ [req]) /\
    match turn with
    | Ok (inl r) => net log req = Reply r /\ accepts req (Reply r) = true
    | Ok (inr _) =>
        accepts req (net log req) = false /\
        (basicDisabledAnswer (net log req) = true \/ String.eqb userFormat lastFormat = false)
    | Throw _ =>
        accepts req (net log req) = false /\
        basicDisabledAnswer (net log req) = false /\
        String.eqb userFormat lastFormat = true
    end.
Proof.
  intros req.
  assert (Hacc : forall o, accepts req o = plainAccepts o).
  { intros o. unfold accepts, req. now rewrite isBearer_basicRequest. }
  unfold basicAttempt, catch. unfold mbind at 1. unfold axios.
  unfold req, basicRequest, post in *. set (req' := mkRequest _ _ _ _ _) in *.
  assert (Hcaught : forall error : JsError,
            match Js.response error with
            | Some r => (status r =? 403)%Z = false
            | None => True
            end ->
            accepts req' (net log req') = false ->
            basicDisabledAnswer (net log req') = false ->
            exists turn : Res (Response + unit),
              (disabled <-
                 match Js.response error with
                 | Some r =>
                     if (status r =? 403)%Z
                     then lift (optIncludes (getOpt (data r) "message") basicDisabled)
                     else ret false
                 | None => ret false
                 end ;;
               if disabled : bool then ret (inr tt)
               else if String.eqb userFormat lastFormat then throw error
               else ret (inr tt))%net (log ++ [req']) = (turn, log ++ [req']) /\
              match turn with
              | Ok (inl r) => net log req' = Reply r /\ accepts req' (Reply r) = true
              | Ok (inr _) =>
                  accepts req' (net log req') = false /\
                  (basicDisabledAnswer (net log req') = true \/
                   String.eqb userFormat lastFormat = false)
              | Throw _ =>
                  accepts req' (net log req') = false /\
                  basicDisabledAnswer (net log req') = false /\
                  String.eqb userFormat lastFormat = true
              end).
  { intros error Hplain Hno Hnot.
    rewrite (basic_caught lastFormat userFormat error (log ++ [req']) Hplain).
    destruct (String.eqb userFormat lastFormat); eexists; (split; [reflexivity|]); cbn; auto. }
  destruct (net log req') as [r|msg c] eqn:Hnet.
  - destruct (anyStatus (status r)) eqn:Hany.
    + destruct (status r =? 200)%Z eqn:H200.
      * exists (Ok (inl r)). split; [reflexivity|]. split; [reflexivity|].
        now rewrite Hacc.
      * assert (Hno : accepts req' (Reply r) = false) by (rewrite Hacc; exact H200).
        unfold mbind at 1. cbn [basicDisabledAnswer] in *.
        destruct (status r =? 403)%Z; cbn [andb] in *.
        -- unfold lift at 1.
           destruct (optIncludes (getOpt (data r) "message") basicDisabled)
             as [[|]|e] eqn:Hinc.
           ++ exists (Ok (inr tt)). split; [reflexivity|]. split; [exact Hno | now left].
           ++ unfold mbind at 1, lift at 1.
              destruct (ToString _) as [detail|e] eqn:Hdetail.
              ** now apply Hcaught.
              ** apply Hcaught; [|exact Hno|reflexivity].
                 now rewrite (ToString_thrown _ _ Hdetail).
           ++ apply Hcaught; [|exact Hno|reflexivity].
              now rewrite (optIncludes_thrown _ _ _ Hinc).
        -- unfold ret at 1. unfold mbind at 1, lift at 1.
           destruct (ToString _) as [detail|e] eqn:Hdetail.
           ++ now apply Hcaught.
           ++ apply Hcaught; [|exact Hno|reflexivity].
              now rewrite (ToString_thrown _ _ Hdetail).
    + assert (H403 : (status r =? 403)%Z = false).
      { apply Z.eqb_neq. intros H. rewrite H in Hany. discriminate. }
      apply Hcaught.
      * cbn [Js.response statusError]. exact H403.
      * rewrite Hacc. cbn. now apply anyStatus_200.
      * cbn [basicDisabledAnswer]. now rewrite H403.
  - apply Hcaught; [exact I | now rewrite Hacc | reflexivity].
Qed.

(** The basic-auth loop that ends in a throw has tried the user names in
    turn, and it has tried all of them unless an attempt with the last user
    name was refused otherwise than by the notice. *)
Lemma basic_trace (cleanToken lastFormat : string) (formats : list string) :
  forall log, exists result sent,
    basicLoop net this jql fields cleanToken lastFormat formats log = (result, log ++ sent) /\
    sent `prefix_of` map (basicRequest this jql fields cleanToken) formats /\
    Stopped net log sent result /\
    (forall e, result = Throw e -> formats <> [] ->
       exists before userFormat,
         sent = map (basicRequest this jql fields cleanToken) (before ++ [userFormat]) /\
         (before ++ [userFormat] = formats \/
          (userFormat = lastFormat /\
           basicDisabledAnswer
             (net (log ++ map (basicRequest this jql fields cleanToken) before)
                  (basicRequest this jql fields cleanToken userFormat)) = false)) /\
         (forall earlier name later, before = earlier ++ name :: later ->
            basicDisabledAnswer
              (net (log ++ map (basicRequest this jql fields cleanToken) earlier)
                   (basicRequest this jql fields cleanToken name)) = true \/
            name <> lastFormat)).
Proof.
  induction formats as [|userFormat rest IH]; intros log.
  - eexists _, []. rewrite app_nil_r. split; [reflexivity|]. split; [reflexivity|].
    split; [constructor|]. intros e _ Hne. contradiction.
  - cbn [basicLoop map]. unfold mbind.
    destruct (basic_turn cleanToken lastFormat userFormat log) as (turn & -> & Hturn).
    set (req := basicRequest this jql fields cleanToken userFormat) in *.
    destruct turn as [[r|[]]|e].
    + destruct Hturn as [Hnet Hacc]. exists (Ok r), [req]. split; [reflexivity|].
      split; [apply prefix_cons, prefix_nil|]. split; [now apply Stopped_here|].
      intros e He. discriminate.
    + destruct Hturn as [Hno Hgo].
      destruct (IH (log ++ [req])) as (result & sent & Hrun & Hpre & Hstop & Hall).
      exists result, (req :: sent). rewrite Hrun, <- app_assoc. split; [reflexivity|].
      split; [now apply prefix_cons|]. split; [now apply Stopped_cons|].
      intros e He _. destruct rest as [|next rest].
      * cbn in Hrun. injection Hrun as _ Hlog.
        rewrite <- (app_nil_r (log ++ [req])) in Hlog at 1.
        apply app_inv_head in Hlog. subst sent.
        exists [], userFormat. split; [reflexivity|]. split; [now left|].
        intros [|x earlier] name later Hsplit; discriminate.
      * destruct (Hall e He) as (before & last & -> & Hend & Hearlier); [discriminate|].
        exists (userFormat :: before), last. split; [reflexivity|]. split.
        -- destruct Hend as [Hend|[Hlast Hnot]].
           ++ left. cbn [app]. now rewrite Hend.
           ++ right. split; [exact Hlast|]. cbn [map]. fold req.
              now rewrite <- app_assoc in Hnot.
        -- intros [|x earlier] name later Hsplit; cbn [app] in Hsplit.
           ++ assert (Hname : name = userFormat) by congruence. subst name.
              cbn [map]. rewrite app_nil_r. fold req.
              destruct Hgo as [Hgo|Hgo]; [now left | right].
              now apply String.eqb_neq.
           ++ assert (Hrest : before = earlier ++ name :: later) by congruence.
              assert (Hx : x = userFormat) by congruence. subst x.
              generalize (Hearlier earlier name later Hrest).
              cbn [map]. fold req. now rewrite <- app_assoc.
    + destruct Hturn as (Hno & Hnot & Hlast).
      exists (Throw e), [req]. split; [reflexivity|].
      split; [apply prefix_cons, prefix_nil|]. split; [now apply Refused_one|].
      intros e' _ _. exists [], userFormat. split; [reflexivity|]. split.
      * right. split; [now apply String.eqb_eq|]. cbn [map]. now rewrite app_nil_r.
      * intros [|x earlier] name later Hsplit; discriminate.
Qed.

End Loops.

Lemma present_cleanToken (t : option string) :
  present t = true -> exists cleanToken, cleanTokenOf t = Ok cleanToken.
Proof. destruct t as [s|]; [eauto | discriminate]. Qed.

Lemma absent_cases (t : option string) : present t = false -> t = None \/ t = Some "".
Proof.
  destruct t as [s|]; [|auto]. cbn. intros H. right.
  apply negb_false_iff, String.eqb_eq in H. now subst.
Qed.

Lemma orStr_absent (a b : option string) : present a = false -> orStr a b = b.
Proof. unfold orStr. now intros ->. Qed.

Lemma Stopped_Throw (net : World) (log sent : list Request) (e e' : JsError) :
  Stopped net log sent (Throw e) -> Stopped net log sent (Throw e').
Proof. exact (fun H => H). Qed.

(** C2 fails as stated: without a caller-supplied token the client does
    not go on to the PAT-header and basic-auth strategies.  The configured
    token takes the caller's place in the bearer attempt, and since it is
    present nothing else is tried: here the bearer attempt is refused, every
    PAT-header request would have been accepted, and none is sent. *)
Lemma makeJiraRequest_no_fallback_counterexample :
  present (pat Sample.client) = true /\
  makeJiraRequest Sample.bearerRefused Sample.client (JStr "project = NDB") (JArr []) None []
  = (Throw (Error ("All authentication methods failed. Last error: "
                   +:+ "Authentication failed. Please check your Bearer token (PAT) is valid and has not expired.")),
     [bearerRequest Sample.client (JStr "project = NDB") (JArr []) "config-pat"]) /\
  Forall (fun req =>
            plainAccepts
              (Sample.bearerRefused
                 [bearerRequest Sample.client (JStr "project = NDB") (JArr []) "config-pat"]
                 req) = true)
         (patRequests Sample.client (JStr "project = NDB") (JArr []) "config-pat").
Proof.
  split; [reflexivity|]. split; [vm_compute; reflexivity|].
  repeat constructor.
Qed.

(** C2, amended.  [makeJiraRequest] always makes the bearer attempt first,
    with the caller's token or else the configured one.  When either token
    is present (and a client that passed [validateConfiguration] has one),
    only the bearer strategy is attempted: exactly one request is sent, also
    when it fails.  When neither is present and the configured token is
    missing altogether, nothing is sent.  When the configured token is the
    empty string, the client goes on after a refused bearer attempt to the
    four PAT-header variants in their fixed order and then to the basic-auth
    user names (bare, with the domain suffix, and the choice based on [@]):
    the requests sent are an initial part of that order, and the attempts
    stop at the first one that succeeds, a returned response being the reply
    to the last request sent.  When all attempts fail, the bearer request and
    the four PAT-header requests were sent and then the basic-auth user names
    in turn: all three, unless an attempt with the last user name (which the
    first or the second one equals) was refused otherwise than by the notice
    that basic authentication is disabled; the first such refusal ends the
    attempts, and nothing else ends them early. *)
Theorem makeJiraRequest_strategies (net : World) (this : JiraClient) (jql fields : JsVal)
    (token : option string) (log : list Request) :
  let tokenToUse := orStr token (pat this) in
  (present token = true \/ present (pat this) = true -> present tokenToUse = true) /\
  (present tokenToUse = true ->
   exists cleanToken result,
     cleanTokenOf tokenToUse = Ok cleanToken /\
     makeJiraRequest net this jql fields token log
       = (result, log ++ [bearerRequest this jql fields cleanToken]) /\
     Stopped net log [bearerRequest this jql fields cleanToken] result) /\
  (present tokenToUse = false -> pat this = None ->
   makeJiraRequest net this jql fields token log
   = (Throw (Error ("All authentication methods failed. Last error: "
                    +:+ "Cannot read properties of undefined (reading 'trim')")),
      log)) /\
  (present tokenToUse = false -> pat this = Some "" ->
   let formats := usernameFormats (default "namratha.singh" (orStr (username this) None)) in
   let bearer := bearerRequest this jql fields "" in
   let pats := patRequests this jql fields "" in
   exists result sent,
     makeJiraRequest net this jql fields token log = (result, log ++ sent) /\
     sent `prefix_of` strategyOrder this jql fields "" /\
     Stopped net log sent result /\
     (forall e, result = Throw e ->
        exists before userFormat,
          sent = bearer :: pats
                 ++ map (basicRequest this jql fields "") (before ++ [userFormat]) /\
          (before ++ [userFormat] = formats \/
           (userFormat = List.last formats "" /\
            basicDisabledAnswer
              (net (log ++ bearer :: pats ++ map (basicRequest this jql fields "") before)
                   (basicRequest this jql fields "" userFormat)) = false)) /\
          (forall earlier name later, before = earlier ++ name :: later ->
             basicDisabledAnswer
               (net (log ++ bearer :: pats ++ map (basicRequest this jql fields "") earlier)
                    (basicRequest this jql fields "" name)) = true \/
             name <> List.last formats ""))).
Proof.
  intros tokenToUse.
  assert (Hpat : present tokenToUse = false -> tokenToUse = pat this).
  { intros Habsent. destruct (present token) eqn:Ht; [|now apply orStr_absent].
    unfold tokenToUse, orStr in Habsent. rewrite Ht in Habsent. congruence. }
  split; [|split; [|split]].
  - unfold tokenToUse, orStr. intros [H|H]; [now rewrite H|].
    destruct (present token) eqn:Ht; assumption.
  - intros Hpresent. destruct (present_cleanToken _ Hpresent) as (cleanToken & Hclean).
    unfold makeJiraRequest, authMethods. fold tokenToUse. rewrite Hpresent.
    cbn [negb app authLoop runMethod].
    destruct (bearer_attempt net this jql fields tokenToUse cleanToken log)
      as (first & Hrun & Hstop).
    { unfold tokenToUse. now rewrite orStr_idem. }
    rewrite Hrun. exists cleanToken.
    destruct first as [response|e]; eexists; (split; [exact Hclean|]);
      (split; [reflexivity|]); exact Hstop.
  - intros Habsent Hnone.
    unfold makeJiraRequest, authMethods. fold tokenToUse. rewrite Habsent.
    cbn [negb app authLoop runMethod]. rewrite (Hpat Habsent).
    unfold tryBearerTokenRequest, tryPATTokenRequest, tryBasicAuthRequest,
      catch, mbind, lift.
    rewrite Hnone. reflexivity.
  - intros Habsent Hempty formats bearer pats.
    unfold makeJiraRequest, authMethods. fold tokenToUse. rewrite Habsent.
    cbn [negb app authLoop runMethod]. rewrite (Hpat Habsent).
    assert (Hclean : cleanTokenOf (pat this) = Ok "") by now rewrite Hempty.
    destruct (bearer_attempt net this jql fields (pat this) "" log)
      as (first & Hfirst & Hstop1).
    { now rewrite Hempty. }
    rewrite Hfirst. fold bearer in Hfirst, Hstop1 |- *.
    destruct first as [response|e1].
    { exists (Ok response), [bearer]. split; [reflexivity|].
      split; [apply prefix_cons, prefix_nil|]. split; [exact Hstop1 | discriminate]. }
    unfold tryPATTokenRequest, mbind at 1, lift at 1. rewrite Hclean.
    destruct (pat_loop net this jql fields (headerFormats "")) with (log := log ++ [bearer])
      as (second & sent2 & Hsecond & Hpre2 & Hstop2 & Hall2).
    { repeat constructor. }
    rewrite Hsecond.
    change (map (patRequestOf this jql fields) (headerFormats "")) with pats in *.
    destruct second as [response|e2].
    { exists (Ok response), (bearer :: sent2). rewrite <- app_assoc.
      split; [reflexivity|]. split; [|split; [|discriminate]].
      - apply prefix_cons. etransitivity; [exact Hpre2 | apply prefix_app_r, reflexivity].
      - apply (Stopped_app net [bearer] sent2); assumption. }
    rewrite (Hall2 e2 eq_refl) in *.
    unfold tryBasicAuthRequest, mbind at 1, lift at 1. rewrite Hclean.
    fold formats.
    destruct (basic_trace net this jql fields "" (List.last formats "") formats
                ((log ++ [bearer]) ++ pats))
      as (third & sent3 & Hthird & Hpre3 & Hstop3 & Hall3).
    rewrite Hthird.
    assert (Hpre : bearer :: pats ++ sent3 `prefix_of` strategyOrder this jql fields "").
    { apply prefix_cons, prefix_app. exact Hpre3. }
    assert (Hstop : Stopped net log (bearer :: pats ++ sent3) third).
    { apply (Stopped_app net [bearer] _); [exact Hstop1|]. apply Stopped_app; assumption. }
    assert (Hend : forall e, third = Throw e ->
              exists before userFormat,
                bearer :: pats ++ sent3
                = bearer :: pats
                  ++ map (basicRequest this jql fields "") (before ++ [userFormat]) /\
                (before ++ [userFormat] = formats \/
                 (userFormat = List.last formats "" /\
                  basicDisabledAnswer
                    (net (log ++ bearer :: pats
                          ++ map (basicRequest this jql fields "") before)
                         (basicRequest this jql fields "" userFormat)) = false)) /\
                (forall earlier name later, before = earlier ++ name :: later ->
                   basicDisabledAnswer
                     (net (log ++ bearer :: pats
                           ++ map (basicRequest this jql fields "") earlier)
                          (basicRequest this jql fields "" name)) = true \/
                   name <> List.last formats "")).
    { intros e He. destruct (Hall3 e He) as (before & userFormat & -> & Hlast & Hearlier).
      { discriminate. }
      exists before, userFormat. split; [reflexivity|]. split.
      - destruct Hlast as [Hlast|[Hlast Hnot]]; [now left | right].
        split; [exact Hlast|]. now rewrite <- !app_assoc in Hnot.
      - intros earlier name later Hsplit.
        generalize (Hearlier earlier name later Hsplit). now rewrite <- !app_assoc. }
    destruct third as [response|e3];
      eexists _, (bearer :: pats ++ sent3);
      (split; [rewrite <- !app_assoc; reflexivity|]); (split; [exact Hpre|]);
      (split; [exact Hstop|]).
    + discriminate.
    + intros e _. exact (Hend e3 eq_refl).
Qed.

Lemma makeJiraRequest_strategies_witness :
  present (orStr (Some "caller-token") (pat Sample.client)) = true /\
  present (orStr None (pat Sample.bareClient)) = false /\
  (exists cleanToken result,
     makeJiraRequest Sample.bearerRefused Sample.client (JStr "project = NDB") (JArr [])
       (Some "caller-token") []
     = (result, [] ++ [bearerRequest Sample.client (JStr "project = NDB") (JArr []) cleanToken])) /\
  (exists result sent,
     makeJiraRequest Sample.bearerRefused Sample.bareClient (JStr "project = NDB") (JArr [])
       None []
     = (result, [] ++ sent) /\
     sent `prefix_of` strategyOrder Sample.bareClient (JStr "project = NDB") (JArr []) "").
Proof.
  split; [reflexivity|]. split; [reflexivity|]. split.
  - destruct (proj1 (proj2 (makeJiraRequest_strategies Sample.bearerRefused Sample.client
                              (JStr "project = NDB") (JArr []) (Some "caller-token") []))
                eq_refl) as (cleanToken & result & _ & Hrun & _).
    now exists cleanToken, result.
  - destruct (proj2 (proj2 (proj2 (makeJiraRequest_strategies Sample.bearerRefused
                                     Sample.bareClient (JStr "project = NDB") (JArr [])
                                     None [])))
                eq_refl eq_refl) as (result & sent & Hrun & Hpre & _).
    now exists result, sent.
Defined.


(** * Part III. Further properties *)

(** ** Page ids and space keys *)

Lemma prefix_empty (s : string) : String.prefix "" s = true.
Proof. now destruct s. Qed.

Lemma run_lit (l : string) (R : Type) :
  forall (s : string) (c : captures) (k : string -> captures -> option R),
    run (lit l) R s c k = if String.prefix l s then k (dropFirst (String.length l) s) c else None.
Proof.
  induction l as [|a l IH]; intros s c k.
  - cbn. now rewrite prefix_empty; destruct s.
  - assert (Hhead : forall (x : ascii) (s' : string) (X : option R),
              (if only a x then X else None)
              = if ascii_dec a x then X else None).
    { intros x s' X. unfold only. destruct (ascii_dec a x) as [->|Hne].
      - now rewrite Ascii.eqb_refl.
      - destruct (Ascii.eqb x a) eqn:E; [|reflexivity].
        apply Ascii.eqb_eq in E. congruence. }
    destruct l as [|b l'].
    + cbn [lit run]. destruct s as [|x s']; [reflexivity|].
      rewrite (Hhead x s'). cbn [String.prefix String.length dropFirst].
      destruct (ascii_dec a x); [|reflexivity].
      now rewrite prefix_empty.
    + change (lit (String a (String b l'))) with (Seq (Chr (only a)) (lit (String b l'))).
      cbn [run]. destruct s as [|x s']; [reflexivity|].
      rewrite (Hhead x s'). rewrite IH.
      cbn [String.prefix String.length dropFirst].
      destruct (ascii_dec a x); reflexivity.
Qed.

Lemma greedyStar_total {R : Type} (p : ascii -> bool) (k : string -> option R) :
  (forall s, k s <> None) -> forall s, greedyStar p k s = k (dropWhile p s).
Proof.
  intros Hk. induction s as [|a s IH]; [reflexivity|].
  cbn. destruct (p a); [|reflexivity].
  rewrite IH. destruct (k (dropWhile p s)) eqn:E; [reflexivity|]. now destruct (Hk _ E).
Qed.

Lemma takeWhile_dropWhile (p : ascii -> bool) (s : string) :
  takeWhile p s +:+ dropWhile p s = s.
Proof.
  induction s as [|a s IH]; [reflexivity|]. cbn. destruct (p a); [|reflexivity].
  rewrite append_cons. now rewrite IH.
Qed.

Lemma every_takeWhile (p : ascii -> bool) (s : string) : every p (takeWhile p s) = true.
Proof.
  induction s as [|a s IH]; [reflexivity|]. cbn. destruct (p a) eqn:E; [|reflexivity].
  cbn. now rewrite E.
Qed.

Lemma consumed_run (p : ascii -> bool) (a : ascii) (s : string) :
  consumed (String a s) (dropWhile p s) = String a (takeWhile p s).
Proof.
  unfold consumed.
  assert (Hlen : String.length (String a s) - String.length (dropWhile p s)
                 = String.length (String a (takeWhile p s))).
  { rewrite <- (takeWhile_dropWhile p s) at 1.
    cbn [String.length]. rewrite length_append. lia. }
  rewrite Hlen.
  rewrite <- (takeWhile_dropWhile p s) at 2.
  rewrite <- append_cons. apply take_append.
Qed.

(** A marker followed by a captured run *)
Lemma matchAt_marker (l : string) (n : nat) (p : ascii -> bool) (s : string) :
  matchAt (Seq (lit l) (Group n (plus p))) s
  = match segmentAt l p s with
    | Some found => Some (dropWhile p (dropFirst (String.length l) s), [(n, found)])
    | None => None
    end.
Proof.
  unfold matchAt. cbn [run]. rewrite run_lit. unfold segmentAt.
  destruct (String.prefix l s); [|reflexivity].
  generalize (dropFirst (String.length l) s). intros t.
  unfold plus. cbn [run]. destruct t as [|a t]; [reflexivity|].
  cbn [takeWhile dropWhile]. destruct (p a); [|reflexivity].
  rewrite greedyStar_total by discriminate.
  now rewrite consumed_run.
Qed.

Lemma segmentAt_run (l : string) (p : ascii -> bool) (s found : string) :
  segmentAt l p s = Some found -> found <> "" /\ every p found = true.
Proof.
  unfold segmentAt. destruct (String.prefix l s); [|discriminate].
  generalize (every_takeWhile p (dropFirst (String.length l) s)).
  destruct (takeWhile p _); [discriminate|].
  intros H [= <-]. split; [discriminate | exact H].
Qed.

Lemma firstSegment_run (l : string) (p : ascii -> bool) (s found : string) :
  firstSegment l p s = Some found -> found <> "" /\ every p found = true.
Proof.
  induction s as [|a s IH]; cbn [firstSegment].
  - destruct (segmentAt l p "") eqn:E; [|discriminate].
    intros [= <-]. eapply segmentAt_run, E.
  - destruct (segmentAt l p (String a s)) eqn:E; [|exact IH].
    intros [= <-]. eapply segmentAt_run, E.
Qed.

Lemma exec_marker (l : string) (n : nat) (p : ascii -> bool) (s : string) :
  exec (Seq (lit l) (Group n (plus p))) s
  = option_map (fun found => [(n, found)]) (firstSegment l p s).
Proof.
  induction s as [|a s IH]; cbn [exec firstSegment]; rewrite matchAt_marker.
  - now destruct (segmentAt l p "").
  - destruct (segmentAt l p (String a s)); [reflexivity | exact IH].
Qed.

Lemma firstPageId_run (s found : string) :
  firstPageId s = Some found -> found <> "" /\ every digit found = true.
Proof.
  induction s as [|a s IH]; cbn [firstPageId].
  - discriminate.
  - destruct (segmentAt "pageId=" digit (String a s)) eqn:E1.
    { intros [= <-]. eapply segmentAt_run, E1. }
    destruct (segmentAt "pages/" digit (String a s)) eqn:E2; [|exact IH].
    intros [= <-]. eapply segmentAt_run, E2.
Qed.

Lemma matchAt_pageId (s : string) :
  matchAt Confluence.pageIdRegex s
  = match segmentAt "pageId=" digit s with
    | Some found => Some (dropWhile digit (dropFirst 7 s), [(1, found)])
    | None =>
        match segmentAt "pages/" digit s with
        | Some found => Some (dropWhile digit (dropFirst 6 s), [(2, found)])
        | None => None
        end
    end.
Proof.
  change (matchAt Confluence.pageIdRegex s)
    with (match matchAt (Seq (lit "pageId=") (Group 1 (plus digit))) s with
          | Some x => Some x
          | None => matchAt (Seq (lit "pages/") (Group 2 (plus digit))) s
          end).
  rewrite !matchAt_marker.
  destruct (segmentAt "pageId=" digit s); [reflexivity|].
  now destruct (segmentAt "pages/" digit s).
Qed.

Lemma truthy_run (found : string) : found <> "" -> truthy (JStr found) = true.
Proof. destruct found; [congruence | reflexivity]. Qed.

Lemma exec_pageId (s : string) :
  match exec Confluence.pageIdRegex s with
  | Some m =>
      exists found, firstPageId s = Some found /\
                    or (Confluence.group 1 m) (Confluence.group 2 m) = JStr found
  | None => firstPageId s = None
  end.
Proof.
  induction s as [|a s IH]; cbn [exec firstPageId]; rewrite matchAt_pageId.
  - reflexivity.
  - destruct (segmentAt "pageId=" digit (String a s)) as [found|] eqn:E1.
    { exists found. split; [reflexivity|]. destruct (segmentAt_run _ _ _ _ E1) as [Hne _].
      unfold or. cbn. now destruct found. }
    destruct (segmentAt "pages/" digit (String a s)) as [found|] eqn:E2; [|exact IH].
    exists found. split; reflexivity.
Qed.

Lemma segmentAt_slash (l : string) (p : ascii -> bool) (a : ascii) (s : string) :
  segmentAt (String "/" l) p (String a s) = if ascii_dec "/" a then segmentAt l p s else None.
Proof.
  unfold segmentAt. cbn [String.prefix String.length dropFirst].
  destruct (ascii_dec "/" a); reflexivity.
Qed.

Lemma firstPageId_tail (a : ascii) (s : string) :
  firstPageId (String a s) = None -> firstPageId s = None.
Proof.
  cbn [firstPageId]. destruct (segmentAt "pageId=" digit (String a s)); [discriminate|].
  now destruct (segmentAt "pages/" digit (String a s)).
Qed.

Lemma firstPageId_here (s : string) :
  firstPageId s = None -> segmentAt "pages/" digit s = None.
Proof.
  destruct s as [|a s]; cbn [firstPageId].
  - reflexivity.
  - destruct (segmentAt "pageId=" digit (String a s)); [discriminate|].
    now destruct (segmentAt "pages/" digit (String a s)).
Qed.

(** The path pattern finds nothing that the first pattern has not found. *)
Lemma exec_path (s : string) :
  firstPageId s = None -> exec Confluence.pathRegex s = None.
Proof.
  unfold Confluence.pathRegex. rewrite exec_marker.
  induction s as [|a s IH]; intros Hnone; cbn [firstSegment].
  - reflexivity.
  - rewrite segmentAt_slash.
    assert (Hs := firstPageId_tail _ _ Hnone).
    rewrite (firstPageId_here _ Hs). destruct (ascii_dec "/" a); now apply IH.
Qed.

Lemma extractPageId_string (s : string) :
  Confluence.extractPageId (JStr s)
  = Ok (match firstPageId s with Some found => JStr found | None => JNull end).
Proof.
  assert (Hexec := exec_pageId s).
  unfold Confluence.extractPageId. cbn [truthy typeofObject negb].
  destruct (String.eqb s "") eqn:Hs; cbn [negb].
  { apply String.eqb_eq in Hs. now subst. }
  cbn [bind truthy]. rewrite Hs. cbn [negb Confluence.strMatch bind].
  destruct (exec Confluence.pageIdRegex s) as [m|].
  - destruct Hexec as (found & -> & ->). reflexivity.
  - rewrite Hexec. now rewrite exec_path.
Qed.

(** X1.  On a string, [extractPageId] returns the digits that follow the
    leftmost [pageId=] or [pages/] that has a digit after it, as many as
    there are, and [null] when the string has no such place.  A returned id
    is thus a non-empty string of decimal digits.  The second pattern of the
    function, [/\/pages\/(\d+)/], never contributes: where the first pattern
    finds nothing, it finds nothing either. *)
Theorem extractPageId_scan (s : string) :
  Confluence.extractPageId (JStr s)
  = Ok (match firstPageId s with Some found => JStr found | None => JNull end) /\
  (forall found, firstPageId s = Some found -> found <> "" /\ every digit found = true) /\
  (exec Confluence.pageIdRegex s = None -> exec Confluence.pathRegex s = None).
Proof.
  split; [apply extractPageId_string|]. split.
  - apply firstPageId_run.
  - intros Hnone. generalize (exec_pageId s). rewrite Hnone. apply exec_path.
Qed.

Lemma every_except (a : ascii) (s : string) :
  every (except a) s = true -> Str.includes s (String a EmptyString) = false.
Proof.
  induction s as [|x s IH]; [reflexivity|].
  cbn [every Str.includes String.prefix]. intros H.
  apply andb_true_iff in H as [Hx Hs]. unfold except in Hx.
  destruct (ascii_dec a x) as [->|Hne].
  - now rewrite Ascii.eqb_refl in Hx.
  - now apply IH.
Qed.

(** X2.  On a string, [extractSpaceKey] returns what follows the leftmost
    [/spaces/] that is followed by something other than a slash, up to the
    next slash or the end, and [null] when there is none; a returned key is
    non-empty and contains no slash. *)
Theorem extractSpaceKey_scan (s : string) :
  Wiki.extractSpaceKey (JStr s)
  = Ok (match firstSegment "/spaces/" (except "/") s with
        | Some found => JStr found
        | None => JNull
        end) /\
  (forall found, firstSegment "/spaces/" (except "/") s = Some found ->
                 found <> "" /\ Str.includes found "/" = false).
Proof.
  split.
  - unfold Wiki.extractSpaceKey. cbn [truthy].
    destruct (String.eqb s "") eqn:Hs; cbn [negb].
    { apply String.eqb_eq in Hs. now subst. }
    cbn [Confluence.strMatch bind]. unfold Wiki.spaceRegex. rewrite exec_marker.
    now destruct (firstSegment "/spaces/" (except "/") s).
  - intros found Hfound. destruct (firstSegment_run _ _ _ _ Hfound) as [Hne Hall].
    split; [exact Hne | now apply every_except].
Qed.

(** ** Cleaned text *)

Lemma replace_skip (r : regex) (rep : string) (pre rest : string) :
  replace_go r rep (String.length pre) (pre +:+ rest) = replace_go r rep 0 rest.
Proof.
  induction pre as [|a pre IH]; [reflexivity|].
  rewrite append_cons. cbn [String.length replace_go]. exact IH.
Qed.

Lemma matchAt_spaces (s : string) :
  matchAt Confluence.spacesRegex s
  = match s with
    | String a s' =>
        if Str.is_space a then Some (dropWhile Str.is_space s', []) else None
    | EmptyString => None
    end.
Proof.
  unfold matchAt, Confluence.spacesRegex, plus. cbn [run].
  destruct s as [|a s]; [reflexivity|]. destruct (Str.is_space a); [|reflexivity].
  now rewrite greedyStar_total by discriminate.
Qed.

Lemma startsClean_dropWhile (s : string) : startsClean (dropWhile Str.is_space s) = true.
Proof.
  induction s as [|a s IH]; [reflexivity|]. cbn [dropWhile].
  destruct (Str.is_space a) eqn:E; [exact IH|]. cbn. now rewrite E.
Qed.

Lemma length_dropWhile (p : ascii -> bool) (s : string) :
  String.length (dropWhile p s) <= String.length s.
Proof.
  induction s as [|a s IH]; [reflexivity|]. cbn [dropWhile].
  destruct (p a); cbn [String.length]; lia.
Qed.

(** One step of the collapse of white space *)
Lemma replace_spaces_step (a : ascii) (s : string) :
  replaceAll Confluence.spacesRegex " " (String a s)
  = if Str.is_space a
    then String " " (replaceAll Confluence.spacesRegex " " (dropWhile Str.is_space s))
    else String a (replaceAll Confluence.spacesRegex " " s).
Proof.
  unfold replaceAll. cbn [replace_go]. rewrite matchAt_spaces.
  destruct (Str.is_space a); [|reflexivity].
  assert (Hlen : String.length (String a s) - String.length (dropWhile Str.is_space s)
                 = S (String.length (takeWhile Str.is_space s))).
  { rewrite <- (takeWhile_dropWhile Str.is_space s) at 1.
    cbn [String.length]. rewrite length_append. lia. }
  rewrite Hlen.
  rewrite <- (takeWhile_dropWhile Str.is_space s) at 2.
  now rewrite replace_skip.
Qed.

Lemma collapsed_replace (n : nat) :
  forall s, String.length s <= n ->
    collapsed (replaceAll Confluence.spacesRegex " " s) = true /\
    (startsClean s = true -> startsClean (replaceAll Confluence.spacesRegex " " s) = true).
Proof.
  induction n as [|n IH]; intros s Hlen.
  - destruct s; [|cbn in Hlen; lia]. now split.
  - destruct s as [|a s]; [now split|]. cbn [String.length] in Hlen.
    rewrite replace_spaces_step. destruct (Str.is_space a) eqn:Ha.
    + destruct (IH (dropWhile Str.is_space s)) as [Hc Hs].
      { pose proof (length_dropWhile Str.is_space s). lia. }
      split.
      * cbn [collapsed]. rewrite Hc, (Hs (startsClean_dropWhile s)). reflexivity.
      * cbn. now rewrite Ha.
    + destruct (IH s) as [Hc _]; [lia|]. split.
      * cbn [collapsed]. now rewrite Ha, Hc.
      * intros _. cbn. now rewrite Ha.
Qed.

Lemma collapsed_tail (a : ascii) (s : string) :
  collapsed (String a s) = true -> collapsed s = true.
Proof. cbn [collapsed]. intros H. now apply andb_true_iff in H. Qed.

Lemma collapsed_trimStart (s : string) :
  collapsed s = true -> collapsed (Str.trimStart s) = true.
Proof.
  induction s as [|a s IH]; [easy|]. intros H. cbn [Str.trimStart].
  destruct (Str.is_space a); [|exact H]. apply IH. eapply collapsed_tail, H.
Qed.

Lemma startsClean_trimStart (s : string) : startsClean (Str.trimStart s) = true.
Proof.
  induction s as [|a s IH]; [reflexivity|]. cbn [Str.trimStart].
  destruct (Str.is_space a) eqn:E; [exact IH|]. cbn. now rewrite E.
Qed.

Lemma startsClean_trimEnd (s : string) :
  startsClean s = true -> startsClean (Str.trimEnd s) = true.
Proof.
  destruct s as [|a s]; [easy|]. intros H. cbn [Str.trimEnd].
  now destruct (Str.all_space (String a s)).
Qed.

Lemma collapsed_trimEnd (s : string) :
  collapsed s = true -> collapsed (Str.trimEnd s) = true.
Proof.
  induction s as [|a s IH]; [easy|]. intros H. cbn [Str.trimEnd].
  destruct (Str.all_space (String a s)); [reflexivity|].
  cbn [collapsed] in *. apply andb_true_iff in H as [Ha Hs].
  rewrite (IH Hs), andb_true_r.
  destruct (Str.is_space a); [|reflexivity].
  apply andb_true_iff in Ha as [-> Hclean]. now rewrite startsClean_trimEnd.
Qed.

Lemma trimStart_clean (s : string) : startsClean s = true -> Str.trimStart s = s.
Proof.
  destruct s as [|a s]; [easy|]. cbn. now destruct (Str.is_space a).
Qed.

Lemma all_space_trimEnd (s : string) : Str.all_space (Str.trimEnd s) = Str.all_space s.
Proof.
  induction s as [|a s IH]; [reflexivity|]. cbn [Str.trimEnd].
  destruct (Str.all_space (String a s)) eqn:E; [reflexivity|].
  cbn [Str.all_space] in *. now rewrite IH.
Qed.

Lemma trimEnd_idem (s : string) : Str.trimEnd (Str.trimEnd s) = Str.trimEnd s.
Proof.
  induction s as [|a s IH]; [reflexivity|]. cbn [Str.trimEnd].
  destruct (Str.all_space (String a s)) eqn:E; [reflexivity|].
  cbn [Str.trimEnd].
  assert (H : Str.all_space (String a (Str.trimEnd s)) = false).
  { cbn [Str.all_space] in *. now rewrite all_space_trimEnd. }
  now rewrite H, IH.
Qed.

Lemma trim_idem (s : string) : Str.trim (Str.trim s) = Str.trim s.
Proof.
  unfold Str.trim.
  rewrite (trimStart_clean (Str.trimEnd (Str.trimStart s))).
  - apply trimEnd_idem.
  - apply startsClean_trimEnd, startsClean_trimStart.
Qed.

Lemma cleanText_normal (s : string) :
  collapsed (Confluence.cleanText s) = true /\
  startsClean (Confluence.cleanText s) = true /\
  Str.trim (Confluence.cleanText s) = Confluence.cleanText s.
Proof.
  unfold Confluence.cleanText.
  match goal with |- context [replaceAll Confluence.spacesRegex " " ?u] =>
    generalize u end.
  intros u. split; [|split].
  - unfold Str.trim. apply collapsed_trimEnd, collapsed_trimStart.
    now apply (collapsed_replace (String.length u)).
  - unfold Str.trim. apply startsClean_trimEnd, startsClean_trimStart.
  - apply trim_idem.
Qed.

(** X3.  The text [cleanHtml] returns for a string has its white space
    normalised: every white-space code unit is a single space with no white
    space after it, and the text neither starts nor ends with white space. *)
Theorem cleanHtml_normalised (s : string) :
  exists text,
    Confluence.cleanHtml (JStr s) = Ok text /\
    collapsed text = true /\ Str.trim text = text.
Proof.
  unfold Confluence.cleanHtml. cbn [truthy].
  destruct (String.eqb s "") eqn:E; cbn [negb].
  - exists "". now split.
  - exists (Confluence.cleanText s). split; [reflexivity|].
    destruct (cleanText_normal s) as (H1 & _ & H3). now split.
Qed.

Lemma startsClean_take (n : nat) (s : string) :
  startsClean s = true -> startsClean (Str.take n s) = true.
Proof. destruct n, s; easy. Qed.

Lemma collapsed_take (n : nat) :
  forall s, collapsed s = true -> collapsed (Str.take n s) = true.
Proof.
  unfold Str.take. induction n as [|n IH]; intros s Hc.
  - now destruct s.
  - destruct s as [|a s]; [reflexivity|]. cbn [substring collapsed] in *.
    apply andb_true_iff in Hc as [Ha Hc']. rewrite (IH s Hc'), andb_true_r.
    destruct (Str.is_space a); [|reflexivity].
    apply andb_true_iff in Ha as [-> Hclean].
    exact (startsClean_take n s Hclean).
Qed.

Lemma textOf_normal (o : option string) :
  collapsed (textOf o) = true /\ startsClean (textOf o) = true.
Proof.
  destruct o as [s|]; [|now split]. cbn [textOf].
  destruct (cleanText_normal s) as (H1 & H2 & _). now split.
Qed.

Lemma extractSummary_text (htmlContent : JsVal) :
  exists summary,
    Confluence.extractSummary htmlContent = Ok summary /\
    match htmlContent with
    | JStr s =>
        if String.eqb s "" then summary = JNull
        else exists text, summary = JStr text /\
                          collapsed text = true /\ startsClean text = true
    | _ => summary = JNull
    end.
Proof.
  destruct htmlContent as [| |b|r|s|items|props|native];
    try (eexists; split; reflexivity).
  - destruct b; eexists; split; reflexivity.
  - unfold Confluence.extractSummary. destruct (negb (truthy (JNum r)));
      eexists; split; reflexivity.
  - destruct (String.eqb s "") eqn:E.
    { apply String.eqb_eq in E. subst. eexists; split; reflexivity. }
    assert (Hne : s <> "") by (intros ->; discriminate).
    rewrite (extractSummary_chain s Hne). eexists. split; [reflexivity|].
    eexists. split; [reflexivity|].
    destruct (exec Confluence.summaryRegex s); [apply textOf_normal|].
    destruct (exec Confluence.summaryStrongRegex s); [apply textOf_normal|].
    destruct (exec Confluence.firstParaRegex s); [apply textOf_normal|].
    destruct (cleanText_normal s) as (H1 & H2 & _).
    split; [now apply collapsed_take | now apply startsClean_take].
Qed.

(** X4.  [extractSummary] never throws.  For a non-empty string it returns
    a string, whose white space is collapsed and which does not start with
    white space; for anything else (nothing, the empty string, a number, an
    array, an object) it returns [null]. *)
Theorem extractSummary_total (htmlContent : JsVal) :
  exists summary,
    Confluence.extractSummary htmlContent = Ok summary /\
    match htmlContent with
    | JStr s =>
        if String.eqb s "" then summary = JNull
        else exists text, summary = JStr text /\
                          collapsed text = true /\ startsClean text = true
    | _ => summary = JNull
    end.
Proof. exact (extractSummary_text htmlContent). Qed.

(** ** The exchange with the wiki *)

Lemma extractPageId_result (v r : JsVal) :
  Confluence.extractPageId v = Ok r ->
  r = JNull \/ exists found, r = JStr found /\ found <> "" /\ every digit found = true.
Proof.
  assert (Hstr : forall u r,
            (if negb (truthy u) then Ok JNull
             else
               (pageIdMatch <- Confluence.strMatch u Confluence.pageIdRegex ;;
                match pageIdMatch with
                | Some m => Ok (or (Confluence.group 1 m) (Confluence.group 2 m))
                | None =>
                    pathMatch <- Confluence.strMatch u Confluence.pathRegex ;;
                    match pathMatch with
                    | Some m => Ok (Confluence.group 1 m)
                    | None => Ok JNull
                    end
                end))%res = Ok r ->
            r = JNull \/ exists found, r = JStr found /\ found <> "" /\ every digit found = true).
  { intros u r' H. destruct (truthy u) eqn:Hu; cbn [negb] in H; [|left; congruence].
    destruct u as [| |b|n|s|items|props|native]; try discriminate.
    assert (Hs := extractPageId_string s).
    unfold Confluence.extractPageId in Hs. rewrite Hu in Hs.
    cbn [negb typeofObject bind] in Hs. rewrite Hu in Hs. cbn [negb] in Hs.
    rewrite Hs in H. injection H as <-.
    destruct (firstPageId s) as [found|] eqn:Hf; [|now left].
    right. exists found. split; [reflexivity|]. exact (firstPageId_run s found Hf). }
  unfold Confluence.extractPageId.
  destruct (negb (truthy v)); [left; congruence|].
  destruct (typeofObject v).
  - destruct (truthy (or (get v "url") (get v "value"))).
    + cbn [bind]. apply Hstr.
    + destruct (toString v) as [s|e]; cbn [bind]; [apply Hstr | discriminate].
  - cbn [bind]. apply Hstr.
Qed.

Lemma token_choice (userToken configured : option string) :
  if truthy (or (Confluence.ofOption userToken) (Confluence.ofOption configured))
  then exists tokenText,
         ToString (or (Confluence.ofOption userToken) (Confluence.ofOption configured))
         = Ok tokenText /\
         orStr userToken configured = Some tokenText /\ tokenText <> ""
  else present userToken = false /\ present configured = false.
Proof.
  destruct userToken as [[|c a]|], configured as [[|d b]|]; cbn;
    try (now split); eexists; (repeat split); discriminate.
Qed.

(** [fetchPageContent] makes at most one exchange. *)
Lemma fetchPageContent_exchange (net : World) (this : Confluence.ConfluenceClient)
    (confluenceUrl : JsVal) (userToken : option string) (log : list Request) :
  exists page sent,
    Confluence.fetchPageContent net this confluenceUrl userToken log = (Ok page, log ++ sent) /\
    (sent = [] \/
     exists pageId tokenText,
       sent = [contentRequest this pageId tokenText] /\
       pageId <> "" /\ every digit pageId = true /\
       orStr userToken (Confluence.token this) = Some tokenText /\ tokenText <> "").
Proof.
  unfold Confluence.fetchPageContent, catch.
  assert (Hnone : forall (r : Res JsVal), exists page sent,
            (let (r0, log') := (r, log) in
             match r0 with
             | Ok a => (Ok a, log')
             | Throw e =>
                 ret (Confluence.obj [ ("success", JBool false); ("error", JStr (message e));
                                       ("title", JNull); ("body", JNull) ]) log'
             end) = (Ok page, log ++ sent) /\
            (sent = [] \/
             exists pageId tokenText,
               sent = [contentRequest this pageId tokenText] /\
               pageId <> "" /\ every digit pageId = true /\
               orStr userToken (Confluence.token this) = Some tokenText /\ tokenText <> "")).
  { intros [a|e]; eexists _, []; rewrite app_nil_r; (split; [reflexivity | now left]). }
  destruct (negb (truthy (Confluence.extractUrl confluenceUrl))); [apply (Hnone (Throw _))|].
  unfold mbind at 1, lift at 1.
  destruct (Confluence.extractPageId _) as [pageId|e] eqn:Hid; [|apply (Hnone (Throw _))].
  destruct (truthy pageId) eqn:Htruthy; cbn [negb]; [|apply (Hnone (Throw _))].
  generalize (token_choice userToken (Confluence.token this)).
  destruct (truthy (or _ _)); cbn [negb]; [|intros _; apply (Hnone (Throw _))].
  intros (tokenText & Htext & Hchoice & Hne).
  apply extractPageId_result in Hid as [->|(found & -> & Hfound & Hdigits)]; [discriminate|].
  unfold mbind at 1, lift at 1. cbn [ToString].
  unfold mbind at 1, lift at 1. rewrite Htext.
  fold (contentRequest this found tokenText).
  set (req := contentRequest this found tokenText).
  assert (Hsent : exists pageId tokenText0,
             [req] = [contentRequest this pageId tokenText0] /\
             pageId <> "" /\ every digit pageId = true /\
             orStr userToken (Confluence.token this) = Some tokenText0 /\ tokenText0 <> "").
  { exists found, tokenText. now repeat split. }
  unfold mbind at 1, axios.
  destruct (net log req) as [r|msg c].
  2:{ eexists _, [req]. split; [reflexivity | now right]. }
  destruct (defaultValidate (status r)).
  2:{ eexists _, [req]. split; [reflexivity | now right]. }
  unfold mbind, lift, ret.
  destruct (getProp (data r) "title"); [|eexists _, [req]; split; [reflexivity | now right]].
  destruct (getProp (data r) "body"); [|eexists _, [req]; split; [reflexivity | now right]].
  destruct (getProp (data r) "version"); eexists _, [req]; (split; [reflexivity | now right]).
Qed.

(** [getSummary] adds nothing to what [fetchPageContent] sends. *)
Lemma getSummary_exchange (net : World) (this : Confluence.ConfluenceClient)
    (confluenceUrl : JsVal) (userToken : option string) (log : list Request) :
  exists result sent,
    Confluence.getSummary net this confluenceUrl userToken log = (Ok result, log ++ sent) /\
    (sent = [] \/
     exists pageId tokenText,
       sent = [contentRequest this pageId tokenText] /\
       pageId <> "" /\ every digit pageId = true /\
       orStr userToken (Confluence.token this) = Some tokenText /\ tokenText <> "").
Proof.
  unfold Confluence.getSummary, catch.
  destruct (negb (truthy (Confluence.extractUrl confluenceUrl))).
  { eexists _, []. rewrite app_nil_r. split; [reflexivity | now left]. }
  destruct (fetchPageContent_exchange net this (Confluence.extractUrl confluenceUrl)
              userToken log) as (page & sent & Hfetch & Hsent).
  unfold mbind at 1. rewrite Hfetch. unfold mbind, lift, ret.
  destruct (getProp page "success") as [success|e];
    [|eexists _, sent; split; [reflexivity | exact Hsent]].
  destruct (negb (truthy success)).
  - destruct (getProp page "error");
      eexists _, sent; (split; [reflexivity | exact Hsent]).
  - destruct (getProp page "body") as [pageBody|e];
      [|eexists _, sent; split; [reflexivity | exact Hsent]].
    destruct (Confluence.extractSummary pageBody);
      [|eexists _, sent; split; [reflexivity | exact Hsent]].
    destruct (getProp page "title");
      eexists _, sent; (split; [reflexivity | exact Hsent]).
Qed.

(** X5.  [getSummary] returns a result object and sends at most one
    request: a GET of the content of a page whose id is a non-empty string of
    digits, with the caller's token, or else the configured one, as bearer
    token and a timeout of ten seconds.  When neither token is present
    nothing is sent. *)
Theorem getSummary_one_request (net : World) (this : Confluence.ConfluenceClient)
    (confluenceUrl : JsVal) (userToken : option string) (log : list Request) :
  exists result sent,
    Confluence.getSummary net this confluenceUrl userToken log = (Ok result, log ++ sent) /\
    (sent = [] \/
     exists pageId tokenText,
       sent = [contentRequest this pageId tokenText] /\
       pageId <> "" /\ every digit pageId = true /\
       orStr userToken (Confluence.token this) = Some tokenText /\ tokenText <> "") /\
    (present userToken = false -> present (Confluence.token this) = false -> sent = []).
Proof.
  destruct (getSummary_exchange net this confluenceUrl userToken log)
    as (result & sent & Hrun & Hsent).
  exists result, sent. split; [exact Hrun|]. split; [exact Hsent|].
  intros Huser Hconf. destruct Hsent as [->|(pageId & tokenText & _ & _ & _ & Hchoice & Hne)];
    [reflexivity|].
  unfold orStr in Hchoice. rewrite Huser in Hchoice. rewrite Hchoice in Hconf.
  cbn in Hconf. apply negb_false_iff, String.eqb_eq in Hconf. contradiction.
Qed.

Lemma token_chosen (userToken configured : option string) (tokenText : string) :
  orStr userToken configured = Some tokenText -> tokenText <> "" ->
  or (Confluence.ofOption userToken) (Confluence.ofOption configured) = JStr tokenText.
Proof.
  unfold orStr, or. intros H Hne.
  destruct userToken as [[|c a]|]; cbn in *.
  - now subst.
  - now injection H as <-.
  - now subst.
Qed.

Lemma extractUrl_http (s : string) :
  Str.startsWith s "http" = true -> Confluence.extractUrl (JStr s) = JStr s.
Proof.
  intros H. unfold Confluence.extractUrl. cbn [typeofString andb]. rewrite H.
  destruct s; [discriminate | reflexivity].
Qed.

(** X6.  For a URL string that starts with [http] and has a page id, and a
    token, [getSummary] sends that one request and builds its result from
    the answer: a refused status gives the failure [Request failed with
    status code N], a network failure gives its message, and a 2xx answer
    with a body gives [success: true] with the title of the page and the
    summary extracted from [body.storage.value] (from the empty string when
    the page has none). *)
Theorem getSummary_reply (net : World) (this : Confluence.ConfluenceClient)
    (s pageId tokenText : string) (userToken : option string) (log : list Request) :
  Str.startsWith s "http" = true ->
  firstPageId s = Some pageId ->
  orStr userToken (Confluence.token this) = Some tokenText -> tokenText <> "" ->
  let req := contentRequest this pageId tokenText in
  exists result,
    Confluence.getSummary net this (JStr s) userToken log = (Ok result, log ++ [req]) /\
    match net log req with
    | Failure msg _ => msg <> "" -> result = failureResult msg
    | Reply r =>
        if defaultValidate (status r)
        then
          nullish (data r) = false ->
          exists summary,
            Confluence.extractSummary
              (or (getOpt (getOpt (get (data r) "body") "storage") "value") (JStr ""))
            = Ok summary /\
            result = JObj [ ("success", JBool true); ("summary", summary);
                            ("title", get (data r) "title"); ("error", JNull) ]
        else
          result = failureResult ("Request failed with status code " +:+ Str.of_Z (status r))
    end.
Proof.
  intros Hhttp Hid Htoken Hne req.
  assert (Hs : truthy (JStr s) = true) by (destruct s; [discriminate | reflexivity]).
  assert (Hp : truthy (JStr pageId) = true).
  { apply truthy_run. exact (proj1 (firstPageId_run s pageId Hid)). }
  unfold Confluence.getSummary, Confluence.fetchPageContent.
  rewrite !(extractUrl_http s Hhttp), Hs. cbn [negb].
  unfold catch at 1. unfold mbind at 1. unfold catch at 1.
  unfold mbind at 1, lift at 1. rewrite extractPageId_string, Hid, Hp. cbn [negb].
  rewrite (token_chosen _ _ _ Htoken Hne).
  assert (Ht : truthy (JStr tokenText) = true) by now apply truthy_run.
  rewrite Ht. cbn [negb].
  unfold mbind at 1, lift at 1. cbn [ToString].
  unfold mbind at 1, lift at 1.
  fold (contentRequest this pageId tokenText). fold req.
  unfold mbind at 1, axios.
  destruct (net log req) as [r|msg c].
  - destruct (defaultValidate (status r)).
    + unfold mbind, lift, ret, getProp.
      destruct (nullish (data r)) eqn:Hnull.
      * eexists. split; [reflexivity | discriminate].
      * remember (get (data r) "title") as title.
        remember (or (getOpt (getOpt (get (data r) "body") "storage") "value") (JStr ""))
          as pageBody.
        destruct (extractSummary_text pageBody) as (summary & Hsum & _).
        unfold Confluence.obj. cbn. rewrite Hsum.
        eexists. split; [reflexivity|]. intros _. now exists summary.
    + eexists. split; [reflexivity|]. reflexivity.
  - eexists. split; [reflexivity|]. intros Hmsg. cbn.
    unfold or, failureResult. cbn [truthy]. destruct msg; [contradiction | reflexivity].
Qed.

Lemma getSummary_reply_witness :
  Str.startsWith Examples.pageUrl "http" = true /\
  firstPageId Examples.pageUrl = Some "1" /\
  orStr None (Confluence.token Sample.wiki) = Some "wiki-token" /\
  exists result,
    Confluence.getSummary Sample.onePage Sample.wiki (JStr Examples.pageUrl) None []
    = (Ok result, [] ++ [contentRequest Sample.wiki "1" "wiki-token"]).
Proof.
  split; [reflexivity|]. split; [reflexivity|]. split; [reflexivity|].
  destruct (getSummary_reply Sample.onePage Sample.wiki Examples.pageUrl "1" "wiki-token"
              None [] eq_refl eq_refl eq_refl) as (result & Hrun & _); [discriminate|].
  now exists result.
Defined.

Lemma token_missing (userToken configured : option string) :
  present userToken = false -> present configured = false ->
  truthy (or (Confluence.ofOption userToken) (Confluence.ofOption configured)) = false.
Proof.
  destruct userToken as [[|c a]|], configured as [[|d b]|]; cbn; congruence.
Qed.

(** X7.  For a URL string that starts with [http], [getSummary] gives up
    before any request when the URL has no page id ([Could not extract page
    ID from Confluence URL]) and when neither the caller nor the client has a
    token ([Confluence token not available. Please provide token.]). *)
Theorem getSummary_guards (net : World) (this : Confluence.ConfluenceClient)
    (s : string) (userToken : option string) (log : list Request) :
  Str.startsWith s "http" = true ->
  match firstPageId s with
  | None =>
      Confluence.getSummary net this (JStr s) userToken log
      = (Ok (failureResult "Could not extract page ID from Confluence URL"), log)
  | Some _ =>
      present userToken = false -> present (Confluence.token this) = false ->
      Confluence.getSummary net this (JStr s) userToken log
      = (Ok (failureResult "Confluence token not available. Please provide token."), log)
  end.
Proof.
  intros Hhttp.
  assert (Hs : truthy (JStr s) = true) by (destruct s; [discriminate | reflexivity]).
  unfold Confluence.getSummary, Confluence.fetchPageContent.
  rewrite !(extractUrl_http s Hhttp), Hs. cbn [negb].
  unfold catch at 1. unfold mbind at 1. unfold catch at 1.
  unfold mbind at 1, lift at 1. rewrite extractPageId_string.
  destruct (firstPageId s) as [pageId|] eqn:Hid.
  - intros Huser Hconf.
    rewrite (truthy_run pageId (proj1 (firstPageId_run s pageId Hid))). cbn [negb].
    rewrite (token_missing _ _ Huser Hconf). reflexivity.
  - reflexivity.
Qed.

Lemma getSummary_guards_witness :
  Str.startsWith "https://nutanix.atlassian.net/wiki/spaces/NDB/overview" "http" = true /\
  Confluence.getSummary Sample.offline Sample.wiki
    (JStr "https://nutanix.atlassian.net/wiki/spaces/NDB/overview") None []
  = (Ok (failureResult "Could not extract page ID from Confluence URL"), []).
Proof.
  split; [reflexivity|].
  exact (getSummary_guards Sample.offline Sample.wiki
           "https://nutanix.atlassian.net/wiki/spaces/NDB/overview" None [] eq_refl).
Defined.

Lemma extractUrl_plain (s : string) :
  Str.startsWith s "http" = false -> Confluence.extractUrl (JStr s) = JNull.
Proof.
  intros H. unfold Confluence.extractUrl. cbn [typeofString typeofObject andb]. rewrite H.
  now destruct (negb (truthy (JStr s))).
Qed.

Lemma extractUrl_object (props : list (string * JsVal)) :
  Confluence.extractUrl (JObj props)
  = default JNull (firstTruthy [ get (JObj props) "url"; get (JObj props) "value";
                                 get (JObj props) "href" ]).
Proof.
  unfold Confluence.extractUrl, or. cbn [truthy negb typeofString typeofObject andb firstTruthy].
  destruct (truthy (get (JObj props) "url")) eqn:E1; [now rewrite !E1|].
  destruct (truthy (get (JObj props) "value")) eqn:E2; [now rewrite !E2|].
  destruct (truthy (get (JObj props) "href")) eqn:E3; now rewrite ?E3.
Qed.

(** X20.  [getSummary] answers [No valid Confluence URL provided], before
    any request, for a string that does not start with [http] and for an
    object none of whose fields [url], [value] and [href] is truthy.  For an
    object whose first truthy one of these fields is a string that does not
    start with [http] it answers [Invalid Confluence URL format]: the field
    is taken as the URL and refused when the page is fetched. *)
Theorem getSummary_url_guards (net : World) (this : Confluence.ConfluenceClient)
    (userToken : option string) (log : list Request) :
  (forall s,
     Str.startsWith s "http" = false ->
     Confluence.getSummary net this (JStr s) userToken log
     = (Ok (failureResult "No valid Confluence URL provided"), log)) /\
  (forall props s,
     firstTruthy [ get (JObj props) "url"; get (JObj props) "value";
                   get (JObj props) "href" ] = Some (JStr s) ->
     Str.startsWith s "http" = false ->
     Confluence.getSummary net this (JObj props) userToken log
     = (Ok (failureResult "Invalid Confluence URL format"), log)) /\
  (forall props,
     firstTruthy [ get (JObj props) "url"; get (JObj props) "value";
                   get (JObj props) "href" ] = None ->
     Confluence.getSummary net this (JObj props) userToken log
     = (Ok (failureResult "No valid Confluence URL provided"), log)).
Proof.
  split; [|split].
  - intros s Hs. unfold Confluence.getSummary. now rewrite (extractUrl_plain s Hs).
  - intros props s Hfirst Hs. unfold Confluence.getSummary, Confluence.fetchPageContent.
    assert (Hurl : Confluence.extractUrl (JObj props) = JStr s).
    { rewrite extractUrl_object. now rewrite Hfirst. }
    rewrite Hurl.
    rewrite (extractUrl_plain s Hs).
    assert (Ht : truthy (JStr s) = true).
    { cbn [firstTruthy] in Hfirst.
      destruct (truthy (get (JObj props) "url")) eqn:E1; [congruence|].
      destruct (truthy (get (JObj props) "value")) eqn:E2; [congruence|].
      destruct (truthy (get (JObj props) "href")) eqn:E3; congruence. }
    rewrite Ht. reflexivity.
  - intros props Hfirst. unfold Confluence.getSummary.
    assert (Hurl : Confluence.extractUrl (JObj props) = JNull).
    { rewrite extractUrl_object. now rewrite Hfirst. }
    now rewrite Hurl.
Qed.

(** ** The token on the wire *)

Lemma matchAt_newline (s : string) :
  matchAt newlineRegex s
  = match s with
    | EmptyString => None
    | String a s' =>
        if Ascii.eqb a "010" then Some (s', [])
        else if Ascii.eqb a "013"
        then match s' with
             | String b s'' => if Ascii.eqb b "010" then Some (s'', []) else None
             | EmptyString => None
             end
        else None
    end.
Proof.
  unfold matchAt, newlineRegex, opt. cbn [run]. unfold only.
  destruct s as [|a s']; [reflexivity|].
  destruct (Ascii.eqb a "013") eqn:Ecr.
  - apply Ascii.eqb_eq in Ecr. subst a. cbn [Ascii.eqb Bool.eqb andb].
    destruct s' as [|b s'']; [reflexivity|]. now destruct (Ascii.eqb b "010").
  - now destruct (Ascii.eqb a "010").
Qed.

Lemma sub_succ_same (n : nat) : S n - n = 1.
Proof. lia. Qed.

Lemma sub_succ2_same (n : nat) : S (S n) - n = 2.
Proof. lia. Qed.

Lemma replace_newline_clean (n : nat) :
  forall s, String.length s <= n ->
    every (except "010") (replaceAll newlineRegex "" s) = true.
Proof.
  induction n as [|n IH]; intros s Hlen.
  - destruct s; [reflexivity | cbn in Hlen; lia].
  - destruct s as [|a s']; [reflexivity|]. cbn [String.length] in Hlen.
    unfold replaceAll. cbn [replace_go]. rewrite matchAt_newline.
    destruct (Ascii.eqb a "010") eqn:Elf.
    { cbn [String.length]. rewrite sub_succ_same, append_nil_l. apply IH. lia. }
    assert (Hkeep : every (except "010") (String a (replace_go newlineRegex "" 0 s')) = true).
    { cbn [every]. unfold except at 1. rewrite Elf. apply (IH s'). lia. }
    destruct (Ascii.eqb a "013"); [|exact Hkeep].
    destruct s' as [|b s'']; [exact Hkeep|].
    destruct (Ascii.eqb b "010"); [|exact Hkeep].
    cbn [String.length] in *. rewrite sub_succ2_same, append_nil_l.
    cbn [replace_go]. apply IH. lia.
Qed.

Lemma cleanToken_clean (t clean : string) :
  cleanTokenOf (Some t) = Ok clean -> Str.includes clean (String "010" EmptyString) = false.
Proof.
  intros [= <-]. apply every_except. now apply (replace_newline_clean (String.length (Str.trim t))).
Qed.

Lemma accepts_200 (req : Request) (r : Response) :
  accepts req (Reply r) = true -> status r = 200%Z.
Proof.
  unfold accepts. destruct (isBearer req); cbn; intros H.
  - apply andb_true_iff in H as [H _]. apply andb_true_iff in H as [H _].
    apply andb_true_iff in H as [H _]. now apply Z.eqb_eq.
  - now apply Z.eqb_eq.
Qed.

Lemma Stopped_200 (net : World) (log sent : list Request) (r : Response) :
  Stopped net log sent (Ok r) -> status r = 200%Z.
Proof. intros (earlier & req & _ & _ & _ & Hacc). eapply accepts_200, Hacc. Qed.

Lemma Stopped_one (net : World) (log : list Request) (req : Request) (r : Response) :
  Stopped net log [req] (Ok r) -> accepts req (Reply r) = true.
Proof.
  intros (earlier & req' & Heq & _ & _ & Hacc).
  destruct earlier as [|x [|y earlier]]; [| |discriminate].
  - now injection Heq as ->.
  - discriminate.
Qed.

(** X8.  With a token, the caller's or else the configured one,
    [tryBearerTokenRequest] sends exactly one request, whatever comes back:
    the search with that token as bearer token, trimmed and freed of line
    breaks.  The cleaned token contains no line feed.  A returned response is
    the reply to that request, with status 200, not HTML, and a JSON object
    as body; the method throws exactly when the reply is not of that kind. *)
Theorem tryBearerTokenRequest_exchange (net : World) (this : JiraClient)
    (jql fields : JsVal) (token : option string) (log : list Request) :
  present (orStr token (pat this)) = true ->
  exists tokenToUse cleanToken result,
    orStr token (pat this) = Some tokenToUse /\
    cleanToken = replaceAll newlineRegex "" (Str.trim tokenToUse) /\
    tryBearerTokenRequest net this jql fields token log
      = (result, log ++ [bearerRequest this jql fields cleanToken]) /\
    Str.includes cleanToken (String "010" EmptyString) = false /\
    match result with
    | Ok r => net log (bearerRequest this jql fields cleanToken) = Reply r /\
              bearerAccepts (Reply r) = true
    | Throw e => bearerAccepts (net log (bearerRequest this jql fields cleanToken)) = false
    end.
Proof.
  intros Hpresent. destruct (orStr token (pat this)) as [tokenToUse|] eqn:Htoken;
    [|discriminate].
  set (cleanToken := replaceAll newlineRegex "" (Str.trim tokenToUse)).
  assert (Hclean : cleanTokenOf (orStr token (pat this)) = Ok cleanToken) by now rewrite Htoken.
  destruct (bearer_attempt net this jql fields token cleanToken log Hclean)
    as (result & Hrun & Hstop).
  exists tokenToUse, cleanToken, result. split; [reflexivity|]. split; [reflexivity|].
  split; [exact Hrun|]. split.
  - apply (cleanToken_clean tokenToUse). reflexivity.
  - assert (Hb := isBearer_bearerRequest this jql fields cleanToken).
    destruct result as [r|e].
    + destruct Hstop as (earlier & req' & Heq & _ & Hnet & Hacc).
      destruct earlier as [|x [|y earlier]]; [|discriminate|discriminate].
      injection Heq as <-. rewrite app_nil_r in Hnet. split; [exact Hnet|].
      unfold accepts in Hacc. now rewrite Hb in Hacc.
    + inversion Hstop as [|? ? ? Hno _]; subst. unfold accepts in Hno. now rewrite Hb in Hno.
Qed.

Lemma tryBearerTokenRequest_exchange_witness :
  present (orStr (Some " caller-token ") (pat Sample.client)) = true /\
  exists result,
    tryBearerTokenRequest Sample.bearerRefused Sample.client (JStr "project = NDB") (JArr [])
      (Some " caller-token ") []
    = (result,
       [] ++ [bearerRequest Sample.client (JStr "project = NDB") (JArr []) "caller-token"]).
Proof.
  split; [reflexivity|].
  destruct (tryBearerTokenRequest_exchange Sample.bearerRefused Sample.client
              (JStr "project = NDB") (JArr []) (Some " caller-token ") [] eq_refl)
    as (tokenToUse & cleanToken & result & Htoken & Hclean & Hrun & _).
  injection Htoken as <-. vm_compute in Hclean. subst cleanToken.
  now exists result.
Defined.


(** *** The wiki token *)

Lemma trimStart_blank (s : string) : Str.all_space s = true -> Str.trimStart s = "".
Proof.
  induction s as [|a s IH]; [reflexivity|]. cbn. intros H.
  apply andb_true_iff in H as [-> Hs]. now apply IH.
Qed.

Lemma trimStart_filled (s : string) :
  Str.all_space s = false ->
  exists a rest, Str.trimStart s = String a rest /\ Str.is_space a = false.
Proof.
  induction s as [|a s IH]; [discriminate|]. cbn.
  destruct (Str.is_space a) eqn:E; [exact IH|]. intros _. eauto.
Qed.

Lemma replace_newline_filled (a : ascii) (rest : string) :
  Str.is_space a = false ->
  exists rest', replaceAll newlineRegex "" (Str.trimEnd (String a rest)) = String a rest'.
Proof.
  intros Ha. cbn [Str.trimEnd Str.all_space]. rewrite Ha. cbn [andb].
  unfold replaceAll. cbn [replace_go]. rewrite matchAt_newline.
  destruct (Ascii.eqb a "010") eqn:Elf.
  { apply Ascii.eqb_eq in Elf. subst. discriminate. }
  destruct (Ascii.eqb a "013") eqn:Ecr.
  { apply Ascii.eqb_eq in Ecr. subst. discriminate. }
  eauto.
Qed.

(** X9.  A new [ConfluenceClient] talks to
    [https://nutanix.atlassian.net/wiki].  Its token is usable (truthy)
    exactly when the token file exists, can be read and is not blank; a
    loaded token contains no line feed. *)
Theorem newConfluenceClient_token (file : option (Res string)) :
  Confluence.baseUrl (Wiki.newConfluenceClient file) = "https://nutanix.atlassian.net/wiki" /\
  present (Confluence.token (Wiki.newConfluenceClient file)) = usable file /\
  match Confluence.token (Wiki.newConfluenceClient file) with
  | Some token => Str.includes token (String "010" EmptyString) = false
  | None => True
  end.
Proof.
  split; [reflexivity|]. destruct file as [[content|e]|]; cbn; try (now split).
  split.
  - unfold Str.trim. destruct (Str.all_space content) eqn:Hblank.
    + now rewrite trimStart_blank.
    + destruct (trimStart_filled content Hblank) as (a & rest & -> & Ha).
      now destruct (replace_newline_filled a rest Ha) as (rest' & ->).
  - apply every_except. now apply (replace_newline_clean (String.length (Str.trim content))).
Qed.


(** ** What the request loop hands back *)

Lemma patLoop_200 (net : World) (this : JiraClient) (jql fields : JsVal)
    (formats : list HeaderFormat) :
  forall log r log',
    patLoop net this jql fields formats log = (Ok r, log') -> status r = 200%Z.
Proof.
  induction formats as [|format rest IH]; intros log r log'; [discriminate|].
  cbn [patLoop]. unfold axios.
  destruct (net log _) as [r0|msg c].
  - destruct (anyStatus (status r0)).
    + destruct (status r0 =? 200)%Z eqn:H200.
      * intros [= <- _]. now apply Z.eqb_eq.
      * destruct ((status r0 =? 302)%Z || stringIncludes (data r0) "<!DOCTYPE"); apply IH.
    + destruct rest; [discriminate | apply IH].
  - destruct rest; [discriminate | apply IH].
Qed.

Lemma runMethod_ok (net : World) (this : JiraClient) (jql fields : JsVal)
    (tokenToUse : option string) (m : AuthMethod) (log log' : list Request) (r : Response) :
  runMethod net this jql fields tokenToUse m log = (Ok r, log') ->
  status r = 200%Z /\ (m = BearerToken -> bearerAccepts (Reply r) = true).
Proof.
  destruct m; cbn [runMethod]; intros Hrun.
  - destruct (cleanTokenOf (orStr tokenToUse (pat this))) as [cleanToken|e] eqn:Hclean.
    + destruct (bearer_attempt net this jql fields tokenToUse cleanToken log Hclean)
        as (result & Hrun' & Hstop).
      rewrite Hrun in Hrun'. injection Hrun' as <- _.
      apply Stopped_one in Hstop. split; [eapply accepts_200, Hstop|]. intros _.
      unfold accepts in Hstop. now rewrite isBearer_bearerRequest in Hstop.
    + unfold tryBearerTokenRequest, catch, mbind, lift in Hrun. rewrite Hclean in Hrun.
      discriminate.
  - split; [|discriminate].
    unfold tryPATTokenRequest, mbind, lift in Hrun.
    destruct (cleanTokenOf (pat this)); [|discriminate].
    eapply patLoop_200, Hrun.
  - split; [|discriminate].
    unfold tryBasicAuthRequest, mbind at 1, lift in Hrun.
    destruct (cleanTokenOf (pat this)) as [cleanToken|]; [|discriminate].
    match type of Hrun with basicLoop _ _ _ _ _ ?lastFormat ?formats _ = _ =>
      destruct (basic_loop net this jql fields cleanToken lastFormat formats log)
        as (result & sent & Hrun' & _ & Hstop) end.
    rewrite Hrun in Hrun'. injection Hrun' as <- _. eapply Stopped_200, Hstop.
Qed.

Lemma authLoop_result (net : World) (this : JiraClient) (jql fields : JsVal)
    (tokenToUse : option string) (methods : list AuthMethod) :
  forall errors log result log',
    authLoop net this jql fields tokenToUse methods errors log = (result, log') ->
    match result with
    | Ok r => status r = 200%Z /\ (methods = [BearerToken] -> bearerAccepts (Reply r) = true)
    | Throw e =>
        exists detail,
          e = Error ("All authentication methods failed. Last error: " +:+ detail)
    end.
Proof.
  induction methods as [|m rest IH]; intros errors log result log'.
  - intros [= <- _]. eauto.
  - cbn [authLoop].
    destruct (runMethod net this jql fields tokenToUse m log) as [[r|e] mid] eqn:Hm.
    + intros [= <- _]. destruct (runMethod_ok _ _ _ _ _ _ _ _ _ Hm) as [H200 Hb].
      split; [exact H200|]. intros [= -> _]. now apply Hb.
    + intros Hrest. specialize (IH _ _ _ _ Hrest).
      destruct result as [r|e']; [|exact IH].
      destruct IH as [H200 _]. split; [exact H200|].
      intros [= -> ->]. cbn in Hrest. discriminate.
Qed.

Lemma makeJiraRequest_bearer_only (net : World) (this : JiraClient) (jql fields : JsVal)
    (token : option string) (log : list Request) :
  present (orStr token (pat this)) = true ->
  exists cleanToken result,
    cleanTokenOf (orStr token (pat this)) = Ok cleanToken /\
    makeJiraRequest net this jql fields token log
    = (result, log ++ [bearerRequest this jql fields cleanToken]).
Proof.
  intros Hpresent. destruct (present_cleanToken _ Hpresent) as (cleanToken & Hclean).
  unfold makeJiraRequest, authMethods. rewrite Hpresent.
  cbn [negb app authLoop runMethod].
  destruct (bearer_attempt net this jql fields (orStr token (pat this)) cleanToken log)
    as (first & Hrun & _).
  { now rewrite orStr_idem. }
  rewrite Hrun. exists cleanToken.
  destruct first as [response|e]; eexists; (split; [exact Hclean | reflexivity]).
Qed.

Lemma makeJiraRequest_outcome (net : World) (this : JiraClient) (jql fields : JsVal)
    (token : option string) (log : list Request) :
  exists result log',
    makeJiraRequest net this jql fields token log = (result, log') /\
    match result with
    | Ok r =>
        status r = 200%Z /\
        (present (orStr token (pat this)) = true -> bearerAccepts (Reply r) = true)
    | Throw e =>
        response e = None /\ code e = None /\
        exists detail,
          message e = "All authentication methods failed. Last error: " +:+ detail
    end /\
    (present (orStr token (pat this)) = true ->
     exists cleanToken,
       cleanTokenOf (orStr token (pat this)) = Ok cleanToken /\
       log' = log ++ [bearerRequest this jql fields cleanToken]).
Proof.
  destruct (makeJiraRequest net this jql fields token log) as [result log'] eqn:Hrun.
  exists result, log'. split; [reflexivity|]. split.
  - unfold makeJiraRequest in Hrun. apply authLoop_result in Hrun.
    destruct result as [r|e].
    + destruct Hrun as [H200 Hb]. split; [exact H200|].
      intros Hpresent. apply Hb. unfold authMethods. now rewrite Hpresent.
    + destruct Hrun as (detail & ->). cbn. eauto.
  - intros Hpresent.
    destruct (makeJiraRequest_bearer_only net this jql fields token log Hpresent)
      as (cleanToken & result' & Hclean & Hrun').
    rewrite Hrun in Hrun'. injection Hrun' as _ ->. now exists cleanToken.
Qed.

(** X10.  [makeJiraRequest] returns only responses of status 200, and when
    a token is present (the caller's or the configured one) only a response
    whose body is a JSON object and not an HTML page.  When it throws, the
    error is a new [Error] without response or code, whose message starts
    with [All authentication methods failed. Last error: ]. *)
Theorem makeJiraRequest_result (net : World) (this : JiraClient) (jql fields : JsVal)
    (token : option string) (log : list Request) :
  exists result log',
    makeJiraRequest net this jql fields token log = (result, log') /\
    match result with
    | Ok r =>
        status r = 200%Z /\
        (present (orStr token (pat this)) = true -> bearerAccepts (Reply r) = true)
    | Throw e =>
        response e = None /\ code e = None /\
        exists detail,
          message e = "All authentication methods failed. Last error: " +:+ detail
    end.
Proof.
  destruct (makeJiraRequest_outcome net this jql fields token log)
    as (result & log' & Hrun & Hresult & _).
  now exists result, log'.
Qed.

(** ** Text columns *)

Lemma join_strings (sep : string) (texts : list string) :
  join sep (map JStr texts) = Ok (Str.join sep texts).
Proof.
  unfold join. induction texts as [|a texts IH]; [reflexivity|].
  cbn [map joinWith Str.join]. destruct texts as [|b texts]; [reflexivity|].
  cbn [map] in *. unfold piece at 1. cbn [nullish ToString bind].
  rewrite IH. reflexivity.
Qed.

Lemma charAt_named (s : string) (a : ascii) (rest : string) :
  digit a = false -> forall i, charAt s i (String a rest) = None.
Proof.
  intros Ha. induction s as [|c s IH]; intros i; cbn [charAt]; [reflexivity|].
  destruct (String.eqb (Str.of_nat i) (String a rest)) eqn:E; [|apply IH].
  apply String.eqb_eq, of_nat_digit in E. congruence.
Qed.

Lemma itemNames_labels (items : list JsVal) (names : list string) :
  Forall2 (fun item name => labelText item = Some name) items names ->
  itemNames items = Ok (map JStr names).
Proof.
  induction 1 as [|item name items names Hitem _ IH]; [reflexivity|].
  cbn [itemNames map]. rewrite IH.
  destruct item as [| |b|r|s|elems|props|native]; try discriminate Hitem.
  - injection Hitem as ->. unfold getProp, get, own. cbn [nullish String.eqb Ascii.eqb Bool.eqb].
    now rewrite charAt_named.
  - cbn [labelText] in Hitem. unfold getProp, get, own. cbn [nullish bind].
    destruct (assoc "name" props) as [[| | | |n| | |]|]; try discriminate Hitem.
    destruct (String.eqb n "") eqn:E; [discriminate|]. injection Hitem as ->.
    unfold orElse. cbn [truthy]. now rewrite E.
Qed.

(** X11.  For a column type without a case of its own ([text], or none),
    [formatFieldValue] renders an array of strings as its elements joined by
    a comma and a space, and an array that starts with an object as the
    labels of its entries joined in the same way: the non-empty [name] of an
    object, a string itself. *)
Theorem formatFieldValue_text_list (this : JiraClient) (type : option string) :
  plainType type = true ->
  (forall texts,
     formatFieldValue this (JArr (map JStr texts)) type = Ok (JStr (Str.join ", " texts))) /\
  (forall first rest names,
     typeofObject first = true ->
     Forall2 (fun item name => labelText item = Some name) (first :: rest) names ->
     formatFieldValue this (JArr (first :: rest)) type = Ok (JStr (Str.join ", " names))).
Proof.
  unfold plainType. intros Hplain. apply negb_true_iff in Hplain.
  repeat (apply orb_false_iff in Hplain as [Hplain ?]).
  assert (Hlist : forall items,
            formatFieldValue this (JArr items) type
            = match items with
              | [] => Ok (JStr "")
              | first :: _ =>
                  if typeofObject first
                  then (names <- itemNames items ;; str (join ", " names))%res
                  else str (join ", " items)
              end).
  { intros items. unfold formatFieldValue. cbn [nullish].
    now repeat match goal with H : isStr type _ = false |- _ => rewrite H; clear H end. }
  split.
  - intros texts. rewrite Hlist. destruct texts as [|a texts]; [reflexivity|].
    cbn [map typeofObject]. change (JStr a :: map JStr texts) with (map JStr (a :: texts)).
    now rewrite join_strings.
  - intros first rest names Hobj Hnames. rewrite Hlist, Hobj.
    rewrite (itemNames_labels _ _ Hnames). cbn [bind]. now rewrite join_strings.
Qed.

Lemma formatFieldValue_text_list_witness :
  plainType (Some "text") = true /\
  formatFieldValue Sample.client (JArr (map JStr ["ui"; "api"])) (Some "text")
  = Ok (JStr (Str.join ", " ["ui"; "api"])).
Proof.
  split; [reflexivity|].
  exact (proj1 (formatFieldValue_text_list Sample.client (Some "text") eq_refl) ["ui"; "api"]).
Defined.

(** ** The cells of a row *)

Lemma assoc_assign_same (row : list (string * JsVal)) (name : string) (value : JsVal) :
  assoc name (assign row name value) = Some value.
Proof. now rewrite assoc_assign, String.eqb_refl. Qed.

Lemma assoc_setProp_same (row : list (string * JsVal)) (name : string) (value : JsVal) :
  name <> "__proto__" -> assoc name (setProp row name value) = Some value.
Proof.
  intros Hne. unfold setProp. destruct (String.eqb name "__proto__") eqn:E.
  - apply String.eqb_eq in E. contradiction.
  - apply assoc_assign_same.
Qed.

Lemma applyColumn_cell (this : JiraClient) (issue : JsVal) (row : list (string * JsVal))
    (column : option Column) :
  applyColumn this issue row column
  = match column, appliedKey column with
    | Some col, Some name => (cell <- cellOf this issue col ;; Ok (setProp row name cell))%res
    | _, _ => Ok row
    end.
Proof.
  unfold applyColumn, appliedKey, cellOf. destruct column as [col|]; [|reflexivity].
  destruct (jiraField col) as [field|]; [|reflexivity].
  destruct (key col) as [name|]; [|cbn; now rewrite andb_false_r].
  cbn [present default from_option]. unfold id.
  destruct (negb (String.eqb field "") && negb (String.eqb name "")); [|reflexivity].
  destruct (getFieldValue issue field) as [fieldValue|e]; [|reflexivity].
  cbn [bind]. destruct (isStr (type col) "labelCheck" && present (labelToCheck col)).
  - now destruct (checkLabel fieldValue _).
  - reflexivity.
Qed.

Lemma applyColumns_app (this : JiraClient) (issue : JsVal) (before after : list (option Column)) :
  forall row,
    applyColumns this issue row (before ++ after)
    = (row' <- applyColumns this issue row before ;; applyColumns this issue row' after)%res.
Proof.
  induction before as [|column before IH]; intros row; [reflexivity|].
  cbn [app applyColumns]. destruct (applyColumn this issue row column); [apply IH | reflexivity].
Qed.

Lemma applyColumns_keeps (this : JiraClient) (issue : JsVal) (name : string)
    (columns : list (option Column)) :
  name ∉ appliedKeys columns ->
  forall row row', applyColumns this issue row columns = Ok row' ->
                   assoc name row' = assoc name row.
Proof.
  induction columns as [|column columns IH]; intros Hnot row row'.
  - now intros [= <-].
  - cbn [applyColumns]. rewrite applyColumn_cell.
    unfold appliedKeys in *. cbn [omap list_omap] in Hnot.
    destruct column as [col|]; [|cbn; apply IH, Hnot].
    destruct (appliedKey (Some col)) as [k|]; [|apply IH, Hnot].
    apply not_elem_of_cons in Hnot as [Hne Hnot].
    destruct (cellOf this issue col) as [cell|e]; [|discriminate].
    cbn [bind]. intros Hrest. rewrite (IH Hnot _ _ Hrest).
    now apply assoc_setProp_other.
Qed.

Lemma formatIssue_cell (this : JiraClient) (issue : JsVal)
    (before after : list (option Column)) (col : Column) (name : string)
    (row : list (string * JsVal)) :
  appliedKey (Some col) = Some name -> name <> "__proto__" ->
  name ∉ appliedKeys after ->
  formatIssue this (before ++ Some col :: after) issue = Ok row ->
  exists cell, cellOf this issue col = Ok cell /\ assoc name row = Some cell.
Proof.
  intros Hkey Hproto Hlast. unfold formatIssue.
  destruct (getProp issue "key") as [issueKey|]; [|discriminate]. cbn [bind].
  destruct (ToString issueKey) as [keyText|]; [|discriminate]. cbn [bind].
  rewrite applyColumns_app.
  destruct (applyColumns this issue _ before) as [row1|]; [|discriminate].
  cbn [bind applyColumns]. rewrite applyColumn_cell, Hkey.
  destruct (cellOf this issue col) as [cell|]; [|discriminate].
  cbn [bind]. intros Hrest. exists cell. split; [reflexivity|].
  rewrite (applyColumns_keeps this issue name after Hlast _ _ Hrest).
  now apply assoc_setProp_same.
Qed.

(** X12.  In the rows [formatIssues] returns, the entry under the output
    key of a column holds what that column shows for the issue: the answer of
    the label check, or the formatted value of the source field.  When
    several columns share an output key, the last one applied wins. *)
Theorem formatIssues_cells (this : JiraClient) (before after : list (option Column))
    (col : Column) (name : string) (issues : list JsVal) (useAllColumns : bool)
    (rows : list (list (string * JsVal))) :
  defaultColumns this = Some (before ++ Some col :: after) ->
  appliedKey (Some col) = Some name -> name <> "__proto__" ->
  name ∉ appliedKeys after ->
  formatIssues this (JArr issues) useAllColumns = Ok rows ->
  Forall2 (fun issue row =>
             exists cell, cellOf this issue col = Ok cell /\ assoc name row = Some cell)
          issues rows.
Proof.
  intros Hcols Hkey Hproto Hlast. unfold formatIssues. rewrite Hcols. cbn [default].
  revert rows. induction issues as [|issue issues IH]; intros rows.
  - intros [= <-]. constructor.
  - cbn [mapIssues].
    destruct (formatIssue this _ issue) as [row|] eqn:Hrow; [|discriminate]. cbn [bind].
    destruct (mapIssues this _ issues) as [rest|]; [|discriminate]. cbn [bind].
    intros [= <-]. constructor; [|now apply IH].
    exact (formatIssue_cell this issue before after col name row Hkey Hproto Hlast Hrow).
Qed.

Lemma formatIssues_cells_witness :
  defaultColumns Sample.client
  = Some (take 3 Sample.columns ++ Some Examples.riskColumn :: []) /\
  appliedKey (Some Examples.riskColumn) = Some "risk" /\
  exists rows,
    formatIssues Sample.client (JArr [Sample.issue]) false = Ok rows /\
    Forall2 (fun issue row =>
               exists cell, cellOf Sample.client issue Examples.riskColumn = Ok cell /\
                            assoc "risk" row = Some cell)
            [Sample.issue] rows.
Proof.
  split; [reflexivity|]. split; [reflexivity|].
  destruct (formatIssues Sample.client (JArr [Sample.issue]) false) as [rows|e] eqn:Hrows;
    [|vm_compute in Hrows; discriminate].
  exists rows. split; [reflexivity|].
  apply (formatIssues_cells Sample.client (take 3 Sample.columns) [] Examples.riskColumn
           "risk" [Sample.issue] false rows eq_refl eq_refl);
    [discriminate | apply not_elem_of_nil | exact Hrows].
Defined.

(** ** Errors raised by the engine carry no response *)

Lemma plain_orElse (a : JsVal) (k : Res JsVal) : plainRes k -> plainRes (orElse a k).
Proof. unfold orElse. now destruct (truthy a). Qed.

Lemma plain_str (m : Res string) : plainRes m -> plainRes (str m).
Proof. unfold str. intros H. now apply plain_bind. Qed.

Lemma plain_getProp (v : JsVal) (name : string) : plainRes (getProp v name).
Proof. unfold getProp. now destruct (nullish v). Qed.

Lemma plain_toString (v : JsVal) : plainRes (toString v).
Proof.
  destruct v as [| |b|r|s|items|props|native]; try (now split); try apply plain_ToString.
  cbn [toString]. now destruct (assoc "toString" props).
Qed.

Lemma plain_ToPrimitive (v : JsVal) : plainRes (ToPrimitive v).
Proof.
  destruct v; try exact I; unfold ToPrimitive;
    (apply plain_bind; [apply plain_ToString | now intros]).
Qed.

Lemma plain_toLowerCase (v : JsVal) : plainRes (toLowerCase v).
Proof. now destruct v. Qed.

Lemma plain_join (sep : string) (items : list JsVal) : plainRes (join sep items).
Proof. apply plain_joinWith, Forall_forall. intros x _. apply plain_ToString. Qed.

Lemma plain_callJoin (v : JsVal) (sep : string) : plainRes (callJoin v sep).
Proof. destruct v as [| | | | | | |[| |]]; try (now split). apply plain_join. Qed.

Lemma plain_walk (parts : list string) : forall value, plainRes (walk value parts).
Proof.
  induction parts as [|part rest IH]; intros value; [exact I|].
  cbn [walk]. destruct (truthy value && typeofObject value); [apply IH | exact I].
Qed.

Lemma plain_getFieldValue (issue : JsVal) (path : string) : plainRes (getFieldValue issue path).
Proof.
  unfold getFieldValue. destruct (negb (truthy issue) || String.eqb path ""); [exact I|].
  destruct (String.eqb path "key"); [apply plain_getProp|].
  apply plain_bind; [apply plain_getProp|]. intros fields.
  destruct (negb (truthy fields)); [exact I | apply plain_walk].
Qed.

Lemma plain_itemNames (items : list JsVal) : plainRes (itemNames items).
Proof.
  induction items as [|item items IH]; [exact I|]. cbn [itemNames].
  apply plain_bind; [apply plain_getProp|]. intros name.
  apply plain_bind; [apply plain_orElse, plain_str, plain_toString|]. intros shown.
  now apply plain_bind.
Qed.

Ltac plain_steps :=
  repeat first
    [ exact I
    | apply plain_getProp | apply plain_ToString | apply plain_toString
    | apply plain_ToPrimitive | apply plain_toLowerCase | apply plain_join
    | apply plain_callJoin | apply plain_itemNames | apply plain_getFieldValue
    | apply plain_orElse | apply plain_str
    | apply plain_bind; [|intros ?]
    | match goal with
      | |- plainRes (Throw (TypeError _)) => split; reflexivity
      | |- plainRes (Throw (Error _)) => split; reflexivity
      | |- plainRes (if ?b then _ else _) => destruct b
      | |- plainRes (match ?x with _ => _ end) => destruct x
      end ].

Lemma plain_formatFieldValue (this : JiraClient) (value : JsVal) (type : option string) :
  plainRes (formatFieldValue this value type).
Proof. unfold formatFieldValue. plain_steps. Qed.

Lemma plain_someLabel (labelToCheck : string) (labels : list JsVal) :
  plainRes (someLabel labelToCheck labels).
Proof.
  induction labels as [|label labels IH]; [exact I|]. cbn [someLabel].
  plain_steps. exact IH.
Qed.

Lemma plain_checkLabel (labels : JsVal) (labelToCheck : string) :
  plainRes (checkLabel labels labelToCheck).
Proof.
  unfold checkLabel. destruct (negb (truthy labels)); [exact I|].
  destruct labels as [| | | | | | |[| |]]; try exact I.
  apply plain_bind; [apply plain_someLabel | now intros].
Qed.

Lemma plain_applyColumns (this : JiraClient) (issue : JsVal) (columns : list (option Column)) :
  forall row, plainRes (applyColumns this issue row columns).
Proof.
  induction columns as [|column columns IH]; intros row; [exact I|].
  cbn [applyColumns]. apply plain_bind; [|exact IH].
  rewrite applyColumn_cell. destruct column as [col|]; [|exact I].
  destruct (appliedKey (Some col)); [|exact I].
  apply plain_bind; [|now intros]. unfold cellOf.
  apply plain_bind; [apply plain_getFieldValue|]. intros fieldValue.
  destruct (isStr (type col) "labelCheck" && present (labelToCheck col)).
  - apply plain_bind; [apply plain_checkLabel | now intros].
  - apply plain_formatFieldValue.
Qed.

Lemma plain_formatIssues (this : JiraClient) (issues : JsVal) (useAllColumns : bool) :
  plainRes (formatIssues this issues useAllColumns).
Proof.
  unfold formatIssues. destruct issues as [| | | | |items| |]; try exact I.
  induction items as [|issue items IH]; [exact I|]. cbn [mapIssues].
  apply plain_bind.
  - unfold formatIssue. plain_steps. apply plain_applyColumns.
  - intros row. apply plain_bind; [exact IH | now intros].
Qed.

(** ** The fetches *)

Lemma of_nat_zero (n : nat) : Str.of_nat n = "0" -> n = 0.
Proof.
  unfold Str.of_nat. intros H.
  assert (Hu : NilEmpty.uint_of_string (NilEmpty.string_of_uint (Nat.to_uint n))
               = NilEmpty.uint_of_string "0") by now rewrite H.
  rewrite NilEmpty.usu in Hu. cbn in Hu. injection Hu as Hu.
  rewrite <- (DecimalNat.Unsigned.of_to n), Hu. reflexivity.
Qed.

Section Fetches.
Variable net : World.
Variable this : JiraClient.
Variable config : Fetch.Config.
Variable engine : Fetch.Engine.

Lemma plain_greaterThanZero (v : JsVal) : plainRes (Fetch.greaterThanZero engine v).
Proof.
  destruct v; try exact I; cbn [Fetch.greaterThanZero];
    (apply plain_bind; [apply plain_ToString | now intros]).
Qed.

Lemma plain_extractErrorMessage (error : JsError) :
  plainRes (Fetch.extractErrorMessage this engine error).
Proof.
  unfold Fetch.extractErrorMessage.
  apply plain_bind; [apply plain_greaterThanZero|]. intros [|].
  - apply plain_bind; [apply plain_callJoin | now intros].
  - destruct (truthy _); [exact I|]. destruct (Fetch.withStatus error); [exact I|].
    destruct (_ || _); [exact I|]. now destruct (_ || _).
Qed.

Lemma extractErrorMessage_plain (error : JsError) :
  plain error ->
  Fetch.extractErrorMessage this engine error = Ok (JStr (plainMessage error)).
Proof.
  destruct error as [msg resp c]. intros [Hr Hc]. cbn in Hr, Hc. subst.
  unfold Fetch.extractErrorMessage, Fetch.withStatus, plainMessage. cbn.
  now destruct (Str.includes msg "timeout").
Qed.

Lemma rethrow_throws {A : Type} (prefix : string) (error : JsError) (log : list Request) :
  exists e, Fetch.rethrow (A := A) this engine prefix error log = (Throw e, log) /\ plain e.
Proof.
  unfold Fetch.rethrow, mbind, lift, throw.
  assert (H1 := plain_extractErrorMessage error).
  destruct (Fetch.extractErrorMessage this engine error) as [errorMessage|e]; [|eauto].
  assert (H2 := plain_ToString errorMessage).
  destruct (ToString errorMessage) as [text|e]; [|eauto].
  eexists. split; [reflexivity | now split].
Qed.

Lemma rethrow_plain {A : Type} (prefix : string) (error : JsError) (log : list Request) :
  plain error ->
  Fetch.rethrow (A := A) this engine prefix error log
  = (Throw (Error (prefix +:+ plainMessage error)), log).
Proof.
  intros H. unfold Fetch.rethrow, mbind, lift, throw.
  now rewrite (extractErrorMessage_plain error H).
Qed.

(** The search and the checks on what it brought *)
Lemma search_checked (query fields : JsVal) (tokenToUse : option string) (log : list Request) :
  exists result log',
    (response <- makeJiraRequest net this query fields tokenToUse ;;
     if stringIncludes (data response) "<!DOCTYPE html>"
     then throw (Error Fetch.htmlInsteadOfJson)
     else
       issues <- lift (getProp (data response) "issues") ;;
       _ <- lift (ToString (or (getOpt issues "length") (JNum "0"))) ;;
       _ <- lift (ToString (or (get (data response) "total") (JNum "0"))) ;;
       ret (data response))%net log = (result, log') /\
    match result with
    | Ok data =>
        nullish data = false /\
        (present (orStr tokenToUse (pat this)) = true ->
         truthy data = true /\ typeofObject data = true)
    | Throw e => plain e
    end /\
    (present (orStr tokenToUse (pat this)) = true ->
     exists cleanToken,
       cleanTokenOf (orStr tokenToUse (pat this)) = Ok cleanToken /\
       log' = log ++ [bearerRequest this query fields cleanToken]).
Proof.
  unfold mbind at 1.
  destruct (makeJiraRequest_outcome net this query fields tokenToUse log)
    as (first & mid & Hrun & Hfirst & Htrace).
  rewrite Hrun. destruct first as [response|e].
  2:{ eexists _, _. split; [reflexivity|]. split; [|exact Htrace].
      split; [apply Hfirst | apply Hfirst]. }
  destruct Hfirst as [_ Hobject].
  destruct (stringIncludes (data response) "<!DOCTYPE html>").
  { eexists _, _. split; [reflexivity|]. split; [now split | exact Htrace]. }
  unfold mbind, lift, ret. unfold getProp.
  destruct (nullish (data response)) eqn:Hnull.
  { eexists _, _. split; [reflexivity|]. split; [now split | exact Htrace]. }
  assert (H1 := plain_ToString (or (getOpt (get (data response) "issues") "length") (JNum "0"))).
  destruct (ToString (or (getOpt (get (data response) "issues") "length") (JNum "0")));
    [|eexists _, _; split; [reflexivity | split; [exact H1 | exact Htrace]]].
  assert (H2 := plain_ToString (or (get (data response) "total") (JNum "0"))).
  destruct (ToString (or (get (data response) "total") (JNum "0")));
    [|eexists _, _; split; [reflexivity | split; [exact H2 | exact Htrace]]].
  eexists _, _. split; [reflexivity|]. split; [|exact Htrace]. split; [exact Hnull|].
  intros Hpresent. specialize (Hobject Hpresent). cbn in Hobject.
  apply andb_true_iff in Hobject as [Hobject Hobj].
  apply andb_true_iff in Hobject as [_ Htruthy]. now split.
Qed.

Lemma plain_columnFields (columns : list (option Column)) :
  plainRes (Fetch.columnFields columns).
Proof.
  induction columns as [|[col|] columns IH]; [exact I | | now split].
  cbn [Fetch.columnFields]. now apply plain_bind.
Qed.

Lemma catch_rethrow (body : M JsVal) (prefix : string) (log : list Request)
    (P : JsVal -> Prop) (Q : list Request -> Prop) :
  (exists result log',
     body log = (result, log') /\
     match result with Ok data => P data | Throw e => plain e end /\ Q log') ->
  exists result log',
    catch body (Fetch.rethrow this engine prefix) log = (result, log') /\
    match result with
    | Ok data => P data
    | Throw e => plain e /\ exists detail, message e = prefix +:+ detail
    end /\ Q log'.
Proof.
  intros (result & log' & Hbody & Hresult & Hlog). unfold catch. rewrite Hbody.
  destruct result as [data|e]; [now exists (Ok data), log'|].
  rewrite (rethrow_plain prefix e log' Hresult).
  eexists _, _. split; [reflexivity|]. split; [|exact Hlog]. split; [now split | eauto].
Qed.

Lemma refreshColumns_outcome (jql : JsVal) (userToken : option string) (log : list Request) :
  exists result log',
    Fetch.refreshColumns net this config engine jql userToken log = (result, log') /\
    match result with
    | Ok data =>
        nullish data = false /\
        (present (orStr userToken (pat this)) = true ->
         truthy data = true /\ typeofObject data = true)
    | Throw e =>
        plain e /\ exists detail, message e = "Failed to refresh columns: " +:+ detail
    end /\
    (present (orStr userToken (pat this)) = true ->
     log' = log \/
     exists names cleanToken,
       names <> [] /\
       cleanTokenOf (orStr userToken (pat this)) = Ok cleanToken /\
       log' = log ++ [bearerRequest this (or jql (Fetch.jql config)) (JArr names) cleanToken]).
Proof.
  unfold Fetch.refreshColumns.
  apply (catch_rethrow _ _ _ _
           (fun log' =>
              present (orStr userToken (pat this)) = true ->
              log' = log \/
              exists names cleanToken,
                names <> [] /\
                cleanTokenOf (orStr userToken (pat this)) = Ok cleanToken /\
                log' = log ++ [bearerRequest this (or jql (Fetch.jql config)) (JArr names)
                                 cleanToken])).
  unfold mbind at 1, lift at 1.
  match goal with |- context [match ?m with Ok _ => _ | Throw _ => _ end] =>
    assert (Hm : plainRes m /\ forall mapped, m = Ok mapped -> exists names, mapped = JArr names);
      [|destruct Hm as [Hm Harr]; destruct m as [mapped|e]] end.
  { destruct (defaultColumns this) as [columns|].
    - split; [apply plain_bind; [apply plain_columnFields | now intros]|].
      intros mapped. destruct (Fetch.columnFields columns) as [names|]; [|discriminate].
      intros [= <-]. eauto.
    - split; [exact I|]. intros mapped [= <-]. unfold Fetch.defaultFields. eauto. }
  2:{ eexists _, _. split; [reflexivity|]. split; [exact Hm | now left]. }
  destruct (Harr mapped eq_refl) as (names & ->).
  unfold mbind at 1, lift at 1.
  assert (Hs := plain_ToString (get (JArr names) "length")).
  destruct (ToString (get (JArr names) "length"));
    [|eexists _, _; split; [reflexivity | split; [exact Hs | now left]]].
  match goal with |- context [makeJiraRequest net this ?query ?fields ?tokenToUse] =>
    destruct (search_checked query fields tokenToUse log)
      as (result & log' & Hrun & Hresult & Htrace);
    assert (Hfields : exists sent, sent <> [] /\ fields = JArr sent) end.
  { destruct names as [|name names]; [now exists [JStr "key"; JStr "summary"; JStr "status"]|].
    exists (name :: names). split; [discriminate|].
    cbn [truthy negb orb get own String.eqb Ascii.eqb Bool.eqb length Fetch.isZero].
    destruct (String.eqb (Str.of_nat (S (length names))) "0") eqn:E; [|reflexivity].
    apply String.eqb_eq, of_nat_zero in E. discriminate. }
  exists result, log'. split; [exact Hrun|]. rewrite orStr_idem in Hresult, Htrace. split.
  - destruct result; exact Hresult.
  - intros Hpresent. right. destruct (Htrace Hpresent) as (cleanToken & Hclean & ->).
    destruct Hfields as (sent & Hne & ->). now exists sent, cleanToken.
Qed.

Lemma fetchAllData_outcome (jql : JsVal) (userToken : option string) (log : list Request) :
  exists result log',
    Fetch.fetchAllData net this config engine jql userToken log = (result, log') /\
    match result with
    | Ok data =>
        nullish data = false /\
        (present (orStr userToken (pat this)) = true ->
         truthy data = true /\ typeofObject data = true)
    | Throw e =>
        plain e /\ exists detail, message e = "Failed to fetch all Jira data: " +:+ detail
    end /\
    (present (orStr userToken (pat this)) = true ->
     log' = log \/
     exists fields cleanToken,
       cleanTokenOf (orStr userToken (pat this)) = Ok cleanToken /\
       log' = log ++ [bearerRequest this (or jql (Fetch.jql config)) fields cleanToken]).
Proof.
  unfold Fetch.fetchAllData.
  apply (catch_rethrow _ _ _ _
           (fun log' =>
              present (orStr userToken (pat this)) = true ->
              log' = log \/
              exists fields cleanToken,
                cleanTokenOf (orStr userToken (pat this)) = Ok cleanToken /\
                log' = log ++ [bearerRequest this (or jql (Fetch.jql config)) fields
                                 cleanToken])).
  unfold mbind at 1, lift at 1.
  match goal with |- context [ToString ?v] =>
    assert (Hs := plain_ToString v); destruct (ToString v);
      [|eexists _, _; split; [reflexivity | split; [exact Hs | now left]]] end.
  match goal with |- context [makeJiraRequest net this ?query ?fields ?tokenToUse] =>
    destruct (search_checked query fields tokenToUse log)
      as (result & log' & Hrun & Hresult & Htrace) end.
  exists result, log'. split; [exact Hrun|]. rewrite orStr_idem in Hresult, Htrace. split.
  - destruct result; exact Hresult.
  - intros Hpresent. right. destruct (Htrace Hpresent) as (cleanToken & Hclean & ->).
    eauto.
Qed.

End Fetches.

(** X13.  [refreshColumns] and [fetchAllData] return a body that is
    neither [null] nor [undefined], and with a token present a JSON object.
    Whatever fails, they throw a new [Error] without response or code whose
    message starts with [Failed to refresh columns: ] or [Failed to fetch all
    Jira data: ]: the status and the body of a refused reply are not passed
    on.  With a token present they send nothing or one bearer request, with
    the cleaned token and the given query (or else the configured one);
    [refreshColumns] never asks for an empty list of fields. *)
Theorem fetches_outcome (net : World) (this : JiraClient) (config : Fetch.Config)
    (engine : Fetch.Engine) (jql : JsVal) (userToken : option string) (log : list Request) :
  (exists result log',
     Fetch.refreshColumns net this config engine jql userToken log = (result, log') /\
     match result with
     | Ok data =>
         nullish data = false /\
         (present (orStr userToken (pat this)) = true ->
          truthy data = true /\ typeofObject data = true)
     | Throw e =>
         plain e /\ exists detail, message e = "Failed to refresh columns: " +:+ detail
     end /\
     (present (orStr userToken (pat this)) = true ->
      log' = log \/
      exists names cleanToken,
        names <> [] /\
        cleanTokenOf (orStr userToken (pat this)) = Ok cleanToken /\
        log' = log ++ [bearerRequest this (or jql (Fetch.jql config)) (JArr names) cleanToken])) /\
  (exists result log',
     Fetch.fetchAllData net this config engine jql userToken log = (result, log') /\
     match result with
     | Ok data =>
         nullish data = false /\
         (present (orStr userToken (pat this)) = true ->
          truthy data = true /\ typeofObject data = true)
     | Throw e =>
         plain e /\ exists detail, message e = "Failed to fetch all Jira data: " +:+ detail
     end /\
     (present (orStr userToken (pat this)) = true ->
      log' = log \/
      exists fields cleanToken,
        cleanTokenOf (orStr userToken (pat this)) = Ok cleanToken /\
        log' = log ++ [bearerRequest this (or jql (Fetch.jql config)) fields cleanToken])).
Proof. split; [apply refreshColumns_outcome | apply fetchAllData_outcome]. Qed.

(** ** The handlers over the client *)

Lemma failed_plain (env : Server.Env) (error : JsError) :
  plain error -> Server.statusCode (Server.failed env error) = 500%Z.
Proof. intros [H _]. unfold Server.failed. now rewrite H. Qed.

(** What follows a fetch in a handler *)
Lemma rows_outcome (this : JiraClient) (data : JsVal) (useAllColumns : bool)
    (build : JsVal -> list (list (string * JsVal)) -> JsVal) (log : list Request) :
  exists result,
    (issues <- lift (getProp data "issues") ;;
     formattedIssues <- lift (formatIssues this issues useAllColumns) ;;
     total <- lift (getProp data "total") ;;
     ret (Server.mkReply 200 (build total formattedIssues)))%net log = (result, log) /\
    match result with
    | Ok reply => Server.statusCode reply = 200%Z
    | Throw e => plain e
    end.
Proof.
  unfold mbind, lift, ret.
  assert (H1 := plain_getProp data "issues").
  destruct (getProp data "issues") as [issues|];
    [|eexists; split; [reflexivity | exact H1]].
  assert (H2 := plain_formatIssues this issues useAllColumns).
  destruct (formatIssues this issues useAllColumns);
    [|eexists; split; [reflexivity | exact H2]].
  assert (H3 := plain_getProp data "total").
  destruct (getProp data "total"); eexists; (split; [reflexivity|]);
    [reflexivity | exact H3].
Qed.

Lemma orStr_present (a b : option string) : present a = true -> orStr a b = a.
Proof. unfold orStr. now intros ->. Qed.

Section Guarded.
Variable env : Server.Env.
Variable net : World.
Variable this : JiraClient.
Variable config : Fetch.Config.
Variable engine : Fetch.Engine.

(** The shape shared by the two token-guarded handlers *)
Lemma guarded_outcome (fetch : JsVal -> option string -> M JsVal) (useAllColumns : bool)
    (build : JsVal -> list (list (string * JsVal)) -> JsVal)
    (jql : JsVal) (userToken : option string) (log : list Request) :
  present userToken = true ->
  (exists result log',
     fetch jql userToken log = (result, log') /\
     match result with Ok _ => True | Throw e => plain e end /\
     (log' = log \/
      exists query fields cleanToken,
        cleanTokenOf userToken = Ok cleanToken /\
        log' = log ++ [bearerRequest this query fields cleanToken])) ->
  exists reply log',
    catch
      (data <- fetch jql userToken ;;
       issues <- lift (getProp data "issues") ;;
       formattedIssues <- lift (formatIssues this issues useAllColumns) ;;
       total <- lift (getProp data "total") ;;
       ret (Server.mkReply 200 (build total formattedIssues)))%net
      (fun error => ret (Server.failed env error)) log = (Ok reply, log') /\
    (Server.statusCode reply = 200%Z \/ Server.statusCode reply = 500%Z) /\
    (log' = log \/
     exists query fields cleanToken,
       cleanTokenOf userToken = Ok cleanToken /\
       log' = log ++ [bearerRequest this query fields cleanToken]).
Proof.
  intros Hpresent (result & mid & Hfetch & Hplain & Htrace).
  unfold catch. unfold mbind at 1. rewrite Hfetch.
  destruct result as [data|e].
  - destruct (rows_outcome this data useAllColumns build mid) as (result & -> & Hresult).
    destruct result as [reply|e].
    + exists reply, mid. split; [reflexivity|]. split; [now left | exact Htrace].
    + eexists _, mid. split; [reflexivity|]. split; [right; now apply failed_plain | exact Htrace].
  - eexists _, mid. split; [reflexivity|]. split; [right; now apply failed_plain | exact Htrace].
Qed.

End Guarded.

Lemma refreshColumnsHandler_guarded (env : Server.Env) (net : World) (this : JiraClient)
    (config : Fetch.Config) (engine : Fetch.Engine) (req : Server.ExpressRequest)
    (log : list Request) :
  exists reply log',
    Server.refreshColumnsHandler env (Routes.api net this config engine) req log
    = (Ok reply, log') /\
    guardedReply this (Server.headers req !! "x-jira-token") log reply log'.
Proof.
  set (userToken := Server.headers req !! "x-jira-token").
  unfold guardedReply, Server.refreshColumnsHandler. fold userToken.
  destruct (present userToken) eqn:Hpresent; cbn [negb].
  2:{ unfold catch. eexists _, _. split; [reflexivity | now split]. }
  assert (Huse : orStr userToken (pat this) = userToken) by now apply orStr_present.
  apply (guarded_outcome env this
           (Server.refreshColumns (Routes.api net this config engine)) false
           (fun total formattedIssues =>
              JObj [ ("success", JBool true); ("total", total);
                     ("issues", Server.rows formattedIssues);
                     ("message", JStr "Columns refreshed successfully") ])).
  { exact Hpresent. }
  cbn [Server.refreshColumns Routes.api].
  match goal with |- context [Fetch.refreshColumns _ _ _ _ ?jql _ _] =>
    destruct (refreshColumns_outcome net this config engine jql userToken log)
      as (result & log' & Hrun & Hresult & Htrace) end.
  exists result, log'. split; [exact Hrun|]. rewrite Huse in *. split.
  - destruct result; [exact I | apply Hresult].
  - destruct (Htrace Hpresent) as [->|(names & cleanToken & _ & Hclean & ->)];
      [now left | right; eauto].
Qed.

Lemma fetchAllDataHandler_guarded (env : Server.Env) (net : World) (this : JiraClient)
    (config : Fetch.Config) (engine : Fetch.Engine) (req : Server.ExpressRequest)
    (log : list Request) :
  exists reply log',
    Server.fetchAllDataHandler env (Routes.api net this config engine) req log
    = (Ok reply, log') /\
    guardedReply this (Server.headers req !! "x-jira-token") log reply log'.
Proof.
  set (userToken := Server.headers req !! "x-jira-token").
  unfold guardedReply, Server.fetchAllDataHandler. fold userToken.
  destruct (present userToken) eqn:Hpresent; cbn [negb].
  2:{ unfold catch. eexists _, _. split; [reflexivity | now split]. }
  assert (Huse : orStr userToken (pat this) = userToken) by now apply orStr_present.
  apply (guarded_outcome env this
           (Server.fetchAllData (Routes.api net this config engine)) true
           (fun total formattedIssues =>
              JObj [ ("success", JBool true); ("total", total);
                     ("issues", Server.rows formattedIssues);
                     ("message", JStr "All data fetched successfully") ])).
  { exact Hpresent. }
  cbn [Server.fetchAllData Routes.api].
  match goal with |- context [Fetch.fetchAllData _ _ _ _ ?jql _ _] =>
    destruct (fetchAllData_outcome net this config engine jql userToken log)
      as (result & log' & Hrun & Hresult & Htrace) end.
  exists result, log'. split; [exact Hrun|]. rewrite Huse in *. split.
  - destruct result; [exact I | apply Hresult].
  - destruct (Htrace Hpresent) as [->|(fields & cleanToken & Hclean & ->)];
      [now left | right; eauto].
Qed.

(** X14.  Over the client of the module, the two token-guarded handlers
    answer a request that carries a token with status 200 or 500, never with
    the status of the tracker's reply: the client's errors carry no response.
    What they send is at most one bearer request, with the caller's token and
    never the configured one.  Without a token they answer 401 and send
    nothing. *)
Theorem guarded_handlers_over_client (env : Server.Env) (net : World) (this : JiraClient)
    (config : Fetch.Config) (engine : Fetch.Engine) (req : Server.ExpressRequest)
    (log : list Request) :
  let jiraClient := Routes.api net this config engine in
  let userToken := Server.headers req !! "x-jira-token" in
  (exists reply log',
     Server.refreshColumnsHandler env jiraClient req log = (Ok reply, log') /\
     guardedReply this userToken log reply log') /\
  (exists reply log',
     Server.fetchAllDataHandler env jiraClient req log = (Ok reply, log') /\
     guardedReply this userToken log reply log').
Proof.
  split; [apply refreshColumnsHandler_guarded | apply fetchAllDataHandler_guarded].
Qed.

(** X15.  The legacy handler [/api/issues] asks for no token: for a client
    that passed [validateConfiguration] it answers 200 or 500, and what it
    sends is at most one bearer request, with the configured token. *)
Theorem issuesHandler_configured_token (net : World) (this : JiraClient)
    (config : Fetch.Config) (engine : Fetch.Engine) (req : Server.ExpressRequest)
    (log : list Request) :
  Fetch.validateConfiguration this = Ok tt ->
  exists reply log',
    Routes.issuesHandler net this config engine req log = (Ok reply, log') /\
    (Server.statusCode reply = 200%Z \/ Server.statusCode reply = 500%Z) /\
    (log' = log \/
     exists query names cleanToken,
       names <> [] /\
       cleanTokenOf (pat this) = Ok cleanToken /\
       log' = log ++ [bearerRequest this query (JArr names) cleanToken]).
Proof.
  intros Hvalid.
  assert (Hpat : present (pat this) = true).
  { unfold Fetch.validateConfiguration in Hvalid.
    destruct (String.eqb (baseUrl this) ""); [discriminate|].
    now destruct (present (pat this)). }
  unfold Routes.issuesHandler, catch. unfold mbind at 1.
  match goal with |- context [Fetch.refreshColumns _ _ _ _ ?jql _ _] =>
    destruct (refreshColumns_outcome net this config engine jql None log)
      as (result & mid & Hrun & _ & Htrace) end.
  rewrite Hrun.
  assert (Hsent : mid = log \/
                  exists query names cleanToken,
                    names <> [] /\
                    cleanTokenOf (pat this) = Ok cleanToken /\
                    mid = log ++ [bearerRequest this query (JArr names) cleanToken]).
  { destruct (Htrace Hpat) as [->|(names & cleanToken & Hne & Hclean & ->)]; [now left|].
    right. eexists _, names, cleanToken. split; [exact Hne|]. split; [exact Hclean|].
    reflexivity. }
  destruct result as [data|e].
  - destruct (rows_outcome this data false
                (fun total formattedIssues =>
                   JObj [ ("success", JBool true); ("total", total);
                          ("issues", Server.rows formattedIssues) ]) mid)
      as (result & -> & Hresult).
    destruct result as [reply|e].
    + exists reply, mid. split; [reflexivity|]. split; [now left | exact Hsent].
    + eexists _, mid. split; [reflexivity|]. split; [now right | exact Hsent].
  - eexists _, mid. split; [reflexivity|]. split; [now right | exact Hsent].
Qed.

Lemma issuesHandler_configured_token_witness :
  Fetch.validateConfiguration Sample.client = Ok tt /\
  exists reply log',
    Routes.issuesHandler Examples.tracker Sample.client Examples.config Examples.engine
      (Server.mkReq ∅ ∅) []
    = (Ok reply, log') /\
    (Server.statusCode reply = 200%Z \/ Server.statusCode reply = 500%Z).
Proof.
  split; [reflexivity|].
  destruct (issuesHandler_configured_token Examples.tracker Sample.client Examples.config
              Examples.engine (Server.mkReq ∅ ∅) [] eq_refl)
    as (reply & log' & Hrun & Hstatus & _).
  now exists reply, log'.
Defined.

(** ** Issue details *)

Lemma of_nat_positive (n : nat) :
  n <> 0 ->
  negb (String.prefix "-" (Str.of_nat n) || String.eqb (Str.of_nat n) "0"
        || String.eqb (Str.of_nat n) "NaN") = true.
Proof.
  intros Hn. destruct (Str.of_nat n) as [|a rest] eqn:E; [reflexivity|].
  assert (Hd := of_nat_digit n a rest E).
  assert (H0 : String.eqb (String a rest) "0" = false).
  { destruct (String.eqb (String a rest) "0") eqn:E0; [|reflexivity].
    apply String.eqb_eq in E0. rewrite E0 in E. now apply of_nat_zero in E. }
  rewrite H0. cbn [String.prefix].
  destruct (ascii_dec "-" a) as [<-|_]; [discriminate|].
  destruct (String.eqb (String a rest) "NaN") eqn:EN; [|reflexivity].
  apply String.eqb_eq in EN. injection EN as -> _. discriminate.
Qed.

Lemma falsy_ToString (v : JsVal) : truthy v = false -> exists s, ToString v = Ok s.
Proof. destruct v as [| |[|]| | | | |]; try discriminate; intros _; eexists; reflexivity. Qed.

Section Details.
Variable net : World.
Variable this : JiraClient.
Variable engine : Fetch.Engine.

Lemma getIssueDetails_missing (issueKey : JsVal) (log : list Request) :
  truthy issueKey = false ->
  Fetch.getIssueDetails net this engine issueKey log
  = (Throw (Error "Failed to fetch issue details: Issue key is required"), log).
Proof.
  intros Hkey. unfold Fetch.getIssueDetails, catch. rewrite Hkey. cbn [negb throw].
  unfold mbind at 1, lift at 1. destruct (falsy_ToString issueKey Hkey) as (s & ->).
  rewrite (rethrow_plain this engine); [reflexivity | now split].
Qed.

Lemma getIssueDetails_exchange (key token : string) (log : list Request) :
  key <> "" -> pat this = Some token ->
  let req := issueRequest this key (replaceAll newlineRegex "" (Str.trim token)) in
  exists result,
    Fetch.getIssueDetails net this engine (JStr key) log = (result, log ++ [req]) /\
    match net log req with
    | Reply r =>
        if defaultValidate (status r) then result = Ok (data r)
        else
          (forall messages,
             messages <> [] -> nullish (data r) = false ->
             get (data r) "errorMessages" = JArr (map JStr messages) ->
             result = Throw (Error ("Failed to fetch issue details: "
                                    +:+ Str.join "; " messages))) /\
          (getOpt (data r) "errorMessages" = JUndefined \/
           getOpt (data r) "errorMessages" = JArr [] ->
           truthy (getOpt (data r) "message") = false -> (status r =? 0)%Z = false ->
           result = Throw (Error ("Failed to fetch issue details: "
                                  +:+ default ("HTTP " +:+ Str.of_Z (status r) +:+ ": "
                                               +:+ statusText r)
                                        (Fetch.statusMessages (status r)))))
    | Failure msg c =>
        c = "ENOTFOUND" \/ c = "ECONNREFUSED" ->
        result = Throw (Error ("Failed to fetch issue details: Cannot connect to "
                               +:+ baseUrl this
                               +:+ ". Please check your network connection and VPN status."))
    end.
Proof.
  intros Hkey Hpat req.
  assert (Htruthy : truthy (JStr key) = true) by now apply truthy_run.
  unfold Fetch.getIssueDetails, catch. rewrite Htruthy, Hpat. cbn [negb].
  unfold mbind at 1, lift at 1. cbn [ToString].
  unfold mbind at 1, lift at 1. cbn [cleanTokenOf].
  fold (issueRequest this key (replaceAll newlineRegex "" (Str.trim token))). fold req.
  unfold mbind at 1, axios.
  destruct (net log req) as [r|msg c].
  - destruct (defaultValidate (status r)); [eexists; split; reflexivity|].
    unfold mbind at 1, lift at 1. cbn [ToString].
    destruct (rethrow_throws (A := JsVal) this engine "Failed to fetch issue details: "
                (statusError r) (log ++ [req])) as (e & Hre & _).
    rewrite Hre. eexists. split; [reflexivity|].
    unfold Fetch.rethrow, mbind, lift, throw in Hre.
    unfold Fetch.extractErrorMessage, Fetch.withStatus in Hre.
    cbn [response statusError] in Hre. split.
    + intros messages Hne Hnull Hmsgs. unfold getOpt in Hre. rewrite Hnull, Hmsgs in Hre.
      cbn [nullish get own String.eqb Ascii.eqb Bool.eqb Fetch.greaterThanZero bind] in Hre.
      rewrite of_nat_positive in Hre by (destruct messages; [contradiction | discriminate]).
      cbn [callJoin] in Hre. rewrite join_strings in Hre. cbn [bind ToString] in Hre.
      congruence.
    + intros Hnone Hmessage H0.
      assert (Hsome : Fetch.greaterThanZero engine
                        (getOpt (getOpt (data r) "errorMessages") "length") = Ok false).
      { destruct Hnone as [->| ->]; reflexivity. }
      rewrite Hsome in Hre. cbn [bind] in Hre. rewrite Hmessage, H0 in Hre.
      cbn [ToString bind] in Hre. congruence.
  - unfold mbind at 1, lift at 1. cbn [ToString].
    destruct (rethrow_throws (A := JsVal) this engine "Failed to fetch issue details: "
                (mkError msg None (Some c)) (log ++ [req])) as (e & Hre & _).
    rewrite Hre. eexists. split; [reflexivity|].
    unfold Fetch.rethrow, mbind, lift, throw in Hre.
    unfold Fetch.extractErrorMessage, Fetch.withStatus in Hre.
    cbn [response code getOpt nullish Fetch.greaterThanZero bind truthy] in Hre.
    intros [-> | ->]; cbn in Hre; injection Hre as <-; reflexivity.
Qed.

End Details.

(** X16.  [getIssueDetails] refuses a missing key before any request
    ([Failed to fetch issue details: Issue key is required]).  For a key and
    a configured token it sends one GET of [/rest/api/2/issue/<key>] with the
    cleaned token as bearer token and returns the body of a 2xx reply.  A
    reply with another status whose body holds a non-empty array of strings
    under [errorMessages] is reported with these strings joined by a
    semicolon and a space.  One whose body has no [errorMessages], or an
    empty array, and no truthy [message] (a reply without a body is such a
    one) is reported with the text for its status (401, 403, 404, 500, 503),
    else with [HTTP <status>: <statusText>].  A host that cannot be found or
    reached is reported as [Cannot connect to <baseUrl>. ...].  The handler
    [/api/issue/:key] answers 200 with the body and 500 with the message of
    the error. *)
Theorem getIssueDetails_behaviour (net : World) (this : JiraClient) (engine : Fetch.Engine)
    (log : list Request) :
  (forall issueKey,
     truthy issueKey = false ->
     Fetch.getIssueDetails net this engine issueKey log
     = (Throw (Error "Failed to fetch issue details: Issue key is required"), log)) /\
  (forall key token,
     key <> "" -> pat this = Some token ->
     let req := issueRequest this key (replaceAll newlineRegex "" (Str.trim token)) in
     exists result,
       Fetch.getIssueDetails net this engine (JStr key) log = (result, log ++ [req]) /\
       match net log req with
       | Reply r =>
           if defaultValidate (status r) then result = Ok (data r)
           else
             (forall messages,
                messages <> [] -> nullish (data r) = false ->
                get (data r) "errorMessages" = JArr (map JStr messages) ->
                result = Throw (Error ("Failed to fetch issue details: "
                                       +:+ Str.join "; " messages))) /\
             (getOpt (data r) "errorMessages" = JUndefined \/
              getOpt (data r) "errorMessages" = JArr [] ->
              truthy (getOpt (data r) "message") = false -> (status r =? 0)%Z = false ->
              result = Throw (Error ("Failed to fetch issue details: "
                                     +:+ default ("HTTP " +:+ Str.of_Z (status r) +:+ ": "
                                                  +:+ statusText r)
                                           (Fetch.statusMessages (status r)))))
       | Failure msg c =>
           c = "ENOTFOUND" \/ c = "ECONNREFUSED" ->
           result = Throw (Error ("Failed to fetch issue details: Cannot connect to "
                                  +:+ baseUrl this
                                  +:+ ". Please check your network connection and VPN status."))
       end) /\
  (forall key,
     exists reply log',
       Routes.issueHandler net this engine key log = (Ok reply, log') /\
       match Fetch.getIssueDetails net this engine (JStr key) log with
       | (Ok issue, _) =>
           reply = Server.mkReply 200 (JObj [ ("success", JBool true); ("issue", issue) ])
       | (Throw e, _) => reply = Routes.failure 500 (message e)
       end).
Proof.
  split; [|split].
  - intros issueKey. apply getIssueDetails_missing.
  - intros key token. apply getIssueDetails_exchange.
  - intros key. unfold Routes.issueHandler, catch, mbind.
    destruct (Fetch.getIssueDetails net this engine (JStr key) log) as [[issue|e] log'];
      eexists _, _; split; reflexivity.
Qed.

(** ** The wiki handlers *)

Lemma summary_not_null (result : JsVal) : isSummaryResult result -> nullish result = false.
Proof. destruct result; try reflexivity; intros [H|[H _]]; discriminate. Qed.

(** X17.  The handler [/api/confluence/summary] answers 400 without a
    request when the [url] parameter is missing or empty.  Otherwise it
    answers 200 with the result of [getSummary], a failed fetch included; 500
    occurs only when the parameter has no string form. *)
Theorem confluenceSummaryHandler_status (net : World) (this : Confluence.ConfluenceClient)
    (req : Server.ExpressRequest) (log : list Request) :
  let url := default JUndefined (Server.query req !! "url") in
  exists reply log',
    Routes.confluenceSummaryHandler net this req log = (Ok reply, log') /\
    if truthy url
    then
      match ToString url with
      | Ok _ =>
          Server.statusCode reply = 200%Z /\ isSummaryResult (Server.json reply) /\
          Confluence.getSummary net this url (Routes.wikiToken (Server.headers req)) log
          = (Ok (Server.json reply), log')
      | Throw e => reply = Routes.failure 500 (Routes.messageOr e
                                                  "Failed to fetch Confluence summary")
                   /\ log' = log
      end
    else reply = Routes.failure 400 "Confluence URL is required" /\ log' = log.
Proof.
  intros url. unfold Routes.confluenceSummaryHandler, catch. fold url.
  destruct (truthy url); cbn [negb]; [|eexists _, _; split; [reflexivity | now split]].
  unfold mbind at 1, lift at 1.
  destruct (ToString url) as [text|e]; [|eexists _, _; split; [reflexivity | now split]].
  destruct (getSummary_returns net this url (Routes.wikiToken (Server.headers req)) log)
    as (result & log' & Hrun & Hresult).
  unfold mbind at 1. rewrite Hrun.
  unfold mbind at 1, lift at 1. rewrite getProp_present by now apply summary_not_null.
  destruct Hresult as [Hok|[Hno (msg & Hmsg)]].
  - rewrite Hok. cbn [truthy]. unfold mbind, ret.
    eexists _, _. split; [reflexivity|]. cbn. split; [reflexivity|]. split; [now left|].
    reflexivity.
  - rewrite Hno. cbn [truthy]. unfold mbind at 1. unfold mbind at 1, lift at 1.
    rewrite getProp_present by (apply summary_not_null; right; eauto).
    rewrite Hmsg. unfold lift, ret. cbn [ToString].
    eexists _, _. split; [reflexivity|]. cbn. split; [reflexivity|]. split; [right; eauto|].
    reflexivity.
Qed.

Lemma summariesOf_trace (net : World) (this : Confluence.ConfluenceClient)
    (userToken : option string) (urls : list JsVal) :
  forall log, exists summaries sent,
    Confluence.summariesOf net this urls userToken log = (Ok summaries, log ++ sent) /\
    length sent <= length urls.
Proof.
  induction urls as [|url urls IH]; intros log.
  - exists [], []. rewrite app_nil_r. split; [reflexivity | reflexivity].
  - destruct (getSummary_exchange net this url userToken log)
      as (summary & first & Hone & Hfirst).
    destruct (IH (log ++ first)) as (summaries & sent & Hrest & Hlen).
    exists (summary :: summaries), (first ++ sent). split.
    + cbn [Confluence.summariesOf]. unfold mbind. rewrite Hone, Hrest, app_assoc. reflexivity.
    + rewrite length_app. cbn [length].
      destruct Hfirst as [->|(pageId & tokenText & -> & _)]; cbn [length]; lia.
Qed.

Lemma getSummaries_strings (net : World) (this : Confluence.ConfluenceClient)
    (userToken : option string) (urls : list string) (log : list Request) :
  exists results log',
    Confluence.getSummaries net this (map JStr urls) userToken log = (Ok results, log').
Proof.
  destruct (summariesOf_total net this userToken urls log) as (summaries & log' & Hsum & Hall).
  assert (Hlen : length summaries = length urls) by (symmetry; eapply Forall2_length; eauto).
  destruct (collect_strings urls summaries ∅ Hlen) as (results & Hcollect & _).
  exists results, log'. unfold Confluence.getSummaries, mbind. rewrite Hsum.
  unfold lift. now rewrite Hcollect.
Qed.

(** X18.  The handler [/api/confluence/summaries] answers 400 without a
    request unless [urls] of the body is an array, and 500 when the request
    has no body.  For an array it sends at most one request per entry; for an
    array of strings it answers with the mapping of [getSummaries]. *)
Theorem confluenceSummariesHandler_reply (net : World) (this : Confluence.ConfluenceClient)
    (req : Routes.PostRequest) (log : list Request) :
  exists reply sent,
    Routes.confluenceSummariesHandler net this req log = (Ok reply, log ++ sent) /\
    match Routes.destructure (Routes.body req) "urls" "req.body" with
    | Ok (JArr urls) =>
        length sent <= length urls /\
        (forall texts, urls = map JStr texts ->
           exists results,
             reply = Routes.Summaries results /\
             Confluence.getSummaries net this urls (Routes.wikiToken (Routes.postHeaders req)) log
             = (Ok results, log ++ sent))
    | Ok _ => reply = Routes.Plain (Routes.failure 400 "URLs array is required") /\ sent = []
    | Throw e =>
        reply = Routes.Plain (Routes.failure 500 (Routes.messageOr e
                                                    "Failed to fetch Confluence summaries"))
        /\ sent = []
    end.
Proof.
  unfold Routes.confluenceSummariesHandler, catch. unfold mbind at 1, lift at 1.
  destruct (Routes.destructure _ _ _) as [urls|e].
  2:{ eexists _, []. rewrite app_nil_r. split; [reflexivity | now split]. }
  destruct urls as [| |b|r|s|urls|props|native];
    try (eexists _, []; rewrite app_nil_r; split; [reflexivity | now split]).
  unfold Confluence.getSummaries. unfold mbind at 1. unfold mbind at 1.
  destruct (summariesOf_trace net this (Routes.wikiToken (Routes.postHeaders req)) urls log)
    as (summaries & sent & Hsum & Hlen).
  rewrite Hsum. unfold lift, ret.
  destruct (Confluence.collect ∅ urls summaries) as [results|e] eqn:Hcollect.
  - eexists _, sent. split; [reflexivity|]. split; [exact Hlen|].
    intros texts ->. exists results. split; [reflexivity|].
    unfold Confluence.getSummaries, mbind. rewrite Hsum. unfold lift. now rewrite Hcollect.
  - eexists _, sent. split; [reflexivity|]. split; [exact Hlen|].
    intros texts ->.
    destruct (getSummaries_strings net this (Routes.wikiToken (Routes.postHeaders req))
                texts log) as (results & log' & Hrun).
    unfold Confluence.getSummaries, mbind in Hrun. rewrite Hsum in Hrun.
    unfold lift in Hrun. rewrite Hcollect in Hrun. discriminate.
Qed.

(** ** The token test *)

(** X19.  The token test answers 400 without a request when the token is
    empty.  Otherwise it sends one GET of [/rest/pat/latest/tokens] with the
    trimmed token as bearer token and a timeout of ten seconds, to the
    configured base URL or else to [https://jira.nutanix.com].  It answers
    200 with the number of tokens when the reply has status 200 and an array
    as body, 401 when the reply has status 401 or 403, and 500 otherwise. *)
Theorem testTokenHandler_status (net : World) (configuredBaseUrl : option string)
    (req : Routes.PostRequest) (token : string) (log : list Request) :
  nullish (Routes.body req) = false ->
  get (Routes.body req) "token" = JStr token ->
  let baseUrl := default "https://jira.nutanix.com" (orStr configuredBaseUrl None) in
  let wire := tokenRequest baseUrl (Str.trim token) in
  exists reply log',
    Routes.testTokenHandler net configuredBaseUrl req log = (Ok reply, log') /\
    if String.eqb token ""
    then reply = Routes.failure 400 "Token is required" /\ log' = log
    else
      log' = log ++ [wire] /\
      match net log wire with
      | Reply r =>
          if (status r =? 200)%Z
          then
            match data r with
            | JArr tokens =>
                reply = Server.mkReply 200
                          (JObj [ ("success", JBool true);
                                  ("message", JStr "Token is valid");
                                  ("tokenCount", JNum (Str.of_nat (length tokens))) ])
            | _ => reply = Routes.failure 500 "Invalid response from token endpoint"
            end
          else if (status r =? 401)%Z || (status r =? 403)%Z
          then reply = Routes.failure 401 "Invalid token. Please check your Bearer token (PAT)."
          else Server.statusCode reply = 500%Z
      | Failure msg _ =>
          reply = Routes.failure 500 (if String.eqb msg "" then "Failed to test token" else msg)
      end.
Proof.
  intros Hbody Htoken baseUrl wire.
  unfold Routes.testTokenHandler. unfold catch at 1. unfold mbind at 1, lift at 1.
  assert (Hd : Routes.destructure (Routes.body req) "token" "req.body" = Ok (JStr token)).
  { unfold Routes.destructure. rewrite Htoken. now destruct (Routes.body req). }
  rewrite Hd. cbn [truthy]. destruct (String.eqb token "") eqn:Hempty; cbn [negb].
  { eexists _, _. split; [reflexivity | now split]. }
  unfold catch. unfold mbind at 1, lift at 1. unfold mbind at 1.
  fold baseUrl. fold (tokenRequest baseUrl (Str.trim token)). fold wire.
  unfold axios. destruct (net log wire) as [r|msg c].
  - destruct (defaultValidate (status r)) eqn:Hvalid.
    + destruct (status r =? 200)%Z eqn:H200.
      * destruct (data r); eexists _, _; (split; [reflexivity|]); (split; reflexivity).
      * assert (Hnot : (status r =? 401)%Z || (status r =? 403)%Z = false).
        { unfold defaultValidate in Hvalid. apply andb_true_iff in Hvalid as [_ Hlt].
          apply Z.ltb_lt in Hlt. apply orb_false_iff.
          split; apply Z.eqb_neq; lia. }
        rewrite Hnot.
        destruct (data r); eexists _, _; (split; [reflexivity|]); (split; reflexivity).
    + cbn [response statusError].
      assert (H200 : (status r =? 200)%Z = false).
      { apply Z.eqb_neq. intros H. rewrite H in Hvalid. discriminate. }
      rewrite H200.
      destruct ((status r =? 401)%Z || (status r =? 403)%Z);
        eexists _, _; (split; [reflexivity|]); (split; reflexivity).
  - cbn [response]. eexists _, _. split; [reflexivity|]. split; reflexivity.
Qed.

Lemma testTokenHandler_status_witness :
  nullish (Routes.body (Routes.mkPost (JObj [("token", JStr " abc ")]) ∅)) = false /\
  exists reply log',
    Routes.testTokenHandler Examples.tokenEndpoint None
      (Routes.mkPost (JObj [("token", JStr " abc ")]) ∅) []
    = (Ok reply, log').
Proof.
  split; [reflexivity|].
  destruct (testTokenHandler_status Examples.tokenEndpoint None
              (Routes.mkPost (JObj [("token", JStr " abc ")]) ∅) " abc " [] eq_refl eq_refl)
    as (reply & log' & Hrun & _).
  now exists reply, log'.
Defined.
